(** * Windows hotplug monitor of libusb: a shallow embedding

    This development embeds the Windows hotplug core of libusb
    (the event monitor thread, its window procedure, the start/stop
    entry points and the per-context device-list reconciliation) and
    proves the properties its design document states about it.

    The C code talks to three kinds of collaborators that are not part
    of the file itself:
    - the Win32 API (CreateThread, CreateWindow, GetMessage, ...),
      modelled as an oracle record [win32] giving the outcome of each
      call;
    - the backend's [get_device_list], a Section variable;
    - the libusb core helpers [usbi_disconnect_device],
      [usbi_detach_device] and [usbi_hotplug_notification].

    Every call to a collaborator is recorded in a trace of [event]s, so
    that statements about "what is emitted, and in which order" are
    statements about that trace. *)

From Stdlib Require Import ZArith List String Bool Lia.
Import ListNotations.
Local Open Scope Z_scope.

(** ** Constants *)

Definition LIBUSB_SUCCESS : Z := 0.
Definition LIBUSB_ERROR_OTHER : Z := -99.

(** The null pointer / null handle. Handles and object addresses are
    integers, as in C. *)
Definition NULL : Z := 0.

(** ** Data model *)

(** Modelled from the spec: the enumeration of discovery tags is declared
    in windows_common.h, which is not part of the sources at hand; the
    code names [NO_LONGER_DISCOVERED] and [NEWLY_DISCOVERED], the two
    other tags are the ones the data model lists. *)
Inductive discovery_status_t : Type :=
| NOT_YET_SEEN
| STILL_PRESENT
| NEWLY_DISCOVERED
| NO_LONGER_DISCOVERED.

Definition discovery_status_eqb (a b : discovery_status_t) : bool :=
  match a, b with
  | NOT_YET_SEEN, NOT_YET_SEEN
  | STILL_PRESENT, STILL_PRESENT
  | NEWLY_DISCOVERED, NEWLY_DISCOVERED
  | NO_LONGER_DISCOVERED, NO_LONGER_DISCOVERED => true
  | _, _ => false
  end.

(** A [struct libusb_device] together with the two fields of its
    [winusb_device_priv] that the hotplug code reads and writes.
    [dev_addr] is the address of the object: the C code identifies a
    device by pointer. *)
Record libusb_device : Type := mk_device {
  dev_addr : Z;
  discovery_status : discovery_status_t;
  initialized : bool
}.

(** A [struct libusb_context]: its address and its intrusive list
    [usb_devs], in list order. *)
Record libusb_context : Type := mk_context {
  ctx_addr : Z;
  usb_devs : list libusb_device
}.

Definition set_discovery_status (s : discovery_status_t) (d : libusb_device)
  : libusb_device :=
  mk_device (dev_addr d) s (initialized d).

Definition set_usb_devs (c : libusb_context) (l : list libusb_device)
  : libusb_context :=
  mk_context (ctx_addr c) l.

Inductive libusb_hotplug_event : Type :=
| LIBUSB_HOTPLUG_EVENT_DEVICE_ARRIVED
| LIBUSB_HOTPLUG_EVENT_DEVICE_LEFT.

(** ** The trace of calls to collaborators *)

Inductive event : Type :=
(* logging *)
| E_log_error (operation : string)            (* the log_error macro *)
| E_usbi_err (ctx : Z) (msg : string) (ret : Z)
| E_usbi_dbg (msg : string)
(* registry lock *)
| E_lock_active_contexts
| E_unlock_active_contexts
(* backend and libusb core *)
| E_get_device_list (ctx : Z)
| E_disconnect_device (ctx dev : Z)
| E_detach_device (ctx dev : Z)
| E_hotplug_notification (ctx dev : Z) (ev : libusb_hotplug_event)
(* Win32 *)
| E_CreateThread
| E_SendMessage (hWnd msg : Z)
| E_WaitForSingleObject (h : Z)
| E_CloseHandle (h : Z)
| E_RegisterClass
| E_CreateWindow
| E_GetMessage (hWnd : Z)
| E_TranslateMessage
| E_DispatchMessage
| E_RegisterDeviceNotification (hWnd : Z)
| E_UnregisterDeviceNotification (h : Z)
| E_DestroyWindow (hWnd : Z)
| E_PostQuitMessage
| E_DefWindowProc (msg : Z).

Definition is_disconnect_of (dev : Z) (e : event) : bool :=
  match e with E_disconnect_device _ d => d =? dev | _ => false end.

Definition is_detach_of (dev : Z) (e : event) : bool :=
  match e with E_detach_device _ d => d =? dev | _ => false end.

(** A removal notification: a disconnect or a silent detach. *)
Definition is_removal (e : event) : bool :=
  match e with
  | E_disconnect_device _ _ | E_detach_device _ _ => true
  | _ => false
  end.

Definition is_arrival (e : event) : bool :=
  match e with
  | E_hotplug_notification _ _ LIBUSB_HOTPLUG_EVENT_DEVICE_ARRIVED => true
  | _ => false
  end.

Definition is_notification (e : event) : bool :=
  match e with
  | E_disconnect_device _ _ | E_detach_device _ _
  | E_hotplug_notification _ _ _ => true
  | _ => false
  end.

Definition is_lock_event (e : event) : bool :=
  match e with
  | E_lock_active_contexts | E_unlock_active_contexts => true
  | _ => false
  end.

(** Number of elements of [l] that satisfy [p]. *)
Definition count {A : Type} (p : A -> bool) (l : list A) : nat :=
  List.length (filter p l).

(** ** A small state monad

    The C functions thread mutable state (a context and the trace, or
    the process-wide globals) through sequences of calls. *)

Definition State (S A : Type) : Type := S -> A * S.

Definition ret {S A : Type} (a : A) : State S A := fun s => (a, s).

Definition bind {S A B : Type} (m : State S A) (k : A -> State S B)
  : State S B :=
  fun s => let (a, s') := m s in k a s'.

Definition gets {S A : Type} (f : S -> A) : State S A := fun s => (f s, s).

Definition modify {S : Type} (f : S -> S) : State S unit :=
  fun s => (tt, f s).

Declare Scope state_scope.
Delimit Scope state_scope with state.
Notation "x <- m ;; k" := (bind m (fun x => k))
  (at level 61, m at next level, right associativity) : state_scope.
Notation "m ;; k" := (bind m (fun _ => k))
  (at level 61, right associativity) : state_scope.
Local Open Scope state_scope.

(** A C loop over the elements of a list, the body run for its effect. *)
Fixpoint for_each {S A : Type} (l : list A) (body : A -> State S unit)
  : State S unit :=
  match l with
  | [] => ret tt
  | x :: l' => body x ;; for_each l' body
  end.

(** ** The discovery reconciler *)

(** State of the per-context functions: the context they were handed and
    the calls made so far. *)
Definition ctx_state : Type := libusb_context * list event.

Definition emit (e : event) : State ctx_state unit :=
  modify (fun s => (fst s, snd s ++ [e])).

(** [list_del(&dev->list)]: unlink the node at address [dev]. *)
Definition list_del (dev : Z) (l : list libusb_device) : list libusb_device :=
  filter (fun d => negb (dev_addr d =? dev)) l.

(** Modelled from the spec: [usbi_disconnect_device] lives in the libusb
    core, outside the sources at hand. It removes the device entry from
    its context's list and notifies the application of the disconnection;
    the notification is the recorded call. *)
Definition usbi_disconnect_device (dev : libusb_device) : State ctx_state unit :=
  c <- gets fst ;;
  modify (fun s => (set_usb_devs (fst s) (list_del (dev_addr dev) (usb_devs (fst s))), snd s)) ;;
  emit (E_disconnect_device (ctx_addr c) (dev_addr dev)).

(** Modelled from the spec: [usbi_detach_device] lives in the libusb
    core, outside the sources at hand. It removes the device entry from
    its context's list silently; the recorded call is internal only. *)
Definition usbi_detach_device (dev : libusb_device) : State ctx_state unit :=
  c <- gets fst ;;
  modify (fun s => (set_usb_devs (fst s) (list_del (dev_addr dev) (usb_devs (fst s))), snd s)) ;;
  emit (E_detach_device (ctx_addr c) (dev_addr dev)).

(** Modelled from the spec: [usbi_hotplug_notification] lives in the
    libusb core; it delivers the event to the listeners of the context
    and leaves the device list alone. *)
Definition usbi_hotplug_notification (dev : libusb_device)
  (ev : libusb_hotplug_event) : State ctx_state unit :=
  c <- gets fst ;;
  emit (E_hotplug_notification (ctx_addr c) (dev_addr dev) ev).

(** [priv(dev)->discovery_status = s]: a store through the pointer
    [dev], seen by whoever reaches the device through the list. *)
Definition store_discovery_status (dev : Z) (s : discovery_status_t)
  : State ctx_state unit :=
  modify (fun st =>
            (set_usb_devs (fst st)
               (map (fun d => if dev_addr d =? dev
                              then set_discovery_status s d else d)
                    (usb_devs (fst st))),
             snd st)).

(** [for_each_device(ctx, dev)] and [for_each_device_safe(ctx, dev, next)]
    walk the list as it stands when the loop is entered. The bodies below
    unlink at most the node they are visiting, which is what the "safe"
    variant, with its saved successor, allows; so the walk visits exactly
    the nodes of that snapshot, in order. *)
Definition for_each_device (body : libusb_device -> State ctx_state unit)
  : State ctx_state unit :=
  devs <- gets (fun s => usb_devs (fst s)) ;;
  for_each devs body.

Definition for_each_device_safe := for_each_device.

Section Reconciler.

(** The backend's enumerator, [backend->get_device_list(ctx)]: it
    returns a libusb error code and leaves the device list of the
    context in some new state. Nothing is assumed about it. *)
Variable get_device_list : libusb_context -> Z * list libusb_device.

Definition windows_get_device_list : State ctx_state Z :=
  for_each_device
    (fun dev => store_discovery_status (dev_addr dev) NO_LONGER_DISCOVERED) ;;
  c <- gets fst ;;
  emit (E_get_device_list (ctx_addr c)) ;;
  let r := get_device_list c in
  modify (fun s => (set_usb_devs (fst s) (snd r), snd s)) ;;
  ret (fst r).

Definition windows_initial_scan_devices : State ctx_state Z :=
  emit E_lock_active_contexts ;;
  r <- windows_get_device_list ;;
  emit E_unlock_active_contexts ;;
  ret r.

Definition removal_body (dev : libusb_device) : State ctx_state unit :=
  if negb (discovery_status_eqb (discovery_status dev) NO_LONGER_DISCOVERED)
  then ret tt                                   (* continue *)
  else if initialized dev
       then usbi_disconnect_device dev
       else usbi_detach_device dev.

Definition arrival_body (dev : libusb_device) : State ctx_state unit :=
  if negb (discovery_status_eqb (discovery_status dev) NEWLY_DISCOVERED)
  then ret tt                                   (* continue *)
  else usbi_hotplug_notification dev LIBUSB_HOTPLUG_EVENT_DEVICE_ARRIVED.

Definition windows_refresh_device_list : State ctx_state unit :=
  r <- windows_get_device_list ;;
  if negb (r =? LIBUSB_SUCCESS)
  then
    c <- gets fst ;;
    emit (E_usbi_err (ctx_addr c)
            "hotplug failed to retrieve current list with error: %s"%string r)
  else
    for_each_device_safe removal_body ;;
    for_each_device arrival_body.

End Reconciler.

(** ** Process-wide state *)

(** The file-scope variables of the C file, the static local
    [device_notify_handle] of the window procedure, the registry of
    active contexts and the trace. A fresh process has every handle
    [NULL] (static storage). *)
Record world : Type := mk_world {
  windows_event_hWnd : Z;
  windows_event_thread_handle : Z;
  device_notify_handle : Z;
  active_contexts : list libusb_context;
  trace : list event
}.

Definition set_hWnd (h : Z) (w : world) : world :=
  mk_world h (windows_event_thread_handle w) (device_notify_handle w)
           (active_contexts w) (trace w).

Definition set_thread_handle (h : Z) (w : world) : world :=
  mk_world (windows_event_hWnd w) h (device_notify_handle w)
           (active_contexts w) (trace w).

Definition set_device_notify_handle (h : Z) (w : world) : world :=
  mk_world (windows_event_hWnd w) (windows_event_thread_handle w) h
           (active_contexts w) (trace w).

Definition set_registry (cs : list libusb_context) (t : list event) (w : world)
  : world :=
  mk_world (windows_event_hWnd w) (windows_event_thread_handle w)
           (device_notify_handle w) cs t.

Definition call (e : event) : State world unit :=
  modify (fun w => set_registry (active_contexts w) (trace w ++ [e]) w).

(** The [log_error(operation)] macro. *)
Definition log_error (operation : string) : State world unit :=
  call (E_log_error operation).

(** [for_each_context(ctx)]: the body runs on every context of the
    registry, in list order, each run continuing the trace of the
    previous one. *)
Fixpoint for_each_context_from (cs : list libusb_context)
  (body : State ctx_state unit) (t : list event)
  : list libusb_context * list event :=
  match cs with
  | [] => ([], t)
  | c :: cs' =>
      let s := snd (body (c, t)) in
      let r := for_each_context_from cs' body (snd s) in
      (fst s :: fst r, snd r)
  end.

Definition for_each_context (body : State ctx_state unit) : State world unit :=
  modify (fun w =>
            let r := for_each_context_from (active_contexts w) body (trace w) in
            set_registry (fst r) (snd r) w).

(** ** Win32 constants and integer conversions *)

Definition WM_CREATE : Z := 0x0001.
Definition WM_DESTROY : Z := 0x0002.
Definition WM_CLOSE : Z := 0x0010.
Definition WM_DEVICECHANGE : Z := 0x0219.
Definition DBT_DEVICEARRIVAL : Z := 0x8000.
Definition DBT_DEVICEREMOVECOMPLETE : Z := 0x8004.
Definition DBT_DEVTYP_DEVICEINTERFACE : Z := 5.
Definition BROADCAST_QUERY_DENY : Z := 0x424D5144.
Definition TRUE : Z := 1.
Definition WAIT_OBJECT_0 : Z := 0.

(** [(HRESULT)x]: conversion to a signed 32-bit integer. *)
Definition to_HRESULT (x : Z) : Z := (x + 2 ^ 31) mod 2 ^ 32 - 2 ^ 31.

(** The [SUCCEEDED(hr)] macro: [((HRESULT)(hr)) >= 0]. *)
Definition SUCCEEDED (hr : Z) : bool := 0 <=? to_HRESULT hr.

(** [(DWORD)x]: conversion to an unsigned 32-bit integer. *)
Definition to_DWORD (x : Z) : Z := x mod 2 ^ 32.

(** ** The Win32 oracle *)

(** A message as the window procedure sees it; of [lParam] only the
    [dbch_devicetype] of the header it points to is read. *)
Record MSG : Type := mk_MSG {
  msg_message : Z;
  msg_wParam : Z;
  msg_dbch_devicetype : Z
}.

(** One call of [GetMessage]: the messages sent to the window, which the
    system hands to the window procedure before the call returns, the
    value returned, the posted message retrieved, and what
    [TranslateMessage] answers for it. *)
Record GetMessage_outcome : Type := mk_GetMessage_outcome {
  gm_sent : list MSG;
  gm_ret : Z;
  gm_msg : MSG;
  gm_translate : Z
}.

(** What the system answers during one run of a function of the file;
    a second run of a function, such as a second [stop], has answers of
    its own and takes another record. [os_GetMessage] lists the outcomes
    of the successive [GetMessage] calls; when it is exhausted the thread
    stays blocked in the next call. [os_SendMessage_delivered] says
    whether [SendMessage] reaches the window: what it returns is then
    the answer of the window procedure, and 0 when the window is not
    reached. *)
Record win32 : Type := mk_win32 {
  os_CreateThread : Z;
  os_RegisterClass : Z;
  os_CreateWindow : Z;
  os_RegisterDeviceNotification : Z;
  os_GetMessage : list GetMessage_outcome;
  os_UnregisterDeviceNotification : Z;
  os_DestroyWindow : Z;
  os_DefWindowProc : Z;
  os_SendMessage_delivered : bool;
  os_WaitForSingleObject : Z;
  os_CloseHandle : Z
}.

Section Monitor.

Variable os : win32.
Variable get_device_list : libusb_context -> Z * list libusb_device.

(** *** Lifecycle controller: start

    [CreateThread] only hands the thread to the system: the body of the
    thread, [windows_event_thread_main] below, runs on its own, before
    or after [start] returns. [start] reads nothing the thread writes,
    so what it returns is the same under every interleaving; the
    statements run the thread after [start] and [stop] after the
    thread. *)

Definition windows_start_event_monitor : State world Z :=
  call E_CreateThread ;;
  modify (set_thread_handle (os_CreateThread os)) ;;
  h <- gets windows_event_thread_handle ;;
  if h =? NULL
  then log_error "CreateThread" ;; ret LIBUSB_ERROR_OTHER
  else ret LIBUSB_SUCCESS.

(** *** Context-wide refresh dispatch *)

Definition windows_refresh_device_list_for_all_ctx : State world unit :=
  call E_lock_active_contexts ;;
  for_each_context (windows_refresh_device_list get_device_list) ;;
  call E_unlock_active_contexts.

(** *** The window procedure *)

Definition init_wnd_class : State world bool :=
  call E_RegisterClass ;;
  if os_RegisterClass os =? 0
  then log_error "RegisterClassEx" ;; ret false
  else ret true.

Definition register_device_interface_to_window_handle (hWnd : Z)
  : State world bool :=
  call (E_RegisterDeviceNotification hWnd) ;;
  modify (set_device_notify_handle (os_RegisterDeviceNotification os)) ;;
  h <- gets device_notify_handle ;;
  if h =? NULL
  then log_error "register_device_interface_to_window_handle" ;; ret false
  else ret true.

(** [case WM_DESTROY] of the window procedure. *)
Definition on_WM_DESTROY : State world Z :=
  call E_PostQuitMessage ;; ret 0.

(** [DestroyWindow]: when it succeeds, the system sends [WM_DESTROY] to
    the window procedure before it returns. *)
Definition DestroyWindow (hWnd : Z) : State world Z :=
  call (E_DestroyWindow hWnd) ;;
  if os_DestroyWindow os =? 0
  then ret 0
  else on_WM_DESTROY ;; ret (os_DestroyWindow os).

(** [case WM_CLOSE] of the window procedure. *)
Definition on_WM_CLOSE (hWnd : Z) : State world Z :=
  h <- gets device_notify_handle ;;
  call (E_UnregisterDeviceNotification h) ;;
  (if os_UnregisterDeviceNotification os =? 0
   then log_error "UnregisterDeviceNotification" else ret tt) ;;
  r <- DestroyWindow hWnd ;;
  (if r =? 0 then log_error "DestroyWindow" else ret tt) ;;
  ret 0.

Definition windows_proc_callback (hWnd message wParam dbch_devicetype : Z)
  : State world Z :=
  if message =? WM_CREATE then
    ok <- register_device_interface_to_window_handle hWnd ;;
    if negb ok then ret (-1) else ret 0
  else if message =? WM_DEVICECHANGE then
    if ((wParam =? DBT_DEVICEARRIVAL) || (wParam =? DBT_DEVICEREMOVECOMPLETE))
       && (dbch_devicetype =? DBT_DEVTYP_DEVICEINTERFACE)
    then windows_refresh_device_list_for_all_ctx ;; ret TRUE
    else ret BROADCAST_QUERY_DENY
  else if message =? WM_CLOSE then
    on_WM_CLOSE hWnd
  else if message =? WM_DESTROY then
    on_WM_DESTROY
  else
    call (E_DefWindowProc message) ;; ret (os_DefWindowProc os).

Definition deliver (hWnd : Z) (m : MSG) : State world Z :=
  windows_proc_callback hWnd (msg_message m) (msg_wParam m)
                        (msg_dbch_devicetype m).

(** *** Lifecycle controller: stop *)

(** [SendMessage(hWnd, WM_CLOSE, 0, 0)]: when the window is reached, the
    system has the window procedure handle the message, on the thread
    that owns the window, and returns its answer once that is done; when
    the window is not reached, for instance because it no longer exists,
    it returns 0. The calls of the window procedure are part of the
    process-wide trace like any other. *)
Definition SendMessage_WM_CLOSE (hWnd : Z) : State world Z :=
  call (E_SendMessage hWnd WM_CLOSE) ;;
  if os_SendMessage_delivered os
  then on_WM_CLOSE hWnd
  else ret 0.

Definition windows_stop_event_monitor : State world Z :=
  hWnd <- gets windows_event_hWnd ;;
  if hWnd =? NULL
  then ret LIBUSB_SUCCESS
  else
    sent <- SendMessage_WM_CLOSE hWnd ;;
    (if negb (SUCCEEDED sent)
     then log_error "SendMessage" else ret tt) ;;
    let r := LIBUSB_SUCCESS in
    h <- gets windows_event_thread_handle ;;
    call (E_WaitForSingleObject h) ;;
    r <- (if negb (os_WaitForSingleObject os =? WAIT_OBJECT_0)
          then log_error "WaitForSingleObject" ;; ret LIBUSB_ERROR_OTHER
          else ret r) ;;
    h <- gets windows_event_thread_handle ;;
    call (E_CloseHandle h) ;;
    r <- (if os_CloseHandle os =? 0
          then log_error "WaitForSingleObject" ;; ret LIBUSB_ERROR_OTHER
          else ret r) ;;
    ret r.

(** *** The event monitor thread *)

(** [CreateWindow]: the system allocates the window, sends [WM_CREATE]
    to the window procedure, and when the procedure answers -1 destroys
    the window and returns [NULL]. *)
Definition CreateWindow : State world Z :=
  call E_CreateWindow ;;
  if os_CreateWindow os =? NULL
  then ret NULL
  else
    r <- windows_proc_callback (os_CreateWindow os) WM_CREATE 0 0 ;;
    if r =? -1 then ret NULL else ret (os_CreateWindow os).

(** The [while ((ret_val = GetMessage(...)) != 0)] loop, over the
    outcomes of the successive [GetMessage] calls. [Some tt]: the loop
    was left; [None]: the thread is blocked in [GetMessage]. *)
Fixpoint message_loop (outs : list GetMessage_outcome) (hWnd : Z)
  : State world (option unit) :=
  match outs with
  | [] => call (E_GetMessage hWnd) ;; ret None
  | o :: outs' =>
      call (E_GetMessage hWnd) ;;
      for_each (gm_sent o) (fun m => deliver hWnd m ;; ret tt) ;;
      if gm_ret o =? 0 then ret (Some tt)
      else if gm_ret o =? -1 then log_error "GetMessage" ;; ret (Some tt)
      else
        call E_TranslateMessage ;;
        (if negb (SUCCEEDED (gm_translate o))
         then log_error "GetMessage" else ret tt) ;;
        call E_DispatchMessage ;;
        r <- deliver hWnd (gm_msg o) ;;
        (if negb (SUCCEEDED r) then log_error "DispatchMessage" else ret tt) ;;
        message_loop outs' hWnd
  end.

(** The thread's exit code, or [None] while it is blocked in its wait
    loop. *)
Definition windows_event_thread_main : State world (option Z) :=
  call (E_usbi_dbg "windows event thread entering") ;;
  ok <- init_wnd_class ;;
  if negb ok then ret (Some (to_DWORD (-1)))
  else
    h <- CreateWindow ;;
    modify (set_hWnd h) ;;
    hWnd <- gets windows_event_hWnd ;;
    if hWnd =? NULL
    then log_error "CreateWindow" ;; ret (Some (to_DWORD (-1)))
    else
      left <- message_loop (os_GetMessage os) hWnd ;;
      match left with
      | None => ret None
      | Some _ =>
          call (E_usbi_dbg "windows event thread exiting") ;;
          ret (Some 0)
      end.

End Monitor.

(** ** The enumerator adapter of the design *)

Definition known (a : Z) (l : list libusb_device) : bool :=
  existsb (fun d => dev_addr d =? a) l.

Definition mark_still_present (a : Z) (l : list libusb_device)
  : list libusb_device :=
  map (fun d => if dev_addr d =? a
                then set_discovery_status STILL_PRESENT d else d) l.

(** What the adapter does for one attached device, given by its identity
    and by whether its setup sequence has completed. *)
Definition adapter_sees (l : list libusb_device) (p : Z * bool)
  : list libusb_device :=
  if known (fst p) l
  then mark_still_present (fst p) l
  else l ++ [mk_device (fst p) NEWLY_DISCOVERED (snd p)].

(** Modelled from the spec: the backend routine behind
    [backend->get_device_list] is not part of the sources at hand. For
    each physically present device: if it matches an existing entry by
    identity, set its status to [STILL_PRESENT]; otherwise insert a new
    entry with status [NEWLY_DISCOVERED]. [present] is the set of
    attached devices. *)
Definition adapter_get_device_list (present : list (Z * bool))
  (ctx : libusb_context) : Z * list libusb_device :=
  (LIBUSB_SUCCESS, fold_left adapter_sees present (usb_devs ctx)).

(** ** Derived notions used in the statements *)

Definition is_no_longer_discovered (d : libusb_device) : bool :=
  discovery_status_eqb (discovery_status d) NO_LONGER_DISCOVERED.

Definition is_newly_discovered (d : libusb_device) : bool :=
  discovery_status_eqb (discovery_status d) NEWLY_DISCOVERED.

(** The context as the enumerator receives it. *)
Definition mark_all (ctx : libusb_context) : libusb_context :=
  set_usb_devs ctx
    (map (set_discovery_status NO_LONGER_DISCOVERED) (usb_devs ctx)).

(** One reconciliation pass of a context, started with an empty trace:
    the context it leaves and the calls it made. *)
Definition refresh_pass (gdl : libusb_context -> Z * list libusb_device)
  (ctx : libusb_context) : libusb_context * list event :=
  snd (windows_refresh_device_list gdl (ctx, [])).

(** The device list and the result code once enumeration has completed:
    what [windows_get_device_list] leaves and returns. *)
Definition enumerated (gdl : libusb_context -> Z * list libusb_device)
  (ctx : libusb_context) : list libusb_device :=
  usb_devs (fst (snd (windows_get_device_list gdl (ctx, [])))).

Definition enumeration_result
  (gdl : libusb_context -> Z * list libusb_device)
  (ctx : libusb_context) : Z :=
  fst (windows_get_device_list gdl (ctx, [])).

(** The event mentions the device at address [a]. *)
Definition mentions_device (a : Z) (e : event) : bool :=
  match e with
  | E_disconnect_device _ d | E_detach_device _ d
  | E_hotplug_notification _ d _ => d =? a
  | _ => false
  end.

(** The calls of the removal loop and of the arrival loop over a list. *)
Definition removal_events (ca : Z) (l : list libusb_device) : list event :=
  flat_map (fun d =>
              if is_no_longer_discovered d
              then [if initialized d
                    then E_disconnect_device ca (dev_addr d)
                    else E_detach_device ca (dev_addr d)]
              else []) l.

Definition arrival_events (ca : Z) (l : list libusb_device) : list event :=
  flat_map (fun d =>
              if is_newly_discovered d
              then [E_hotplug_notification ca (dev_addr d)
                      LIBUSB_HOTPLUG_EVENT_DEVICE_ARRIVED]
              else []) l.

(** The list left by the removal loop that walks [snapshot]. *)
Definition after_removal (snapshot cur : list libusb_device)
  : list libusb_device :=
  fold_left (fun acc d => if is_no_longer_discovered d
                          then list_del (dev_addr d) acc else acc)
            snapshot cur.

(** The calls of one pass, in order. *)
Definition pass_events (gdl : libusb_context -> Z * list libusb_device)
(c : libusb_context) : list event :=
  if enumeration_result gdl c =? LIBUSB_SUCCESS
  then E_get_device_list (ctx_addr c)
       :: removal_events (ctx_addr c) (enumerated gdl c)
       ++ arrival_events (ctx_addr c)
            (after_removal (enumerated gdl c) (enumerated gdl c))
  else [E_get_device_list (ctx_addr c);
        E_usbi_err (ctx_addr c)
          "hotplug failed to retrieve current list with error: %s"
          (enumeration_result gdl c)].

(** The device list one pass leaves. *)
Definition pass_devs (gdl : libusb_context -> Z * list libusb_device)
(c : libusb_context) : list libusb_device :=
  if enumeration_result gdl c =? LIBUSB_SUCCESS
  then after_removal (enumerated gdl c) (enumerated gdl c)
  else enumerated gdl c.

(** What the tags of a list say once the devices at the addresses [seen]
    have been enumerated, [ids0] being the addresses known when the pass
    began. *)
Definition tags_agree (ids0 seen : list Z) (l : list libusb_device) : Prop :=
  (forall a, In a ids0 -> In a (map dev_addr l)) /\
  (forall d, In d l ->
     match discovery_status d with
     | STILL_PRESENT => In (dev_addr d) ids0 /\ In (dev_addr d) seen
     | NEWLY_DISCOVERED => ~ In (dev_addr d) ids0 /\ In (dev_addr d) seen
     | NO_LONGER_DISCOVERED => In (dev_addr d) ids0 /\ ~ In (dev_addr d) seen
     | NOT_YET_SEEN => False
     end).

(** ** Example data

    A context that knows three devices; at the next enumeration the first
    is still attached, the two others are gone and a fourth has arrived. *)

Definition ex_dev_A : libusb_device := mk_device 100 STILL_PRESENT true.
Definition ex_dev_B : libusb_device := mk_device 200 STILL_PRESENT true.
Definition ex_dev_C : libusb_device := mk_device 300 NEWLY_DISCOVERED false.

Definition ex_ctx : libusb_context :=
  mk_context 1 [ex_dev_A; ex_dev_B; ex_dev_C].

Definition ex_present : list (Z * bool) := [(100, true); (400, false)].

Definition ex_gdl : libusb_context -> Z * list libusb_device :=
  adapter_get_device_list ex_present.

(** An enumerator that fails and touches nothing. *)
Definition ex_failing_gdl (c : libusb_context) : Z * list libusb_device :=
  (LIBUSB_ERROR_OTHER, usb_devs c).

(** A second context, and an enumerator that fails for the first one
    only. *)
Definition ex_ctx2 : libusb_context := mk_context 2 [ex_dev_B].

Definition ex_gdl_first_fails (c : libusb_context) : Z * list libusb_device :=
  if ctx_addr c =? 1 then ex_failing_gdl c else ex_gdl c.

(** A fresh process with two contexts, and a process whose monitor is
    running: window 5, thread 7, notification handle 9. *)
Definition ex_world : world := mk_world NULL NULL NULL [ex_ctx; ex_ctx2] [].

Definition ex_world_started : world := mk_world 5 7 9 [ex_ctx; ex_ctx2] [].

(** The thread is created, the window class cannot be registered. *)
Definition ex_os_no_class : win32 := mk_win32 7 0 5 9 [] 1 1 0 true 0 1.

(** Every call succeeds. The first [GetMessage] sees a device arrival
    sent to the window and returns a posted message; the second sees a
    [WM_CLOSE] sent to the window and returns 0. *)
Definition ex_os_ok : win32 :=
  mk_win32 7 1 5 9
    [mk_GetMessage_outcome
       [mk_MSG WM_DEVICECHANGE DBT_DEVICEARRIVAL DBT_DEVTYP_DEVICEINTERFACE]
       1 (mk_MSG 0 0 0) 1;
     mk_GetMessage_outcome [mk_MSG WM_CLOSE 0 0] 0 (mk_MSG 0 0 0) 1]
    1 1 0 true 0 1.

(** The signalling fails: the window no longer exists, its thread having
    ended already, so that [SendMessage] does not reach it and returns
    0; the join and the release of the thread handle succeed. *)
Definition ex_os_send_fails : win32 := mk_win32 7 1 5 9 [] 1 1 0 false 0 1.

(** A [stop] after a [stop]: the window is gone and the thread handle
    is closed, so that [SendMessage] reaches no window, the wait answers
    [WAIT_FAILED] and [CloseHandle] answers 0. *)
Definition ex_os_after_stop : win32 :=
  mk_win32 7 1 5 9 [] 1 1 0 false 0xFFFFFFFF 0.

(** ** Notions used in the statements about the monitor *)

Definition is_lock (e : event) : bool :=
  match e with E_lock_active_contexts => true | _ => false end.

Definition is_unlock (e : event) : bool :=
  match e with E_unlock_active_contexts => true | _ => false end.

Definition is_enumeration (e : event) : bool :=
  match e with E_get_device_list _ => true | _ => false end.

(** A call of the blocking wait of the monitor thread. *)
Definition is_wait (e : event) : bool :=
  match e with E_GetMessage _ => true | _ => false end.

(** The calls [stop] makes to signal, join and release the thread. *)
Definition is_stop_call (e : event) : bool :=
  match e with
  | E_SendMessage _ _ | E_WaitForSingleObject _ | E_CloseHandle _ => true
  | _ => false
  end.

(** The calls of one dispatch over the registry [cs]. *)
Definition dispatch_events (gdl : libusb_context -> Z * list libusb_device)
  (cs : list libusb_context) : list event :=
  E_lock_active_contexts
  :: flat_map (fun c => snd (refresh_pass gdl c)) cs
  ++ [E_unlock_active_contexts].

(** The calls of the [WM_CLOSE] case of the window procedure, for the
    window [hWnd] and the stored notification handle [notify]. *)
Definition close_events (os : win32) (hWnd notify : Z) : list event :=
  [E_UnregisterDeviceNotification notify]
  ++ (if os_UnregisterDeviceNotification os =? 0
      then [E_log_error "UnregisterDeviceNotification"] else [])
  ++ [E_DestroyWindow hWnd]
  ++ (if os_DestroyWindow os =? 0
      then [E_log_error "DestroyWindow"] else [E_PostQuitMessage]).

(** The calls of a [stop] that finds the window [hWnd], the thread [h]
    and the stored notification handle [notify]. *)
Definition stop_events (os : win32) (hWnd h notify : Z) : list event :=
  [E_SendMessage hWnd WM_CLOSE]
  ++ (if os_SendMessage_delivered os then close_events os hWnd notify else [])
  ++ [E_WaitForSingleObject h]
  ++ (if os_WaitForSingleObject os =? WAIT_OBJECT_0
      then [] else [E_log_error "WaitForSingleObject"])
  ++ [E_CloseHandle h]
  ++ (if os_CloseHandle os =? 0
      then [E_log_error "WaitForSingleObject"] else []).

(** The subscription of the monitor thread fails: the window class is
    not registered, or the window is not created, or the device
    notification is not registered. *)
Definition subscription_fails (os : win32) : Prop :=
  os_RegisterClass os = 0
  \/ os_CreateWindow os = NULL
  \/ os_RegisterDeviceNotification os = NULL.

(** A step of [stop] fails. *)
Definition stop_step_fails (os : win32) : Prop :=
  os_SendMessage_delivered os = false
  \/ os_WaitForSingleObject os <> WAIT_OBJECT_0
  \/ os_CloseHandle os = 0.

(** The design's reading of [start]: a failed subscription is reported to
    the caller of [start]. *)
Definition start_reports_subscription_failure (os : win32) (w : world)
  : Prop :=
  subscription_fails os ->
  fst (windows_start_event_monitor os w) <> LIBUSB_SUCCESS.

(** The design's reading of [stop]: every failing step is turned into an
    error result. *)
Definition stop_reports_every_failure (os : win32) (w : world) : Prop :=
  windows_event_hWnd w <> NULL ->
  stop_step_fails os ->
  fst (windows_stop_event_monitor os w) <> LIBUSB_SUCCESS.

(** ** Further notions: notifications, messages, the lock *)

Definition is_arrival_of (dev : Z) (e : event) : bool :=
  match e with
  | E_hotplug_notification _ d LIBUSB_HOTPLUG_EVENT_DEVICE_ARRIVED => d =? dev
  | _ => false
  end.

(** The message makes the window procedure run a dispatch: a
    [WM_DEVICECHANGE] for an arrival or a completed removal whose header
    says device interface. *)
Definition triggers_refresh (m : MSG) : bool :=
  (msg_message m =? WM_DEVICECHANGE)
  && ((msg_wParam m =? DBT_DEVICEARRIVAL)
      || (msg_wParam m =? DBT_DEVICEREMOVECOMPLETE))
  && (msg_dbch_devicetype m =? DBT_DEVTYP_DEVICEINTERFACE).

(** The [GetMessage] outcome ends the loop of the thread. *)
Definition ends_loop (o : GetMessage_outcome) : bool :=
  (gm_ret o =? 0) || (gm_ret o =? -1).

(** The messages the window procedure receives while the loop runs over
    the outcomes [outs]: the sent ones of every call made, and the posted
    one of every call that returned a message. *)
Fixpoint delivered (outs : list GetMessage_outcome) : list MSG :=
  match outs with
  | [] => []
  | o :: outs' =>
      gm_sent o ++ (if ends_loop o then [] else gm_msg o :: delivered outs')
  end.

(** Class, window and device notification are all obtained. *)
Definition subscribed (os : win32) : bool :=
  negb (os_RegisterClass os =? 0)
  && negb (os_CreateWindow os =? NULL)
  && negb (os_RegisterDeviceNotification os =? NULL).

(** [n] critical sections, one after the other. *)
Fixpoint lock_pairs (n : nat) : list event :=
  match n with
  | O => []
  | S n' => E_lock_active_contexts :: E_unlock_active_contexts :: lock_pairs n'
  end.

(** What a stretch of the monitor thread may do to the process state:
    the thread handle and the addresses of the registered contexts, in
    their order, are kept, and the calls added to the trace contain [n]
    critical sections, closed one after the other. *)
Definition monitor_step (n : nat) (w w' : world) : Prop :=
  windows_event_thread_handle w' = windows_event_thread_handle w
  /\ map ctx_addr (active_contexts w') = map ctx_addr (active_contexts w)
  /\ exists evs,
      trace w' = trace w ++ evs
      /\ filter is_lock_event evs = lock_pairs n.

(** * The loopback test program

    The example program writes consecutive 64-bit counters to a loopback
    device from one thread and checks, in the completion callback of a
    bulk read, that they come back consecutive. The libusb calls are an
    oracle; what the program prints and the calls it makes are recorded
    in [calls]. *)

Definition EP_DATA_IN : Z := 0x81.
Definition EP_DATA_OUT : Z := 0x1.
Definition OK_ReadBufferSize : Z := 65536.
Definition NotOK_ReadBufferSize : Z := 2 * 65536.
Definition WriteBufferSize : Z := 65536.
Definition LIBUSB_TRANSFER_COMPLETED : Z := 0.
Definition ENOMEM : Z := 12.

(** [uint64_t] arithmetic wraps. *)
Definition to_uint64 (x : Z) : Z := x mod 2 ^ 64.

(** The fields of [struct libusb_transfer] the callback reads. The
    buffer is read through a [uint64_t] pointer: it is given as the list
    of its 64-bit words. *)
Record libusb_transfer : Type := mk_transfer {
  xfr_status : Z;
  xfr_actual_length : Z;
  xfr_buffer : list Z
}.

Inductive loopback_event : Type :=
(* stderr and stdout *)
| P_transfer_status (st : Z)
| P_bad_length (len : Z)
| P_transfer (len first : Z) (ignored : bool)
| P_integrity_error (expected got : Z)
| P_resubmit_error
| P_count_too_large
| P_write_failed (rc : Z)
| P_init_error (rc : Z)
| P_no_device
| P_claim_error (rc : Z)
(* libusb and C library *)
| L_free_transfer
| L_submit_transfer
| L_alloc_transfer
| L_fill_bulk_transfer (ep len : Z)
| L_bulk_transfer (ep : Z) (data : list Z) (len timeout : Z)
| L_signal
| L_init_context
| L_open_device_with_vid_pid (vid pid : Z)
| L_claim_interface (iface : Z)
| L_beginthreadex
| L_handle_events
| L_release_interface (iface : Z)
| L_close
| L_exit
| L_set_errno (e : Z).

(** The globals of the program, the static buffer of [write_data] as a
    list of words, and the record of prints and calls. *)
Record program : Type := mk_program {
  do_exit : Z;
  devh : Z;
  expectedValue : Z;
  current_write_value : Z;
  write_buf : list Z;
  calls : list loopback_event
}.

Definition set_do_exit (v : Z) (p : program) : program :=
  mk_program v (devh p) (expectedValue p) (current_write_value p)
             (write_buf p) (calls p).

Definition set_devh (v : Z) (p : program) : program :=
  mk_program (do_exit p) v (expectedValue p) (current_write_value p)
             (write_buf p) (calls p).

Definition set_expectedValue (v : Z) (p : program) : program :=
  mk_program (do_exit p) (devh p) v (current_write_value p)
             (write_buf p) (calls p).

Definition set_current_write_value (v : Z) (p : program) : program :=
  mk_program (do_exit p) (devh p) (expectedValue p) v
             (write_buf p) (calls p).

Definition set_write_buf (b : list Z) (p : program) : program :=
  mk_program (do_exit p) (devh p) (expectedValue p) (current_write_value p)
             b (calls p).

Definition add_call (e : loopback_event) (p : program) : program :=
  mk_program (do_exit p) (devh p) (expectedValue p) (current_write_value p)
             (write_buf p) (calls p ++ [e]).

(** How a run of a function ends: it returns, it ends the process with
    [exit(code)], it reads or writes outside an array, or it is still
    running when the oracle has nothing more to say. *)
Inductive outcome (A : Type) : Type :=
| Returns (a : A)
| Exits (code : Z)
| Undefined
| Running.

Arguments Returns {A} a.
Arguments Exits {A} code.
Arguments Undefined {A}.
Arguments Running {A}.

Definition Run (A : Type) : Type := program -> outcome A * program.

Definition retR {A : Type} (a : A) : Run A := fun p => (Returns a, p).

Definition bindR {A B : Type} (m : Run A) (k : A -> Run B) : Run B :=
  fun p =>
    match m p with
    | (Returns a, p') => k a p'
    | (Exits c, p') => (Exits c, p')
    | (Undefined, p') => (Undefined, p')
    | (Running, p') => (Running, p')
    end.

Definition exit {A : Type} (code : Z) : Run A := fun p => (Exits code, p).

Definition undefined {A : Type} : Run A := fun p => (Undefined, p).

Definition running {A : Type} : Run A := fun p => (Running, p).

Definition getR {A : Type} (f : program -> A) : Run A :=
  fun p => (Returns (f p), p).

Definition update (f : program -> program) : Run unit :=
  fun p => (Returns tt, f p).

Definition say (e : loopback_event) : Run unit := update (add_call e).

Declare Scope run_scope.
Delimit Scope run_scope with run.
Notation "x <- m ;; k" := (bindR m (fun x => k))
  (at level 61, m at next level, right associativity) : run_scope.
Notation "m ;; k" := (bindR m (fun _ => k))
  (at level 61, right associativity) : run_scope.
Local Open Scope run_scope.

(** [*(ulongPtr + i)] on the buffer of a transfer. *)
Definition read_word (xfr : libusb_transfer) (i : nat) : Run Z :=
  match nth_error (xfr_buffer xfr) i with
  | Some v => retR v
  | None => undefined
  end.

(** The [for] loop of [cb_xfr], [n] iterations from index [i]. *)
Fixpoint integrity_loop (n i : nat) (xfr : libusb_transfer) : Run unit :=
  match n with
  | O => retR tt
  | S n' =>
      v <- read_word xfr i ;;
      e <- getR expectedValue ;;
      (if negb (v =? e)
       then if negb (e =? 0)
            then say (P_integrity_error e v) ;; exit 3
            else retR tt
       else update (set_expectedValue (to_uint64 (e + 1)))) ;;
      integrity_loop n' (S i) xfr
  end.

(** [submit_rc] is what [libusb_submit_transfer] answers. The division
    and the remainder are those of C, which truncate. *)
Definition cb_xfr (submit_rc : Z) (xfr : libusb_transfer) : Run unit :=
  if negb (xfr_status xfr =? LIBUSB_TRANSFER_COMPLETED)
  then say (P_transfer_status (xfr_status xfr)) ;;
       say L_free_transfer ;;
       exit 3
  else if negb (Z.rem (xfr_actual_length xfr) 8 =? 0)
  then say (P_bad_length (xfr_actual_length xfr)) ;;
       say L_free_transfer ;;
       exit 3
  else
    first <- read_word xfr 0 ;;
    e <- getR expectedValue ;;
    say (P_transfer (xfr_actual_length xfr) first
                    ((e =? 0) && negb (first =? e))) ;;
    integrity_loop (Z.to_nat (Z.quot (xfr_actual_length xfr) 8)) 0 xfr ;;
    say L_submit_transfer ;;
    if submit_rc <? 0
    then say P_resubmit_error ;; exit 1
    else retR tt.

(** [alloc] is what [libusb_alloc_transfer] answers, [submit_rc] what
    [libusb_submit_transfer] answers. *)
Definition start_transfer_in (alloc submit_rc : Z) : Run Z :=
  say L_alloc_transfer ;;
  if alloc =? NULL
  then say (L_set_errno ENOMEM) ;; retR (-1)
  else
    say (L_fill_bulk_transfer EP_DATA_IN NotOK_ReadBufferSize) ;;
    say L_submit_transfer ;;
    retR submit_rc.

(** [*(ulongPtr + i) = v] on the static buffer of [write_data]. *)
Definition store_word (i : nat) (v : Z) : Run unit :=
  b <- getR write_buf ;;
  if (i <? List.length b)%nat
  then update (set_write_buf (firstn i b ++ v :: skipn (S i) b))
  else undefined.

(** The [for] loop of [write_data], [n] iterations from index [i]. *)
Fixpoint write_loop (n i : nat) : Run unit :=
  match n with
  | O => retR tt
  | S n' =>
      c <- getR current_write_value ;;
      update (set_current_write_value (to_uint64 (c + 1))) ;;
      store_word i c ;;
      write_loop n' (S i)
  end.

(** [bulk] is what [libusb_bulk_transfer] answers: its result and the
    length it reports. The data handed to it are the first [ulongCount]
    words of the buffer. [ulongCount * 8] is an [int]: below its range
    the multiplication is undefined. *)
Definition write_data (bulk : Z * Z) (ulongCount : Z) : Run unit :=
  if ulongCount >? Z.quot WriteBufferSize 8
  then say P_count_too_large ;; exit 3
  else
    write_loop (Z.to_nat ulongCount) 0 ;;
    if ulongCount * 8 <? - 2 ^ 31
    then undefined
    else
      b <- getR write_buf ;;
      say (L_bulk_transfer EP_DATA_OUT (firstn (Z.to_nat ulongCount) b)
                           (ulongCount * 8) 2000) ;;
      if negb (fst bulk =? LIBUSB_SUCCESS) || negb (snd bulk =? ulongCount * 8)
      then say (P_write_failed (fst bulk)) ;; exit 3
      else retR tt.

Definition sig_hdlr : Run unit := update (set_do_exit 1).

(** One turn of a [while (!do_exit)] loop as the oracle gives it:
    whether the signal handler ran since the last test, and what the
    calls of the body answer. *)
Definition signalled (sig : bool) : Run unit :=
  if sig then sig_hdlr else retR tt.

Fixpoint continuous_write (turns : list (bool * (Z * Z))) : Run Z :=
  match turns with
  | [] => running
  | (sig, bulk) :: turns' =>
      signalled sig ;;
      d <- getR do_exit ;;
      if negb (d =? 0)
      then retR 0
      else write_data bulk 1000 ;; continuous_write turns'
  end.

(** What one call of [libusb_handle_events] does: it runs the callback
    on the transfers that completed, each with the answer its
    resubmission gets, and returns a result. *)
Record handle_events_outcome : Type := mk_handle_events {
  he_completed : list (libusb_transfer * Z);
  he_rc : Z
}.

Fixpoint run_callbacks (l : list (libusb_transfer * Z)) : Run unit :=
  match l with
  | [] => retR tt
  | (xfr, submit_rc) :: l' => cb_xfr submit_rc xfr ;; run_callbacks l'
  end.

(** The event loop of [main], entered with [rc]. *)
Fixpoint events_loop (turns : list (bool * handle_events_outcome)) (rc : Z)
  : Run Z :=
  match turns with
  | [] => running
  | (sig, he) :: turns' =>
      signalled sig ;;
      d <- getR do_exit ;;
      if negb (d =? 0)
      then retR rc
      else
        say L_handle_events ;;
        run_callbacks (he_completed he) ;;
        if negb (he_rc he =? LIBUSB_SUCCESS)
        then retR (he_rc he)
        else events_loop turns' (he_rc he)
  end.

(** The answers of libusb to [main]. *)
Record libusb_oracle : Type := mk_libusb_oracle {
  o_init_context : Z;
  o_open_device : Z;
  o_claim_interface : Z;
  o_alloc_transfer : Z;
  o_submit_transfer : Z;
  o_events : list (bool * handle_events_outcome)
}.

(** [main]. The thread that [_beginthreadex] starts runs
    [continuous_write] on its own; only its creation is part of
    [main]. *)
Definition main (o : libusb_oracle) : Run Z :=
  say L_signal ;;
  say L_init_context ;;
  if o_init_context o <? 0
  then say (P_init_error (o_init_context o)) ;; exit 1
  else
    say (L_open_device_with_vid_pid 0x04b4 0x00F0) ;;
    update (set_devh (o_open_device o)) ;;
    h <- getR devh ;;
    rc <- (if h =? NULL
           then say P_no_device ;; retR (o_init_context o)
           else
             say (L_claim_interface 0) ;;
             if o_claim_interface o <? 0
             then say (P_claim_error (o_claim_interface o)) ;;
                  retR (o_claim_interface o)
             else
               start_transfer_in (o_alloc_transfer o) (o_submit_transfer o) ;;
               say L_beginthreadex ;;
               rc <- events_loop (o_events o) (o_claim_interface o) ;;
               say (L_release_interface 0) ;;
               retR rc) ;;
    (* out: *)
    h <- getR devh ;;
    (if negb (h =? NULL) then say L_close else retR tt) ;;
    say L_exit ;;
    retR rc.

Local Close Scope run_scope.

(** ** Notions used in the statements about the loopback program *)

(** [n] consecutive counters from [e], wrapping. *)
Definition consecutive (e : Z) (n : nat) : list Z :=
  map (fun k => to_uint64 (e + Z.of_nat k)) (seq 0 n).

Definition in_uint64 (x : Z) : Prop := 0 <= x < 2 ^ 64.

(** The words handed to [libusb_bulk_transfer], in the order of the
    calls. *)
Definition sent_words (l : list loopback_event) : list Z :=
  flat_map (fun e => match e with
                     | L_bulk_transfer _ d _ _ => d
                     | _ => []
                     end) l.

(** A function of the program keeps the device handle and only adds, to
    the record of calls, events that satisfy [P]. *)
Definition adds_only {A : Type} (P : loopback_event -> Prop) (m : Run A)
  : Prop :=
  forall p,
    devh (snd (m p)) = devh p
    /\ exists evs, calls (snd (m p)) = calls p ++ evs /\ Forall P evs.

(** The calls by which [main] winds up. *)
Definition is_cleanup (e : loopback_event) : bool :=
  match e with
  | L_release_interface _ | L_close | L_exit => true
  | _ => false
  end.

(** A program in which [main] has not run yet and that holds a write
    buffer of the size of the C array. *)
Definition ex_program : program :=
  mk_program 0 NULL 0 0 (repeat 0 (Z.to_nat 8192)) [].

(** * Facts *)

(** ** Counting and ordering in traces *)

Lemma count_app {A : Type} (p : A -> bool) (l1 l2 : list A) :
  count p (l1 ++ l2) = (count p l1 + count p l2)%nat.
Proof. unfold count. now rewrite filter_app, length_app. Qed.

Lemma count_cons {A : Type} (p : A -> bool) (x : A) (l : list A) :
  count p (x :: l) = ((if p x then 1 else 0) + count p l)%nat.
Proof. unfold count. simpl. now destruct (p x). Qed.

Lemma count_none {A : Type} (p : A -> bool) (l : list A) :
  Forall (fun x => p x = false) l -> count p l = 0%nat.
Proof.
  unfold count. induction 1 as [|x l Hx _ IH]; simpl; [reflexivity|].
  now rewrite Hx.
Qed.

Lemma count_flat_map_singleton {A B : Type} (p : B -> bool) (q : A -> bool)
      (f : A -> B) (l : list A) :
  count p (flat_map (fun x => if q x then [f x] else []) l)
  = count (fun x => q x && p (f x)) l.
Proof.
  unfold count. induction l as [|x l IH]; simpl; [reflexivity|].
  destruct (q x); simpl; [|exact IH].
  destruct (p (f x)); simpl; now rewrite IH.
Qed.

(** In a list split in two, an element of the first part comes before
    an element of the second. *)
Lemma split_order {A : Type} (p q : A -> bool) (l1 l2 : list A) :
  Forall (fun x => q x = false) l1 ->
  Forall (fun x => p x = false) l2 ->
  forall i j x y,
    nth_error (l1 ++ l2) i = Some x -> p x = true ->
    nth_error (l1 ++ l2) j = Some y -> q y = true ->
    (i < j)%nat.
Proof.
  intros H1 H2 i j x y Hi Hp Hj Hq.
  assert (Li : (i < List.length l1)%nat).
  { destruct (Nat.lt_ge_cases i (List.length l1)) as [L|L]; [exact L|].
    rewrite nth_error_app2 in Hi by exact L.
    apply nth_error_In in Hi.
    rewrite Forall_forall in H2. apply H2 in Hi. congruence. }
  assert (Lj : (List.length l1 <= j)%nat).
  { destruct (Nat.lt_ge_cases j (List.length l1)) as [L|L]; [|exact L].
    rewrite nth_error_app1 in Hj by exact L.
    apply nth_error_In in Hj.
    rewrite Forall_forall in H1. apply H1 in Hj. congruence. }
  lia.
Qed.

(** ** Device lists *)

Lemma set_usb_devs_same (c : libusb_context) : set_usb_devs c (usb_devs c) = c.
Proof. now destruct c. Qed.

Lemma after_removal_filter (snapshot cur : list libusb_device) :
  after_removal snapshot cur
  = filter (fun x => negb (existsb (fun d => is_no_longer_discovered d
                                            && (dev_addr d =? dev_addr x))
                                   snapshot)) cur.
Proof.
  unfold after_removal.
  revert cur; induction snapshot as [|d l IH]; intro cur; simpl.
  - induction cur as [|x cur IHc]; simpl; [reflexivity|]. now rewrite <- IHc.
  - rewrite IH. destruct (is_no_longer_discovered d); simpl; [|reflexivity].
    unfold list_del. induction cur as [|x cur IHc]; simpl; [reflexivity|].
    rewrite (Z.eqb_sym (dev_addr d) (dev_addr x)).
    destruct (dev_addr x =? dev_addr d); simpl; rewrite IHc; reflexivity.
Qed.

Lemma In_after_removal (snapshot cur : list libusb_device) (x : libusb_device) :
  In x (after_removal snapshot cur) <->
  In x cur /\
  forall d, In d snapshot -> is_no_longer_discovered d = true ->
            dev_addr d <> dev_addr x.
Proof.
  rewrite after_removal_filter, filter_In, negb_true_iff.
  split; intros [Hin H]; split; try exact Hin.
  - intros d Hd Hn Ha.
    assert (E : existsb (fun d0 => is_no_longer_discovered d0
                                   && (dev_addr d0 =? dev_addr x)) snapshot
                = true).
    { apply existsb_exists. exists d. split; [exact Hd|].
      rewrite Hn. simpl. now apply Z.eqb_eq. }
    congruence.
  - destruct (existsb _ snapshot) eqn:E; [|reflexivity].
    apply existsb_exists in E. destruct E as [d [Hd Hc]].
    apply andb_true_iff in Hc. destruct Hc as [Hn Ha].
    apply Z.eqb_eq in Ha. now destruct (H d Hd Hn).
Qed.

Lemma NoDup_addr_inj (l : list libusb_device) (x y : libusb_device) :
  NoDup (map dev_addr l) -> In x l -> In y l ->
  dev_addr x = dev_addr y -> x = y.
Proof.
  induction l as [|z l IH]; simpl; intros N Hx Hy E; [contradiction|].
  inversion N as [|? ? Hz N']; subst.
  destruct Hx as [<-|Hx], Hy as [<-|Hy].
  - reflexivity.
  - destruct Hz. rewrite E. now apply in_map.
  - destruct Hz. rewrite <- E. now apply in_map.
  - now apply IH.
Qed.

Lemma count_addr_NoDup (p : libusb_device -> bool) (l : list libusb_device)
      (d : libusb_device) :
  NoDup (map dev_addr l) -> In d l ->
  count (fun x => p x && (dev_addr x =? dev_addr d)) l
  = if p d then 1%nat else 0%nat.
Proof.
  set (q := fun x => p x && (dev_addr x =? dev_addr d)).
  assert (Hother : forall l', ~ In (dev_addr d) (map dev_addr l') ->
                              count q l' = 0%nat).
  { intros l' H. apply count_none. apply Forall_forall. intros x Hx.
    unfold q. destruct (Z.eqb_spec (dev_addr x) (dev_addr d)) as [E|E].
    - destruct H. rewrite <- E. now apply in_map.
    - apply andb_false_r. }
  induction l as [|z l IH]; simpl; intros N Hd; [contradiction|].
  inversion N as [|? ? Hz N']; subst.
  rewrite count_cons.
  destruct Hd as [->|Hd].
  - rewrite (Hother l Hz). unfold q. rewrite Z.eqb_refl, andb_true_r.
    destruct (p d); reflexivity.
  - rewrite (IH N' Hd).
    assert (Hq : q z = false).
    { unfold q. destruct (Z.eqb_spec (dev_addr z) (dev_addr d)) as [E|E].
      - destruct Hz. rewrite E. now apply in_map.
      - apply andb_false_r. }
    now rewrite Hq.
Qed.

(** ** Running the reconciler *)

Ltac run_state :=
  unfold bind, gets, modify, ret, emit; simpl.

Lemma removal_loop_run (snapshot : list libusb_device) :
  forall (c : libusb_context) (t : list event),
    for_each snapshot removal_body (c, t)
    = (tt, (set_usb_devs c (after_removal snapshot (usb_devs c)),
            t ++ removal_events (ctx_addr c) snapshot)).
Proof.
  induction snapshot as [|d l IH]; intros c t.
  - simpl. now rewrite set_usb_devs_same, app_nil_r.
  - cbn [for_each]. unfold bind at 1.
    unfold removal_body, usbi_disconnect_device, usbi_detach_device.
    unfold removal_events, after_removal, is_no_longer_discovered.
    cbn [flat_map fold_left].
    destruct (discovery_status_eqb (discovery_status d) NO_LONGER_DISCOVERED).
    + destruct (initialized d); run_state; rewrite IH; simpl;
        unfold removal_events, after_removal, is_no_longer_discovered;
        now rewrite <- app_assoc.
    + run_state. rewrite IH. reflexivity.
Qed.

Lemma arrival_loop_run (l : list libusb_device) :
  forall (c : libusb_context) (t : list event),
    for_each l arrival_body (c, t)
    = (tt, (c, t ++ arrival_events (ctx_addr c) l)).
Proof.
  induction l as [|d l IH]; intros c t.
  - simpl. now rewrite app_nil_r.
  - cbn [for_each]. unfold bind at 1.
    unfold arrival_body, usbi_hotplug_notification.
    unfold arrival_events, is_newly_discovered. cbn [flat_map].
    destruct (discovery_status_eqb (discovery_status d) NEWLY_DISCOVERED).
    + run_state. rewrite IH. simpl. unfold arrival_events, is_newly_discovered.
      now rewrite <- app_assoc.
    + run_state. rewrite IH. reflexivity.
Qed.

(** The marking loop: after the walk over [snapshot], the devices whose
    address occurs in it carry the tag, the others are as they were. *)
Lemma marking_loop_run (snapshot : list libusb_device) :
  forall (c : libusb_context) (t : list event),
    for_each snapshot
      (fun dev => store_discovery_status (dev_addr dev) NO_LONGER_DISCOVERED)
      (c, t)
    = (tt, (set_usb_devs c
              (map (fun x => if known (dev_addr x) snapshot
                             then set_discovery_status NO_LONGER_DISCOVERED x
                             else x)
                   (usb_devs c)), t)).
Proof.
  induction snapshot as [|d l IH]; intros c t.
  - simpl. rewrite map_id. now rewrite set_usb_devs_same.
  - cbn [for_each]. unfold bind at 1. unfold store_discovery_status at 1.
    unfold modify. cbn [fst snd]. rewrite IH.
    cbn [usb_devs set_usb_devs ctx_addr]. unfold set_usb_devs at 1.
    cbn [ctx_addr]. unfold set_usb_devs. f_equal. f_equal. f_equal.
    rewrite map_map. apply map_ext. intro x.
    change (known (dev_addr x) (d :: l))
      with ((dev_addr d =? dev_addr x) || known (dev_addr x) l).
    rewrite (Z.eqb_sym (dev_addr d) (dev_addr x)).
    destruct (dev_addr x =? dev_addr d); cbn [orb dev_addr set_discovery_status].
    + now destruct (known (dev_addr x) l).
    + reflexivity.
Qed.

Lemma marking_all (c : libusb_context) :
  set_usb_devs c
    (map (fun x => if known (dev_addr x) (usb_devs c)
                   then set_discovery_status NO_LONGER_DISCOVERED x else x)
         (usb_devs c))
  = mark_all c.
Proof.
  unfold mark_all. f_equal. apply map_ext_in. intros x Hx.
  assert (K : known (dev_addr x) (usb_devs c) = true).
  { apply existsb_exists. exists x. split; [exact Hx | apply Z.eqb_refl]. }
  now rewrite K.
Qed.

Section ReconcilerFacts.

Variable gdl : libusb_context -> Z * list libusb_device.

Lemma windows_get_device_list_run (c : libusb_context) (t : list event) :
  windows_get_device_list gdl (c, t)
  = (fst (gdl (mark_all c)),
     (set_usb_devs c (snd (gdl (mark_all c))),
      t ++ [E_get_device_list (ctx_addr c)])).
Proof.
  unfold windows_get_device_list, for_each_device.
  unfold bind at 1. unfold bind at 1. unfold gets at 1.
  cbn [fst snd]. rewrite marking_loop_run, marking_all.
  reflexivity.
Qed.

Lemma enumerated_eq (c : libusb_context) :
  enumerated gdl c = snd (gdl (mark_all c)).
Proof.
  unfold enumerated. now rewrite windows_get_device_list_run.
Qed.

Lemma enumeration_result_eq (c : libusb_context) :
  enumeration_result gdl c = fst (gdl (mark_all c)).
Proof.
  unfold enumeration_result. now rewrite windows_get_device_list_run.
Qed.

Lemma windows_refresh_device_list_run (c : libusb_context) (t : list event) :
  windows_refresh_device_list gdl (c, t)
  = (tt, (set_usb_devs c (pass_devs gdl c), t ++ pass_events gdl c)).
Proof.
  unfold windows_refresh_device_list, pass_devs, pass_events.
  unfold bind at 1. rewrite windows_get_device_list_run.
  rewrite enumerated_eq, enumeration_result_eq.
  destruct (fst (gdl (mark_all c)) =? LIBUSB_SUCCESS); cbn [negb].
  - unfold for_each_device_safe, for_each_device.
    unfold bind at 1. unfold gets at 2. cbn [fst snd usb_devs set_usb_devs].
    unfold bind at 1. unfold gets at 1. cbn [fst snd usb_devs set_usb_devs].
    rewrite removal_loop_run. cbn [fst snd usb_devs set_usb_devs ctx_addr].
    unfold bind at 1. cbn [fst snd usb_devs set_usb_devs].
    rewrite arrival_loop_run. cbn [ctx_addr set_usb_devs].
    now rewrite <- !app_assoc.
  - run_state. unfold modify. simpl. now rewrite <- app_assoc.
Qed.

Lemma refresh_pass_eq (c : libusb_context) :
  refresh_pass gdl c = (set_usb_devs c (pass_devs gdl c), pass_events gdl c).
Proof.
  unfold refresh_pass. now rewrite windows_refresh_device_list_run.
Qed.

Lemma removal_events_no_arrival (ca : Z) (l : list libusb_device) :
  Forall (fun e => is_arrival e = false) (removal_events ca l).
Proof.
  apply Forall_forall. intros e He. unfold removal_events in He.
  apply in_flat_map in He. destruct He as [d [_ He]].
  destruct (is_no_longer_discovered d); [|contradiction].
  destruct He as [<-|[]]. now destruct (initialized d).
Qed.

Lemma arrival_events_no_removal (ca : Z) (l : list libusb_device) :
  Forall (fun e => is_removal e = false) (arrival_events ca l).
Proof.
  apply Forall_forall. intros e He. unfold arrival_events in He.
  apply in_flat_map in He. destruct He as [d [_ He]].
  destruct (is_newly_discovered d); [|contradiction].
  now destruct He as [<-|[]].
Qed.

End ReconcilerFacts.

(** ** The adapter of the design, run on a marked list *)

Lemma known_spec (a : Z) (l : list libusb_device) :
  known a l = true <-> In a (map dev_addr l).
Proof.
  unfold known. rewrite existsb_exists, in_map_iff.
  split; intros [d [H1 H2]]; exists d.
  - apply Z.eqb_eq in H2. now split.
  - split; [exact H2|]. now apply Z.eqb_eq.
Qed.

Lemma mark_still_present_addr (a : Z) (l : list libusb_device) :
  map dev_addr (mark_still_present a l) = map dev_addr l.
Proof.
  unfold mark_still_present. rewrite map_map. apply map_ext.
  intro d. now destruct (dev_addr d =? a).
Qed.

Lemma tags_agree_marked (l : list libusb_device) :
  tags_agree (map dev_addr l) []
             (map (set_discovery_status NO_LONGER_DISCOVERED) l).
Proof.
  split.
  - intros a Ha. rewrite map_map. exact Ha.
  - intros d Hd. apply in_map_iff in Hd. destruct Hd as [d0 [<- Hd0]].
    simpl. split; [now apply in_map | intros []].
Qed.

Lemma tags_agree_step (ids0 seen : list Z) (l : list libusb_device)
      (p : Z * bool) :
  tags_agree ids0 seen l -> ~ In (fst p) seen ->
  tags_agree ids0 (fst p :: seen) (adapter_sees l p).
Proof.
  intros [Hk Ht] Hp. unfold adapter_sees.
  destruct (known (fst p) l) eqn:K.
  - split.
    + intros a Ha. rewrite mark_still_present_addr. now apply Hk.
    + intros d' Hd'. unfold mark_still_present in Hd'.
      apply in_map_iff in Hd'. destruct Hd' as [d [<- Hd]].
      specialize (Ht d Hd).
      destruct (Z.eqb_spec (dev_addr d) (fst p)) as [E|E].
      * simpl. rewrite E in *. split; [|now left].
        destruct (discovery_status d); tauto.
      * destruct (discovery_status d); simpl in *; intuition congruence.
  - assert (Hnot : ~ In (fst p) (map dev_addr l)).
    { intro H. apply known_spec in H. congruence. }
    split.
    + intros a Ha. rewrite map_app, in_app_iff. left. now apply Hk.
    + intros d' Hd'. apply in_app_iff in Hd'. destruct Hd' as [Hd|[<-|[]]].
      * specialize (Ht d' Hd).
        assert (E : dev_addr d' <> fst p).
        { intro E. apply Hnot. rewrite <- E. now apply in_map. }
        destruct (discovery_status d'); simpl in *; intuition congruence.
      * simpl. split; [|now left]. intro H. apply Hnot. now apply Hk.
Qed.

Lemma tags_agree_fold (ids0 : list Z) (present : list (Z * bool)) :
  forall (seen : list Z) (l : list libusb_device),
    tags_agree ids0 seen l ->
    NoDup (map fst present) ->
    (forall a, In a (map fst present) -> ~ In a seen) ->
    tags_agree ids0 (rev (map fst present) ++ seen)
               (fold_left adapter_sees present l).
Proof.
  induction present as [|p ps IH]; intros seen l Hl N Hd; simpl.
  - exact Hl.
  - inversion N as [|? ? Hp N']; subst.
    rewrite <- app_assoc. simpl. apply IH.
    + apply tags_agree_step; [exact Hl|]. apply Hd. now left.
    + exact N'.
    + intros a Ha [<-|Hs]; [contradiction|]. apply (Hd a); [now right|exact Hs].
Qed.

Lemma adapter_tags (present : list (Z * bool)) (ctx : libusb_context) :
  NoDup (map fst present) ->
  tags_agree (map dev_addr (usb_devs ctx)) (rev (map fst present))
             (enumerated (adapter_get_device_list present) ctx).
Proof.
  intro N. rewrite enumerated_eq. unfold adapter_get_device_list, mark_all.
  cbn [snd usb_devs set_usb_devs].
  rewrite <- (app_nil_r (rev (map fst present))).
  apply tags_agree_fold; [apply tags_agree_marked | exact N |].
  intros a _ [].
Qed.

(** * The discovery reconciler: properties *)

(** The scenario of the design: the context knows A, B and C; the
    enumerator reports A and a new device. B and C are removed (B was
    handed to the application, C was not), A stays without a
    notification, the new device arrives, removals first. *)
Example refresh_scenario :
  refresh_pass ex_gdl ex_ctx
  = (mk_context 1 [mk_device 100 STILL_PRESENT true;
                   mk_device 400 NEWLY_DISCOVERED false],
     [E_get_device_list 1;
      E_disconnect_device 1 200;
      E_detach_device 1 300;
      E_hotplug_notification 1 400 LIBUSB_HOTPLUG_EVENT_DEVICE_ARRIVED]).
Proof. reflexivity. Qed.

Example refresh_failure_scenario :
  refresh_pass ex_failing_gdl ex_ctx
  = (mk_context 1 [mk_device 100 NO_LONGER_DISCOVERED true;
                   mk_device 200 NO_LONGER_DISCOVERED true;
                   mk_device 300 NO_LONGER_DISCOVERED false],
     [E_get_device_list 1;
      E_usbi_err 1 "hotplug failed to retrieve current list with error: %s"
                 LIBUSB_ERROR_OTHER]).
Proof. reflexivity. Qed.

Lemma count_ext {A : Type} (p q : A -> bool) (l : list A) :
  (forall x, p x = q x) -> count p l = count q l.
Proof. intro H. unfold count. now rewrite (filter_ext p q H). Qed.

Lemma removal_events_mention (ca a : Z) (l : list libusb_device) (e : event) :
  In e (removal_events ca l) -> mentions_device a e = true ->
  exists d, In d l /\ is_no_longer_discovered d = true /\ dev_addr d = a.
Proof.
  unfold removal_events. intros He Hm.
  apply in_flat_map in He. destruct He as [d [Hd He]].
  destruct (is_no_longer_discovered d) eqn:N; [|contradiction].
  destruct He as [<-|[]]. exists d. split; [exact Hd|]. split; [exact N|].
  destruct (initialized d); simpl in Hm; now apply Z.eqb_eq.
Qed.

Lemma arrival_events_mention (ca a : Z) (l : list libusb_device) (e : event) :
  In e (arrival_events ca l) -> mentions_device a e = true ->
  exists d, In d l /\ is_newly_discovered d = true /\ dev_addr d = a.
Proof.
  unfold arrival_events. intros He Hm.
  apply in_flat_map in He. destruct He as [d [Hd He]].
  destruct (is_newly_discovered d) eqn:N; [|contradiction].
  destruct He as [<-|[]]. exists d. split; [exact Hd|]. split; [exact N|].
  simpl in Hm. now apply Z.eqb_eq.
Qed.

(** C2. In every reconciliation pass of a context, every removal
    notification of the pass (a disconnect through
    [usbi_disconnect_device] or a silent detach through
    [usbi_detach_device]) is emitted before any arrival notification of
    the same pass: in the trace of the pass, the position of a removal is
    smaller than the position of an arrival. *)
Theorem removals_precede_arrivals
        (gdl : libusb_context -> Z * list libusb_device)
        (ctx : libusb_context) (i j : nat) (e_rem e_arr : event) :
  nth_error (snd (refresh_pass gdl ctx)) i = Some e_rem ->
  is_removal e_rem = true ->
  nth_error (snd (refresh_pass gdl ctx)) j = Some e_arr ->
  is_arrival e_arr = true ->
  (i < j)%nat.
Proof.
  rewrite refresh_pass_eq. cbn [snd]. unfold pass_events.
  destruct (enumeration_result gdl ctx =? LIBUSB_SUCCESS).
  - rewrite app_comm_cons.
    apply (split_order is_removal is_arrival).
    + constructor; [reflexivity | apply removal_events_no_arrival].
    + apply arrival_events_no_removal.
  - intros Hi Hr _ _. apply nth_error_In in Hi.
    destruct Hi as [<-|[<-|[]]]; discriminate.
Qed.

Lemma removals_precede_arrivals_witness :
  nth_error (snd (refresh_pass ex_gdl ex_ctx)) 2 = Some (E_detach_device 1 300)
  /\ nth_error (snd (refresh_pass ex_gdl ex_ctx)) 3
     = Some (E_hotplug_notification 1 400 LIBUSB_HOTPLUG_EVENT_DEVICE_ARRIVED)
  /\ (2 < 3)%nat.
Proof.
  split; [reflexivity|]. split; [reflexivity|].
  apply (removals_precede_arrivals ex_gdl ex_ctx 2 3
           (E_detach_device 1 300)
           (E_hotplug_notification 1 400 LIBUSB_HOTPLUG_EVENT_DEVICE_ARRIVED));
    reflexivity.
Defined.

(** C3. After a successful enumeration, a device still tagged
    [NO_LONGER_DISCOVERED] gets exactly one disconnect and no detach when
    its [initialized] flag is set, exactly one detach and no disconnect
    when it is not, and in both cases it is no longer in the list of the
    context when the pass ends. *)
Theorem no_longer_discovered_removed_once
        (gdl : libusb_context -> Z * list libusb_device)
        (ctx : libusb_context) (d : libusb_device) :
  enumeration_result gdl ctx = LIBUSB_SUCCESS ->
  NoDup (map dev_addr (enumerated gdl ctx)) ->
  In d (enumerated gdl ctx) ->
  discovery_status d = NO_LONGER_DISCOVERED ->
  (if initialized d
   then count (is_disconnect_of (dev_addr d)) (snd (refresh_pass gdl ctx)) = 1%nat
        /\ count (is_detach_of (dev_addr d)) (snd (refresh_pass gdl ctx)) = 0%nat
   else count (is_detach_of (dev_addr d)) (snd (refresh_pass gdl ctx)) = 1%nat
        /\ count (is_disconnect_of (dev_addr d)) (snd (refresh_pass gdl ctx)) = 0%nat)
  /\ ~ In (dev_addr d) (map dev_addr (usb_devs (fst (refresh_pass gdl ctx)))).
Proof.
  intros Hok N Hd Hs.
  rewrite refresh_pass_eq. cbn [fst snd usb_devs set_usb_devs].
  unfold pass_events, pass_devs. rewrite Hok. cbn [Z.eqb LIBUSB_SUCCESS].
  set (L := enumerated gdl ctx) in *.
  assert (Hn : is_no_longer_discovered d = true).
  { unfold is_no_longer_discovered. now rewrite Hs. }
  assert (Hdis : count (is_disconnect_of (dev_addr d))
                       (removal_events (ctx_addr ctx) L)
                 = if initialized d then 1%nat else 0%nat).
  { unfold removal_events. rewrite count_flat_map_singleton.
    rewrite (count_ext _ (fun x => (is_no_longer_discovered x && initialized x)
                                   && (dev_addr x =? dev_addr d))).
    - rewrite (count_addr_NoDup _ L d N Hd). now rewrite Hn.
    - intro x. destruct (is_no_longer_discovered x), (initialized x); reflexivity. }
  assert (Hdet : count (is_detach_of (dev_addr d))
                       (removal_events (ctx_addr ctx) L)
                 = if initialized d then 0%nat else 1%nat).
  { unfold removal_events. rewrite count_flat_map_singleton.
    rewrite (count_ext _ (fun x => (is_no_longer_discovered x
                                    && negb (initialized x))
                                   && (dev_addr x =? dev_addr d))).
    - rewrite (count_addr_NoDup _ L d N Hd). rewrite Hn.
      now destruct (initialized d).
    - intro x. destruct (is_no_longer_discovered x), (initialized x); reflexivity. }
  assert (Harr : forall p, (forall e, is_arrival e = true -> p e = false) ->
             count p (arrival_events (ctx_addr ctx) (after_removal L L)) = 0%nat).
  { intros p Hp. apply count_none. apply Forall_forall. intros e He.
    apply Hp. unfold arrival_events in He. apply in_flat_map in He.
    destruct He as [x [_ He]]. destruct (is_newly_discovered x); [|contradiction].
    now destruct He as [<-|[]]. }
  split.
  - rewrite !count_cons, !count_app, Hdis, Hdet. cbn [is_disconnect_of is_detach_of].
    rewrite !Harr.
    + destruct (initialized d); split; reflexivity.
    + intros [] H; try discriminate H; reflexivity.
    + intros [] H; try discriminate H; reflexivity.
  - intro Hin. apply in_map_iff in Hin. destruct Hin as [x [Hx Hin]].
    apply In_after_removal in Hin. destruct Hin as [_ Hin].
    apply (Hin d Hd Hn). now symmetry.
Qed.

Lemma no_longer_discovered_removed_once_witness :
  ((count (is_disconnect_of 200) (snd (refresh_pass ex_gdl ex_ctx)) = 1%nat
    /\ count (is_detach_of 200) (snd (refresh_pass ex_gdl ex_ctx)) = 0%nat)
   /\ ~ In 200 (map dev_addr (usb_devs (fst (refresh_pass ex_gdl ex_ctx)))))
  /\
  ((count (is_detach_of 300) (snd (refresh_pass ex_gdl ex_ctx)) = 1%nat
    /\ count (is_disconnect_of 300) (snd (refresh_pass ex_gdl ex_ctx)) = 0%nat)
   /\ ~ In 300 (map dev_addr (usb_devs (fst (refresh_pass ex_gdl ex_ctx))))).
Proof.
  split.
  - apply (no_longer_discovered_removed_once ex_gdl ex_ctx
             (mk_device 200 NO_LONGER_DISCOVERED true)).
    + reflexivity.
    + vm_compute. repeat constructor; simpl; intuition discriminate.
    + vm_compute. tauto.
    + reflexivity.
  - apply (no_longer_discovered_removed_once ex_gdl ex_ctx
             (mk_device 300 NO_LONGER_DISCOVERED false)).
    + reflexivity.
    + vm_compute. repeat constructor; simpl; intuition discriminate.
    + vm_compute. tauto.
    + reflexivity.
Defined.

(** C4. When the enumeration of a context fails, the refresh logs the
    error and stops: the only calls of the pass are the enumeration and
    the error log, so no disconnect, detach or arrival is emitted, and
    the device list is the one the enumerator left, no device having been
    removed from it. In particular, when the enumerator itself touched
    nothing, the context holds the same devices as before the pass, in
    the same order. *)
Theorem enumeration_failure_abandons_refresh
        (gdl : libusb_context -> Z * list libusb_device)
        (ctx : libusb_context) :
  enumeration_result gdl ctx <> LIBUSB_SUCCESS ->
  snd (refresh_pass gdl ctx)
  = [E_get_device_list (ctx_addr ctx);
     E_usbi_err (ctx_addr ctx)
       "hotplug failed to retrieve current list with error: %s"
       (enumeration_result gdl ctx)]
  /\ Forall (fun e => is_notification e = false) (snd (refresh_pass gdl ctx))
  /\ usb_devs (fst (refresh_pass gdl ctx)) = enumerated gdl ctx
  /\ ctx_addr (fst (refresh_pass gdl ctx)) = ctx_addr ctx
  /\ (enumerated gdl ctx = usb_devs (mark_all ctx) ->
      map dev_addr (usb_devs (fst (refresh_pass gdl ctx)))
      = map dev_addr (usb_devs ctx)
      /\ map initialized (usb_devs (fst (refresh_pass gdl ctx)))
         = map initialized (usb_devs ctx)).
Proof.
  intro Hfail. apply Z.eqb_neq in Hfail.
  rewrite refresh_pass_eq. cbn [fst snd usb_devs set_usb_devs ctx_addr].
  unfold pass_events, pass_devs. rewrite Hfail.
  split; [reflexivity|]. split; [repeat constructor|].
  split; [reflexivity|]. split; [reflexivity|].
  intros ->. unfold mark_all. cbn [usb_devs set_usb_devs].
  rewrite !map_map. split; apply map_ext; reflexivity.
Qed.

Lemma enumeration_failure_abandons_refresh_witness :
  snd (refresh_pass ex_failing_gdl ex_ctx)
  = [E_get_device_list 1;
     E_usbi_err 1 "hotplug failed to retrieve current list with error: %s"
                LIBUSB_ERROR_OTHER]
  /\ map dev_addr (usb_devs (fst (refresh_pass ex_failing_gdl ex_ctx)))
     = [100; 200; 300].
Proof.
  destruct (enumeration_failure_abandons_refresh ex_failing_gdl ex_ctx)
    as [Ht [_ [_ [_ Hl]]]].
  - discriminate.
  - split; [exact Ht|]. apply Hl. reflexivity.
Defined.

(** C9. A device that the enumerator tagged [STILL_PRESENT] receives no
    notification in the pass (no disconnect, no detach, no hotplug
    notification mentions it) and is still in the list of the context
    when the pass ends. *)
Theorem still_present_untouched
        (gdl : libusb_context -> Z * list libusb_device)
        (ctx : libusb_context) (d : libusb_device) :
  NoDup (map dev_addr (enumerated gdl ctx)) ->
  In d (enumerated gdl ctx) ->
  discovery_status d = STILL_PRESENT ->
  Forall (fun e => mentions_device (dev_addr d) e = false)
         (snd (refresh_pass gdl ctx))
  /\ In d (usb_devs (fst (refresh_pass gdl ctx))).
Proof.
  intros N Hd Hs.
  rewrite refresh_pass_eq. cbn [fst snd usb_devs set_usb_devs].
  unfold pass_events, pass_devs.
  set (L := enumerated gdl ctx) in *.
  assert (Hkeep : In d (after_removal L L)).
  { apply In_after_removal. split; [exact Hd|].
    intros x Hx Hn E. rewrite (NoDup_addr_inj L x d N Hx Hd E) in Hn.
    unfold is_no_longer_discovered in Hn. rewrite Hs in Hn. discriminate. }
  destruct (enumeration_result gdl ctx =? LIBUSB_SUCCESS).
  - split; [|exact Hkeep].
    constructor; [reflexivity|]. apply Forall_app. split.
    + apply Forall_forall. intros e He.
      destruct (mentions_device (dev_addr d) e) eqn:M; [|reflexivity].
      destruct (removal_events_mention _ _ _ _ He M) as [x [Hx [Hn E]]].
      rewrite (NoDup_addr_inj L x d N Hx Hd E) in Hn.
      unfold is_no_longer_discovered in Hn. rewrite Hs in Hn. discriminate.
    + apply Forall_forall. intros e He.
      destruct (mentions_device (dev_addr d) e) eqn:M; [|reflexivity].
      destruct (arrival_events_mention _ _ _ _ He M) as [x [Hx [Hn E]]].
      apply In_after_removal in Hx. destruct Hx as [Hx _].
      rewrite (NoDup_addr_inj L x d N Hx Hd E) in Hn.
      unfold is_newly_discovered in Hn. rewrite Hs in Hn. discriminate.
  - split; [|exact Hd]. repeat constructor.
Qed.

Lemma still_present_untouched_witness :
  Forall (fun e => mentions_device 100 e = false)
         (snd (refresh_pass ex_gdl ex_ctx))
  /\ In ex_dev_A (usb_devs (fst (refresh_pass ex_gdl ex_ctx))).
Proof.
  apply (still_present_untouched ex_gdl ex_ctx ex_dev_A).
  - vm_compute. repeat constructor; simpl; intuition discriminate.
  - vm_compute. tauto.
  - reflexivity.
Defined.

(** C6. A pass first tags every device the context knows as
    [NO_LONGER_DISCOVERED] and only then invokes the enumerator, which
    therefore receives a list that carries no other tag. Consequently a
    tag other than [NO_LONGER_DISCOVERED] found after the enumeration was
    written by the enumerator during this pass; and with the enumerator
    of the design, run on the set [present] of attached devices, a device
    is tagged [STILL_PRESENT] or [NEWLY_DISCOVERED] only if it is
    attached (and was, respectively was not, known before), while a
    device still tagged [NO_LONGER_DISCOVERED] was known before and is
    not attached. *)
Theorem marked_before_enumeration
        (gdl : libusb_context -> Z * list libusb_device)
        (present : list (Z * bool))
        (ctx : libusb_context) (d d' : libusb_device) :
  NoDup (map fst present) ->
  In d (enumerated gdl ctx) ->
  In d' (enumerated (adapter_get_device_list present) ctx) ->
  (* the order of the two steps *)
  windows_get_device_list gdl (ctx, [])
  = (fst (gdl (mark_all ctx)),
     (set_usb_devs ctx (snd (gdl (mark_all ctx))),
      [E_get_device_list (ctx_addr ctx)]))
  /\ Forall (fun x => discovery_status x = NO_LONGER_DISCOVERED)
            (usb_devs (mark_all ctx))
  /\ map dev_addr (usb_devs (mark_all ctx)) = map dev_addr (usb_devs ctx)
  (* any enumerator *)
  /\ (discovery_status d <> NO_LONGER_DISCOVERED ->
      ~ In d (usb_devs (mark_all ctx)))
  (* the enumerator of the design *)
  /\ match discovery_status d' with
     | STILL_PRESENT =>
         In (dev_addr d') (map dev_addr (usb_devs ctx))
         /\ In (dev_addr d') (map fst present)
     | NEWLY_DISCOVERED =>
         ~ In (dev_addr d') (map dev_addr (usb_devs ctx))
         /\ In (dev_addr d') (map fst present)
     | NO_LONGER_DISCOVERED =>
         In (dev_addr d') (map dev_addr (usb_devs ctx))
         /\ ~ In (dev_addr d') (map fst present)
     | NOT_YET_SEEN => False
     end.
Proof.
  intros N Hd Hd'.
  assert (Hmarked : Forall (fun x => discovery_status x = NO_LONGER_DISCOVERED)
                           (usb_devs (mark_all ctx))).
  { unfold mark_all. cbn [usb_devs set_usb_devs]. apply Forall_forall.
    intros x Hx. apply in_map_iff in Hx. now destruct Hx as [x0 [<- _]]. }
  split; [apply windows_get_device_list_run|]. split; [exact Hmarked|]. split.
  { unfold mark_all. cbn [usb_devs set_usb_devs]. rewrite map_map.
    apply map_ext. reflexivity. }
  split.
  - intros Hs Hin. rewrite Forall_forall in Hmarked. now apply Hmarked in Hin.
  - destruct (adapter_tags present ctx N) as [_ Ht].
    specialize (Ht d' Hd').
    destruct (discovery_status d'); try exact Ht;
      rewrite <- !in_rev in Ht; exact Ht.
Qed.

Lemma marked_before_enumeration_witness :
  In (dev_addr ex_dev_A) (map dev_addr (usb_devs ex_ctx))
  /\ In (dev_addr ex_dev_A) (map fst ex_present).
Proof.
  apply (marked_before_enumeration ex_gdl ex_present ex_ctx
           ex_dev_A ex_dev_A).
  - vm_compute. repeat constructor; simpl; intuition discriminate.
  - vm_compute. tauto.
  - vm_compute. tauto.
Defined.

(** * The context-wide dispatch: properties *)

Lemma for_each_context_from_refresh
      (gdl : libusb_context -> Z * list libusb_device)
      (cs : list libusb_context) :
  forall t : list event,
    for_each_context_from cs (windows_refresh_device_list gdl) t
    = (map (fun c => fst (refresh_pass gdl c)) cs,
       t ++ flat_map (fun c => snd (refresh_pass gdl c)) cs).
Proof.
  induction cs as [|c cs IH]; intro t; simpl.
  - now rewrite app_nil_r.
  - rewrite windows_refresh_device_list_run. cbn [fst snd].
    rewrite IH, refresh_pass_eq. cbn [fst snd]. now rewrite <- app_assoc.
Qed.

Lemma refresh_all_run (gdl : libusb_context -> Z * list libusb_device)
      (w : world) :
  windows_refresh_device_list_for_all_ctx gdl w
  = (tt, set_registry (map (fun c => fst (refresh_pass gdl c))
                           (active_contexts w))
                      (trace w ++ dispatch_events gdl (active_contexts w)) w).
Proof.
  unfold windows_refresh_device_list_for_all_ctx, for_each_context, call.
  unfold bind, modify. cbn [active_contexts trace set_registry].
  rewrite for_each_context_from_refresh. cbn [fst snd].
  unfold set_registry, dispatch_events. cbn.
  now rewrite <- !app_assoc.
Qed.

Lemma pass_events_shape (gdl : libusb_context -> Z * list libusb_device)
      (c : libusb_context) :
  exists rest,
    snd (refresh_pass gdl c) = E_get_device_list (ctx_addr c) :: rest
    /\ Forall (fun e => is_lock_event e = false) rest
    /\ Forall (fun e => is_enumeration e = false) rest.
Proof.
  rewrite refresh_pass_eq. cbn [snd]. unfold pass_events.
  destruct (enumeration_result gdl c =? LIBUSB_SUCCESS);
    eexists; (split; [reflexivity|]).
  - split; apply Forall_app; split; apply Forall_forall; intros e He.
    + unfold removal_events in He. apply in_flat_map in He.
      destruct He as [d [_ He]].
      destruct (is_no_longer_discovered d); [|contradiction].
      destruct He as [<-|[]]. now destruct (initialized d).
    + unfold arrival_events in He. apply in_flat_map in He.
      destruct He as [d [_ He]].
      destruct (is_newly_discovered d); [|contradiction].
      now destruct He as [<-|[]].
    + unfold removal_events in He. apply in_flat_map in He.
      destruct He as [d [_ He]].
      destruct (is_no_longer_discovered d); [|contradiction].
      destruct He as [<-|[]]. now destruct (initialized d).
    + unfold arrival_events in He. apply in_flat_map in He.
      destruct He as [d [_ He]].
      destruct (is_newly_discovered d); [|contradiction].
      now destruct He as [<-|[]].
  - split; repeat constructor.
Qed.

Lemma passes_no_lock (gdl : libusb_context -> Z * list libusb_device)
      (cs : list libusb_context) :
  Forall (fun e => is_lock_event e = false)
         (flat_map (fun c => snd (refresh_pass gdl c)) cs).
Proof.
  induction cs as [|c cs IH]; simpl; [constructor|].
  apply Forall_app. split; [|exact IH].
  destruct (pass_events_shape gdl c) as [rest [-> [H _]]].
  now constructor.
Qed.

Lemma passes_enumerate_once (gdl : libusb_context -> Z * list libusb_device)
      (cs : list libusb_context) :
  filter is_enumeration (flat_map (fun c => snd (refresh_pass gdl c)) cs)
  = map (fun c => E_get_device_list (ctx_addr c)) cs.
Proof.
  induction cs as [|c cs IH]; simpl; [reflexivity|].
  rewrite filter_app, IH.
  destruct (pass_events_shape gdl c) as [rest [-> [_ H]]].
  simpl. f_equal.
  assert (E : filter is_enumeration rest = []).
  { clear -H. induction H as [|e l He _ IHl]; simpl; [reflexivity|].
    now rewrite He. }
  now rewrite E.
Qed.

(** C5. One dispatch takes the registry lock once and releases it once;
    between the two it runs one reconciliation pass for every context of
    the registry, one after the other in registry order (the backend is
    invoked once per context, in that order); and every context is left
    exactly as a pass on that context alone leaves it, whatever happened
    to the enumeration of the others. *)
Theorem refresh_all_dispatch
        (gdl : libusb_context -> Z * list libusb_device)
        (w : world) (i : nat) (c : libusb_context) :
  nth_error (active_contexts w) i = Some c ->
  let w' := snd (windows_refresh_device_list_for_all_ctx gdl w) in
  (* one critical section, holding the passes in order *)
  trace w'
  = trace w
    ++ E_lock_active_contexts
       :: flat_map (fun c => snd (refresh_pass gdl c)) (active_contexts w)
       ++ [E_unlock_active_contexts]
  /\ Forall (fun e => is_lock_event e = false)
            (flat_map (fun c => snd (refresh_pass gdl c)) (active_contexts w))
  /\ count is_lock (dispatch_events gdl (active_contexts w)) = 1%nat
  /\ count is_unlock (dispatch_events gdl (active_contexts w)) = 1%nat
  (* one pass per context *)
  /\ filter is_enumeration (dispatch_events gdl (active_contexts w))
     = map (fun c => E_get_device_list (ctx_addr c)) (active_contexts w)
  /\ active_contexts w'
     = map (fun c => fst (refresh_pass gdl c)) (active_contexts w)
  (* a failure elsewhere does not matter *)
  /\ nth_error (active_contexts w') i = Some (fst (refresh_pass gdl c)).
Proof.
  intros Hc w'. subst w'. rewrite refresh_all_run.
  cbn [snd trace active_contexts set_registry].
  pose proof (passes_no_lock gdl (active_contexts w)) as Hno.
  assert (Hl : forall p, (forall e, p e = true -> is_lock_event e = true) ->
             count p (flat_map (fun c => snd (refresh_pass gdl c))
                               (active_contexts w)) = 0%nat).
  { intros p Hp. apply count_none. eapply Forall_impl; [|exact Hno].
    intros e He. simpl in He. destruct (p e) eqn:E; [|reflexivity].
    apply Hp in E. congruence. }
  split; [reflexivity|]. split; [exact Hno|].
  unfold dispatch_events.
  split; [|split; [|split; [|split]]].
  - rewrite count_cons, count_app, Hl; [reflexivity|].
    intros []; simpl; congruence.
  - rewrite count_cons, count_app, Hl; [reflexivity|].
    intros []; simpl; congruence.
  - cbn [filter is_enumeration]. rewrite filter_app, passes_enumerate_once.
    simpl. now rewrite app_nil_r.
  - reflexivity.
  - rewrite nth_error_map, Hc. reflexivity.
Qed.

Lemma refresh_all_dispatch_witness :
  nth_error (active_contexts
               (snd (windows_refresh_device_list_for_all_ctx
                       ex_gdl_first_fails ex_world))) 1
  = Some (mk_context 2 [mk_device 100 NEWLY_DISCOVERED true;
                        mk_device 400 NEWLY_DISCOVERED false])
  /\ enumeration_result ex_gdl_first_fails ex_ctx = LIBUSB_ERROR_OTHER.
Proof.
  split; [|reflexivity].
  destruct (refresh_all_dispatch ex_gdl_first_fails ex_world 1 ex_ctx2)
    as [_ [_ [_ [_ [_ [_ H]]]]]].
  - reflexivity.
  - exact H.
Defined.

(** * The lifecycle controller and the monitor thread: properties *)

(** A complete life of the monitor thread after [start]: it subscribes,
    reconciles both contexts on a device arrival, and leaves its loop
    once [WM_CLOSE] has been handled. *)
Example monitor_full_run :
  let started := windows_start_event_monitor ex_os_ok ex_world in
  let exited := windows_event_thread_main ex_os_ok ex_gdl (snd started) in
  fst started = LIBUSB_SUCCESS
  /\ fst exited = Some 0
  /\ trace (snd exited)
     = [E_CreateThread;
        E_usbi_dbg "windows event thread entering";
        E_RegisterClass; E_CreateWindow; E_RegisterDeviceNotification 5;
        E_GetMessage 5;
        E_lock_active_contexts;
        E_get_device_list 1;
        E_disconnect_device 1 200; E_detach_device 1 300;
        E_hotplug_notification 1 400 LIBUSB_HOTPLUG_EVENT_DEVICE_ARRIVED;
        E_get_device_list 2;
        E_disconnect_device 2 200;
        E_hotplug_notification 2 100 LIBUSB_HOTPLUG_EVENT_DEVICE_ARRIVED;
        E_hotplug_notification 2 400 LIBUSB_HOTPLUG_EVENT_DEVICE_ARRIVED;
        E_unlock_active_contexts;
        E_TranslateMessage; E_DispatchMessage; E_DefWindowProc 0;
        E_GetMessage 5;
        E_UnregisterDeviceNotification 9; E_DestroyWindow 5;
        E_PostQuitMessage;
        E_usbi_dbg "windows event thread exiting"].
Proof. repeat split. Qed.

Lemma bind_run {S A B : Type} (m : State S A) (k : A -> State S B) (s : S) :
  bind m k s = k (fst (m s)) (snd (m s)).
Proof. unfold bind. now destruct (m s). Qed.

Lemma start_run (os : win32) (w : world) :
  windows_start_event_monitor os w
  = if os_CreateThread os =? NULL
    then (LIBUSB_ERROR_OTHER,
          mk_world (windows_event_hWnd w) (os_CreateThread os)
                   (device_notify_handle w) (active_contexts w)
                   (trace w ++ [E_CreateThread; E_log_error "CreateThread"]))
    else (LIBUSB_SUCCESS,
          mk_world (windows_event_hWnd w) (os_CreateThread os)
                   (device_notify_handle w) (active_contexts w)
                   (trace w ++ [E_CreateThread])).
Proof.
  unfold windows_start_event_monitor, log_error, call, bind, modify, gets, ret.
  cbn. destruct (os_CreateThread os =? NULL); cbn;
    [now rewrite <- app_assoc | reflexivity].
Qed.

Lemma on_WM_CLOSE_run (os : win32) (hWnd : Z) (w : world) :
  on_WM_CLOSE os hWnd w
  = (0, set_registry (active_contexts w)
          (trace w ++ close_events os hWnd (device_notify_handle w)) w).
Proof.
  unfold on_WM_CLOSE, DestroyWindow, on_WM_DESTROY, close_events, log_error.
  unfold call, bind, modify, gets, ret. cbn.
  destruct (os_UnregisterDeviceNotification os =? 0),
           (os_DestroyWindow os =? 0) eqn:D;
    cbn; rewrite ?D; cbn; unfold set_registry; cbn;
    rewrite <- ?app_assoc; reflexivity.
Qed.

(** What [SendMessage] returns passes the [SUCCEEDED] test, whether it is
    the answer of the [WM_CLOSE] case or the 0 of a send that reached no
    window. *)
Lemma SendMessage_WM_CLOSE_run (os : win32) (hWnd : Z) (w : world) :
  SendMessage_WM_CLOSE os hWnd w
  = (0, set_registry (active_contexts w)
          (trace w ++ E_SendMessage hWnd WM_CLOSE
                   :: (if os_SendMessage_delivered os
                       then close_events os hWnd (device_notify_handle w)
                       else [])) w).
Proof.
  unfold SendMessage_WM_CLOSE. rewrite bind_run.
  destruct (os_SendMessage_delivered os).
  - rewrite on_WM_CLOSE_run. unfold call, modify, set_registry. cbn.
    now rewrite <- app_assoc.
  - reflexivity.
Qed.

Lemma stop_run (os : win32) (w : world) :
  windows_event_hWnd w <> NULL ->
  windows_stop_event_monitor os w
  = ((if (os_WaitForSingleObject os =? WAIT_OBJECT_0)
         && negb (os_CloseHandle os =? 0)
      then LIBUSB_SUCCESS else LIBUSB_ERROR_OTHER),
     set_registry (active_contexts w)
       (trace w ++ stop_events os (windows_event_hWnd w)
                               (windows_event_thread_handle w)
                               (device_notify_handle w)) w).
Proof.
  intro H. apply Z.eqb_neq in H.
  unfold windows_stop_event_monitor.
  rewrite bind_run. unfold gets at 1. cbn [fst snd]. rewrite H.
  rewrite bind_run, SendMessage_WM_CLOSE_run. cbn [fst snd].
  change (SUCCEEDED 0) with true. cbn [negb].
  unfold stop_events, log_error, call, bind, modify, gets, ret.
  destruct (os_WaitForSingleObject os =? WAIT_OBJECT_0),
           (os_CloseHandle os =? 0);
    cbn; unfold set_registry; cbn; rewrite <- ?app_assoc; reflexivity.
Qed.

Lemma stop_null_result (os : win32) (w : world) :
  windows_event_hWnd w = NULL ->
  fst (windows_stop_event_monitor os w) = LIBUSB_SUCCESS.
Proof.
  intro H. unfold windows_stop_event_monitor, bind, gets, ret.
  now rewrite H.
Qed.

Lemma stop_null_run (os : win32) (w : world) :
  windows_event_hWnd w = NULL ->
  windows_stop_event_monitor os w = (LIBUSB_SUCCESS, w).
Proof.
  intro H. unfold windows_stop_event_monitor, bind, gets, ret.
  now rewrite H.
Qed.

(** C7, as the code has it. When the monitor was started (the window
    handle is not null), [stop] always makes its three calls, in order:
    [SendMessage], [WaitForSingleObject], [CloseHandle], none of them
    ending the function early. A failed join and a failed release of the
    thread handle are each logged right after the call that failed, and
    each makes the result [LIBUSB_ERROR_OTHER]. The result is decided by
    these two steps alone: whether [SendMessage] reached the window or
    not changes nothing to it. *)
Theorem stop_best_effort (os : win32) (w : world) :
  windows_event_hWnd w <> NULL ->
  trace (snd (windows_stop_event_monitor os w))
  = trace w
    ++ [E_SendMessage (windows_event_hWnd w) WM_CLOSE]
    ++ (if os_SendMessage_delivered os
        then close_events os (windows_event_hWnd w) (device_notify_handle w)
        else [])
    ++ [E_WaitForSingleObject (windows_event_thread_handle w)]
    ++ (if os_WaitForSingleObject os =? WAIT_OBJECT_0
        then [] else [E_log_error "WaitForSingleObject"])
    ++ [E_CloseHandle (windows_event_thread_handle w)]
    ++ (if os_CloseHandle os =? 0
        then [E_log_error "WaitForSingleObject"] else [])
  /\ fst (windows_stop_event_monitor os w)
     = (if (os_WaitForSingleObject os =? WAIT_OBJECT_0)
           && negb (os_CloseHandle os =? 0)
        then LIBUSB_SUCCESS else LIBUSB_ERROR_OTHER)
  /\ (os_WaitForSingleObject os <> WAIT_OBJECT_0 \/ os_CloseHandle os = 0 ->
      fst (windows_stop_event_monitor os w) = LIBUSB_ERROR_OTHER)
  /\ (os_WaitForSingleObject os = WAIT_OBJECT_0 -> os_CloseHandle os <> 0 ->
      fst (windows_stop_event_monitor os w) = LIBUSB_SUCCESS).
Proof.
  intro H. rewrite (stop_run os w H). cbn [fst snd trace set_registry].
  split; [reflexivity|]. split; [reflexivity|]. split.
  - intros [Hw|Hc].
    + apply Z.eqb_neq in Hw. now rewrite Hw.
    + rewrite Hc. cbn. now rewrite andb_false_r.
  - intros Hw Hc. apply Z.eqb_neq in Hc. rewrite Hw, Hc. reflexivity.
Qed.

Lemma stop_best_effort_witness :
  trace (snd (windows_stop_event_monitor ex_os_send_fails ex_world_started))
  = [E_SendMessage 5 WM_CLOSE; E_WaitForSingleObject 7; E_CloseHandle 7]
  /\ fst (windows_stop_event_monitor ex_os_send_fails ex_world_started)
     = LIBUSB_SUCCESS.
Proof.
  destruct (stop_best_effort ex_os_send_fails ex_world_started)
    as [Ht [Hr _]].
  - discriminate.
  - split; [exact Ht | exact Hr].
Defined.

(** C7, as worded, fails: with a started monitor whose window no longer
    exists, the signalling fails ([SendMessage] reaches no window), the
    join and the release succeed, and [stop] returns
    [LIBUSB_SUCCESS]. *)
Lemma stop_send_failure_not_reported :
  ~ stop_reports_every_failure ex_os_send_fails ex_world_started.
Proof.
  intro H. apply H.
  - discriminate.
  - left. reflexivity.
  - reflexivity.
Qed.

(** C8. When the monitor was never started (the window handle is null),
    [stop] returns [LIBUSB_SUCCESS] and changes nothing: no call is made,
    so the window is not torn down, the thread is neither signalled nor
    joined, and its handle is not closed. *)
Theorem stop_without_start_is_noop (os : win32) (w : world) :
  windows_event_hWnd w = NULL ->
  windows_stop_event_monitor os w = (LIBUSB_SUCCESS, w)
  /\ trace (snd (windows_stop_event_monitor os w)) = trace w.
Proof.
  intro H. unfold windows_stop_event_monitor, bind, gets, ret.
  rewrite H. cbn. split; reflexivity.
Qed.

Lemma stop_without_start_is_noop_witness :
  windows_stop_event_monitor ex_os_send_fails ex_world
  = (LIBUSB_SUCCESS, ex_world)
  /\ trace (snd (windows_stop_event_monitor ex_os_send_fails ex_world)) = [].
Proof.
  apply (stop_without_start_is_noop ex_os_send_fails ex_world). reflexivity.
Defined.

Lemma thread_subscription_failure
      (os : win32) (gdl : libusb_context -> Z * list libusb_device)
      (w : world) :
  subscription_fails os ->
  fst (windows_event_thread_main os gdl w) = Some (to_DWORD (-1))
  /\ windows_event_hWnd (snd (windows_event_thread_main os gdl w))
     = (if os_RegisterClass os =? 0 then windows_event_hWnd w else NULL)
  /\ windows_event_thread_handle (snd (windows_event_thread_main os gdl w))
     = windows_event_thread_handle w
  /\ exists evs,
      trace (snd (windows_event_thread_main os gdl w)) = trace w ++ evs
      /\ Forall (fun e => is_wait e = false) evs
      /\ Forall (fun e => is_stop_call e = false) evs.
Proof.
  intro Hfail.
  unfold windows_event_thread_main, init_wnd_class, CreateWindow.
  unfold windows_proc_callback, register_device_interface_to_window_handle.
  unfold log_error, call, bind, modify, gets, ret.
  destruct (os_RegisterClass os =? 0) eqn:R; cbn.
  - repeat split. eexists. rewrite <- !app_assoc. split; [reflexivity|].
    split; repeat constructor.
  - destruct (os_CreateWindow os =? NULL) eqn:W; cbn.
    + repeat split. eexists. rewrite <- !app_assoc. split; [reflexivity|].
      split; repeat constructor.
    + assert (N : (os_RegisterDeviceNotification os =? NULL) = true).
      { apply Z.eqb_eq. apply Z.eqb_neq in R, W.
        destruct Hfail as [H|[H|H]]; [contradiction|contradiction|exact H]. }
      rewrite N. cbn.
      repeat split. eexists. rewrite <- !app_assoc. split; [reflexivity|].
      split; repeat constructor.
Qed.

(** C1, as the code has it. When the thread was created and its
    subscription fails (window class, window or device notification),
    the thread returns [(DWORD)-1] without ever calling its blocking
    wait; [start], which returns as soon as [CreateThread] has answered,
    does not observe this and returns [LIBUSB_SUCCESS]; and a [stop] that
    follows returns [LIBUSB_SUCCESS], the window handle being null. *)
Theorem subscription_failure_not_seen_by_start
        (os : win32) (gdl : libusb_context -> Z * list libusb_device)
        (w : world) :
  windows_event_hWnd w = NULL ->
  os_CreateThread os <> NULL ->
  subscription_fails os ->
  fst (windows_event_thread_main os gdl
         (snd (windows_start_event_monitor os w))) = Some 4294967295
  /\ (exists evs,
        trace (snd (windows_event_thread_main os gdl
                      (snd (windows_start_event_monitor os w))))
        = trace (snd (windows_start_event_monitor os w)) ++ evs
        /\ Forall (fun e => is_wait e = false) evs)
  /\ fst (windows_start_event_monitor os w) = LIBUSB_SUCCESS
  /\ fst (windows_stop_event_monitor os
            (snd (windows_event_thread_main os gdl
                    (snd (windows_start_event_monitor os w)))))
     = LIBUSB_SUCCESS.
Proof.
  intros Hw Ht Hfail.
  destruct (thread_subscription_failure os gdl
              (snd (windows_start_event_monitor os w)) Hfail)
    as [Hexit [Hh [_ Hev]]].
  split; [exact Hexit|]. split.
  { destruct Hev as [evs [He [Hwait _]]]. now exists evs. }
  assert (Hs : windows_event_hWnd (snd (windows_start_event_monitor os w))
               = NULL).
  { rewrite start_run. destruct (os_CreateThread os =? NULL); exact Hw. }
  split.
  - rewrite start_run. apply Z.eqb_neq in Ht. now rewrite Ht.
  - apply stop_null_result.
    rewrite Hh, Hs. now destruct (os_RegisterClass os =? 0).
Qed.

Lemma subscription_failure_not_seen_by_start_witness :
  fst (windows_event_thread_main ex_os_no_class ex_gdl
         (snd (windows_start_event_monitor ex_os_no_class ex_world)))
  = Some 4294967295
  /\ fst (windows_start_event_monitor ex_os_no_class ex_world) = LIBUSB_SUCCESS
  /\ fst (windows_stop_event_monitor ex_os_no_class
            (snd (windows_event_thread_main ex_os_no_class ex_gdl
                    (snd (windows_start_event_monitor ex_os_no_class
                                                      ex_world)))))
     = LIBUSB_SUCCESS.
Proof.
  destruct (subscription_failure_not_seen_by_start
              ex_os_no_class ex_gdl ex_world)
    as [He [_ [Hs Hp]]].
  - reflexivity.
  - discriminate.
  - left. reflexivity.
  - split; [exact He|]. split; [exact Hs | exact Hp].
Defined.

(** C1, as worded, fails: the thread is created, the window class cannot
    be registered, and [start] reports success. *)
Lemma start_misses_subscription_failure :
  ~ start_reports_subscription_failure ex_os_no_class ex_world.
Proof.
  intro H. apply H.
  - left. reflexivity.
  - reflexivity.
Qed.

(** C10. What [stop] does depends on the window handle alone, not on
    the existence of a thread. After a [start] that created the thread,
    as long as the thread has not created its window, and also once the
    thread has given up because its subscription failed, [stop] returns
    [LIBUSB_SUCCESS] at once and leaves the process state as it is: no
    [SendMessage], [WaitForSingleObject] or [CloseHandle] has been called
    since [start] was entered, and the thread handle is still the one
    [CreateThread] returned. *)
Theorem stop_keyed_on_window_handle
        (os : win32) (gdl : libusb_context -> Z * list libusb_device)
        (w : world) :
  windows_event_hWnd w = NULL ->
  os_CreateThread os <> NULL ->
  fst (windows_start_event_monitor os w) = LIBUSB_SUCCESS
  /\ windows_event_thread_handle (snd (windows_start_event_monitor os w))
     = os_CreateThread os
  (* the thread has not created its window yet *)
  /\ windows_stop_event_monitor os (snd (windows_start_event_monitor os w))
     = (LIBUSB_SUCCESS, snd (windows_start_event_monitor os w))
  /\ trace (snd (windows_start_event_monitor os w))
     = trace w ++ [E_CreateThread]
  (* the thread exited early *)
  /\ (subscription_fails os ->
      windows_stop_event_monitor os
        (snd (windows_event_thread_main os gdl
                (snd (windows_start_event_monitor os w))))
      = (LIBUSB_SUCCESS,
         snd (windows_event_thread_main os gdl
                (snd (windows_start_event_monitor os w))))
      /\ windows_event_thread_handle
           (snd (windows_event_thread_main os gdl
                   (snd (windows_start_event_monitor os w))))
         = os_CreateThread os
      /\ exists evs,
          trace (snd (windows_stop_event_monitor os
                        (snd (windows_event_thread_main os gdl
                                (snd (windows_start_event_monitor os w))))))
          = trace w ++ evs
          /\ Forall (fun e => is_stop_call e = false) evs)
  (* the result depends on the window handle being null or not, and on
     nothing else in the process state *)
  /\ (forall w1 w2,
        (windows_event_hWnd w1 =? NULL) = (windows_event_hWnd w2 =? NULL) ->
        fst (windows_stop_event_monitor os w1)
        = fst (windows_stop_event_monitor os w2)).
Proof.
  intros Hw Ht.
  assert (Hkey : forall w1 w2,
            (windows_event_hWnd w1 =? NULL) = (windows_event_hWnd w2 =? NULL) ->
            fst (windows_stop_event_monitor os w1)
            = fst (windows_stop_event_monitor os w2)).
  { intros w1 w2 E.
    destruct (Z.eqb_spec (windows_event_hWnd w1) NULL) as [H1|H1];
      destruct (Z.eqb_spec (windows_event_hWnd w2) NULL) as [H2|H2];
      try discriminate E.
    - now rewrite (stop_null_run os w1 H1), (stop_null_run os w2 H2).
    - now rewrite (stop_run os w1 H1), (stop_run os w2 H2). }
  assert (Hstart : windows_start_event_monitor os w
                   = (LIBUSB_SUCCESS,
                      mk_world (windows_event_hWnd w) (os_CreateThread os)
                               (device_notify_handle w) (active_contexts w)
                               (trace w ++ [E_CreateThread]))).
  { rewrite start_run. apply Z.eqb_neq in Ht. now rewrite Ht. }
  rewrite Hstart. cbn [fst snd].
  split; [reflexivity|]. split; [reflexivity|]. split.
  { apply stop_null_run. exact Hw. }
  split; [reflexivity|].
  split; [|exact Hkey].
  intro Hfail.
  match goal with
  | |- context [windows_event_thread_main os gdl ?w1] =>
      destruct (thread_subscription_failure os gdl w1 Hfail)
        as [_ [Hh [Hth [evs [Hev [_ Hno]]]]]];
      set (exited := snd (windows_event_thread_main os gdl w1)) in *
  end.
  assert (Hnull : windows_event_hWnd exited = NULL).
  { rewrite Hh. cbn [windows_event_hWnd].
    now destruct (os_RegisterClass os =? 0). }
  rewrite (stop_null_run os exited Hnull). cbn [snd].
  split; [reflexivity|]. split; [exact Hth|].
  exists (E_CreateThread :: evs). split.
  - rewrite Hev. cbn [trace]. now rewrite <- app_assoc.
  - constructor; [reflexivity | exact Hno].
Qed.

Lemma stop_keyed_on_window_handle_witness :
  windows_stop_event_monitor ex_os_no_class
    (snd (windows_start_event_monitor ex_os_no_class ex_world))
  = (LIBUSB_SUCCESS,
     mk_world NULL 7 NULL [ex_ctx; ex_ctx2] [E_CreateThread]).
Proof.
  destruct (stop_keyed_on_window_handle ex_os_no_class ex_gdl ex_world)
    as [_ [_ [H _]]].
  - reflexivity.
  - discriminate.
  - exact H.
Defined.

(** * Further properties of the reconciler *)

Lemma NoDup_addr_filter (f : libusb_device -> bool) (l : list libusb_device) :
  NoDup (map dev_addr l) -> NoDup (map dev_addr (filter f l)).
Proof.
  induction l as [|x l IH]; simpl; intro N; [constructor|].
  inversion N as [|? ? Hx N']; subst.
  destruct (f x); simpl; [|now apply IH].
  constructor; [|now apply IH].
  intro H. apply Hx. apply in_map_iff in H. destruct H as [y [E Hy]].
  apply filter_In in Hy. rewrite <- E. apply in_map. tauto.
Qed.

Lemma after_removal_NoDup (l : list libusb_device) :
  NoDup (map dev_addr l) ->
  after_removal l l = filter (fun d => negb (is_no_longer_discovered d)) l.
Proof.
  intro N. rewrite after_removal_filter. apply filter_ext_in.
  intros x Hx. f_equal.
  destruct (is_no_longer_discovered x) eqn:Nx.
  - apply existsb_exists. exists x. split; [exact Hx|].
    rewrite Nx. apply Z.eqb_refl.
  - destruct (existsb _ l) eqn:E; [|reflexivity].
    apply existsb_exists in E. destruct E as [d [Hd Hc]].
    apply andb_true_iff in Hc. destruct Hc as [Hn Ha].
    apply Z.eqb_eq in Ha.
    rewrite (NoDup_addr_inj l d x N Hd Hx Ha) in Hn. congruence.
Qed.

(** X1. After a successful enumeration, a device tagged
    [NEWLY_DISCOVERED] gets exactly one arrival notification, is the
    object of no disconnect and of no detach, and is in the list of the
    context when the pass ends. *)
Theorem newly_discovered_announced_once
        (gdl : libusb_context -> Z * list libusb_device)
        (ctx : libusb_context) (d : libusb_device) :
  enumeration_result gdl ctx = LIBUSB_SUCCESS ->
  NoDup (map dev_addr (enumerated gdl ctx)) ->
  In d (enumerated gdl ctx) ->
  discovery_status d = NEWLY_DISCOVERED ->
  count (is_arrival_of (dev_addr d)) (snd (refresh_pass gdl ctx)) = 1%nat
  /\ count (is_disconnect_of (dev_addr d)) (snd (refresh_pass gdl ctx)) = 0%nat
  /\ count (is_detach_of (dev_addr d)) (snd (refresh_pass gdl ctx)) = 0%nat
  /\ In d (usb_devs (fst (refresh_pass gdl ctx))).
Proof.
  intros Hok N Hd Hs.
  rewrite refresh_pass_eq. cbn [fst snd usb_devs set_usb_devs].
  unfold pass_events, pass_devs. rewrite Hok. cbn [Z.eqb LIBUSB_SUCCESS].
  set (L := enumerated gdl ctx) in *.
  assert (Hnew : is_newly_discovered d = true).
  { unfold is_newly_discovered. now rewrite Hs. }
  assert (Hnl : is_no_longer_discovered d = false).
  { unfold is_no_longer_discovered. now rewrite Hs. }
  assert (Hkeep : In d (after_removal L L)).
  { rewrite (after_removal_NoDup L N). apply filter_In. split; [exact Hd|].
    now rewrite Hnl. }
  assert (Hrem : forall p, (forall e, p e = true ->
                                      mentions_device (dev_addr d) e = true) ->
             count p (removal_events (ctx_addr ctx) L) = 0%nat).
  { intros p Hp. apply count_none. apply Forall_forall. intros e He.
    destruct (p e) eqn:E; [|reflexivity]. apply Hp in E.
    destruct (removal_events_mention _ _ _ _ He E) as [x [Hx [Hn Ea]]].
    rewrite (NoDup_addr_inj L x d N Hx Hd Ea) in Hn. congruence. }
  split; [|split; [|split; [|exact Hkeep]]].
  - rewrite count_cons, count_app. cbn [is_arrival_of].
    rewrite Hrem.
    + unfold arrival_events. rewrite count_flat_map_singleton.
      rewrite (count_ext _ (fun x => is_newly_discovered x
                                     && (dev_addr x =? dev_addr d))).
      * rewrite (count_addr_NoDup _ (after_removal L L) d).
        -- now rewrite Hnew.
        -- rewrite (after_removal_NoDup L N). now apply NoDup_addr_filter.
        -- exact Hkeep.
      * intro x. reflexivity.
    + intros [] H; try discriminate H. destruct ev; [exact H|discriminate H].
  - rewrite count_cons, count_app. cbn [is_disconnect_of].
    rewrite Hrem.
    + rewrite count_none; [reflexivity|].
      eapply Forall_impl; [|apply (arrival_events_no_removal)].
      intros [] H; try reflexivity; discriminate H.
    + intros [] H; try discriminate H. exact H.
  - rewrite count_cons, count_app. cbn [is_detach_of].
    rewrite Hrem.
    + rewrite count_none; [reflexivity|].
      eapply Forall_impl; [|apply (arrival_events_no_removal)].
      intros [] H; try reflexivity; discriminate H.
    + intros [] H; try discriminate H. exact H.
Qed.

Lemma newly_discovered_announced_once_witness :
  count (is_arrival_of 400) (snd (refresh_pass ex_gdl ex_ctx)) = 1%nat
  /\ count (is_disconnect_of 400) (snd (refresh_pass ex_gdl ex_ctx)) = 0%nat
  /\ count (is_detach_of 400) (snd (refresh_pass ex_gdl ex_ctx)) = 0%nat
  /\ In (mk_device 400 NEWLY_DISCOVERED false)
        (usb_devs (fst (refresh_pass ex_gdl ex_ctx))).
Proof.
  apply (newly_discovered_announced_once ex_gdl ex_ctx
           (mk_device 400 NEWLY_DISCOVERED false)).
  - reflexivity.
  - vm_compute. repeat constructor; simpl; intuition discriminate.
  - vm_compute. tauto.
  - reflexivity.
Defined.

(** X2. A successful pass only removes: whatever the enumerator did,
    every device of the list it leaves is a device of the enumerated
    list, none of them is tagged [NO_LONGER_DISCOVERED] any more, and the
    context keeps its address. *)
Theorem pass_leaves_no_absent_device
        (gdl : libusb_context -> Z * list libusb_device)
        (ctx : libusb_context) :
  enumeration_result gdl ctx = LIBUSB_SUCCESS ->
  incl (usb_devs (fst (refresh_pass gdl ctx))) (enumerated gdl ctx)
  /\ Forall (fun d => discovery_status d <> NO_LONGER_DISCOVERED)
            (usb_devs (fst (refresh_pass gdl ctx)))
  /\ ctx_addr (fst (refresh_pass gdl ctx)) = ctx_addr ctx.
Proof.
  intro Hok. rewrite refresh_pass_eq. cbn [fst usb_devs set_usb_devs ctx_addr].
  unfold pass_devs. rewrite Hok. cbn [Z.eqb LIBUSB_SUCCESS].
  split; [|split; [|reflexivity]].
  - intros x Hx. apply In_after_removal in Hx. tauto.
  - apply Forall_forall. intros x Hx Hs.
    apply In_after_removal in Hx. destruct Hx as [Hx Hno].
    apply (Hno x Hx); [|reflexivity].
    unfold is_no_longer_discovered. now rewrite Hs.
Qed.

Lemma pass_leaves_no_absent_device_witness :
  incl (usb_devs (fst (refresh_pass ex_gdl ex_ctx))) (enumerated ex_gdl ex_ctx)
  /\ Forall (fun d => discovery_status d <> NO_LONGER_DISCOVERED)
            (usb_devs (fst (refresh_pass ex_gdl ex_ctx)))
  /\ ctx_addr (fst (refresh_pass ex_gdl ex_ctx)) = ctx_addr ex_ctx.
Proof.
  apply (pass_leaves_no_absent_device ex_gdl ex_ctx). reflexivity.
Defined.

Lemma count_filter_length {A : Type} (p : A -> bool) (l : list A) :
  (List.length l = List.length (filter (fun x => negb (p x)) l) + count p l)%nat.
Proof.
  unfold count. induction l as [|x l IH]; simpl; [reflexivity|].
  destruct (p x); simpl; lia.
Qed.

Lemma count_removal_events (ca : Z) (l : list libusb_device) :
  count is_removal (removal_events ca l) = count is_no_longer_discovered l.
Proof.
  unfold removal_events. rewrite count_flat_map_singleton.
  apply count_ext. intro x.
  destruct (is_no_longer_discovered x), (initialized x); reflexivity.
Qed.

Lemma count_arrival_events (ca : Z) (l : list libusb_device) :
  count is_arrival (arrival_events ca l) = count is_newly_discovered l.
Proof.
  unfold arrival_events. rewrite count_flat_map_singleton.
  apply count_ext. intro x. now destruct (is_newly_discovered x).
Qed.

Lemma count_new_after_filter (l : list libusb_device) :
  count is_newly_discovered
        (filter (fun d => negb (is_no_longer_discovered d)) l)
  = count is_newly_discovered l.
Proof.
  induction l as [|x l IH]; [reflexivity|].
  cbn [filter]. unfold is_no_longer_discovered at 1.
  destruct (discovery_status x) eqn:E; cbn [discovery_status_eqb negb];
    rewrite ?count_cons, IH; try reflexivity.
  unfold is_newly_discovered. now rewrite E.
Qed.

(** X3. On a well-formed list a successful pass keeps exactly the
    devices that are not tagged [NO_LONGER_DISCOVERED], in their order;
    it emits one removal (disconnect or detach) per device it drops and
    one arrival per device tagged [NEWLY_DISCOVERED], so that the
    enumerated devices are the remaining ones plus the removals. *)
Theorem pass_accounts_for_every_device
        (gdl : libusb_context -> Z * list libusb_device)
        (ctx : libusb_context) :
  enumeration_result gdl ctx = LIBUSB_SUCCESS ->
  NoDup (map dev_addr (enumerated gdl ctx)) ->
  usb_devs (fst (refresh_pass gdl ctx))
  = filter (fun d => negb (is_no_longer_discovered d)) (enumerated gdl ctx)
  /\ count is_removal (snd (refresh_pass gdl ctx))
     = count is_no_longer_discovered (enumerated gdl ctx)
  /\ count is_arrival (snd (refresh_pass gdl ctx))
     = count is_newly_discovered (enumerated gdl ctx)
  /\ List.length (enumerated gdl ctx)
     = (List.length (usb_devs (fst (refresh_pass gdl ctx)))
        + count is_removal (snd (refresh_pass gdl ctx)))%nat.
Proof.
  intros Hok N.
  rewrite refresh_pass_eq. cbn [fst snd usb_devs set_usb_devs].
  unfold pass_events, pass_devs. rewrite Hok. cbn [Z.eqb LIBUSB_SUCCESS].
  set (L := enumerated gdl ctx) in *.
  rewrite (after_removal_NoDup L N).
  assert (Hr : count is_removal
                 (E_get_device_list (ctx_addr ctx)
                  :: removal_events (ctx_addr ctx) L
                  ++ arrival_events (ctx_addr ctx)
                       (filter (fun d => negb (is_no_longer_discovered d)) L))
               = count is_no_longer_discovered L).
  { rewrite count_cons, count_app, count_removal_events.
    rewrite (count_none is_removal (arrival_events _ _))
      by apply arrival_events_no_removal.
    cbn [is_removal]. lia. }
  split; [reflexivity|]. split; [exact Hr|]. split.
  - rewrite count_cons, count_app, count_arrival_events.
    rewrite (count_none is_arrival (removal_events _ _))
      by apply removal_events_no_arrival.
    cbn [is_arrival]. cbn [Nat.add]. apply count_new_after_filter.
  - rewrite Hr. apply count_filter_length.
Qed.

Lemma pass_accounts_for_every_device_witness :
  usb_devs (fst (refresh_pass ex_gdl ex_ctx))
  = [mk_device 100 STILL_PRESENT true; mk_device 400 NEWLY_DISCOVERED false]
  /\ count is_removal (snd (refresh_pass ex_gdl ex_ctx)) = 2%nat
  /\ count is_arrival (snd (refresh_pass ex_gdl ex_ctx)) = 1%nat
  /\ List.length (enumerated ex_gdl ex_ctx) = 4%nat.
Proof.
  destruct (pass_accounts_for_every_device ex_gdl ex_ctx)
    as [H1 [H2 [H3 H4]]].
  - reflexivity.
  - vm_compute. repeat constructor; simpl; intuition discriminate.
  - split; [exact H1|]. split; [exact H2|]. split; [exact H3 | exact H4].
Defined.

Lemma mark_all_ext (c c' : libusb_context) :
  ctx_addr c = ctx_addr c' ->
  map dev_addr (usb_devs c) = map dev_addr (usb_devs c') ->
  map initialized (usb_devs c) = map initialized (usb_devs c') ->
  mark_all c = mark_all c'.
Proof.
  destruct c as [a l], c' as [a' l']. cbn [ctx_addr usb_devs].
  intros -> Ha Hi. unfold mark_all, set_usb_devs. cbn [ctx_addr usb_devs].
  f_equal. revert l' Ha Hi.
  induction l as [|x l IH]; intros [|x' l'] Ha Hi;
    try discriminate; [reflexivity|].
  simpl in *. inversion Ha. inversion Hi.
  unfold set_discovery_status at 1 3. f_equal; [congruence | now apply IH].
Qed.

(** X4. The tags a context carries when a pass begins play no role: two
    contexts at the same address whose lists hold the same devices with
    the same [initialized] flags, whatever their tags, come out of a pass
    in the same state and with the same calls made. *)
Theorem pass_ignores_previous_tags
        (gdl : libusb_context -> Z * list libusb_device)
        (c c' : libusb_context) :
  ctx_addr c = ctx_addr c' ->
  map dev_addr (usb_devs c) = map dev_addr (usb_devs c') ->
  map initialized (usb_devs c) = map initialized (usb_devs c') ->
  refresh_pass gdl c = refresh_pass gdl c'.
Proof.
  intros Hc Ha Hi. rewrite !refresh_pass_eq.
  pose proof (mark_all_ext c c' Hc Ha Hi) as Hm.
  unfold pass_devs, pass_events.
  rewrite !enumerated_eq, !enumeration_result_eq, Hm.
  unfold set_usb_devs. now rewrite Hc.
Qed.

Lemma pass_ignores_previous_tags_witness :
  refresh_pass ex_gdl ex_ctx
  = refresh_pass ex_gdl
      (mk_context 1 [mk_device 100 NO_LONGER_DISCOVERED true;
                     mk_device 200 NOT_YET_SEEN true;
                     mk_device 300 STILL_PRESENT false]).
Proof.
  apply (pass_ignores_previous_tags ex_gdl); reflexivity.
Defined.

(** X5. The initial scan takes the registry lock, marks and enumerates,
    and releases the lock, also when the enumeration fails; it returns
    the result of the enumerator, leaves the list as the enumerator left
    it and, unlike a refresh, emits no notification and removes no
    device, even one left tagged [NO_LONGER_DISCOVERED]. *)
Theorem initial_scan_locks_and_enumerates
        (gdl : libusb_context -> Z * list libusb_device)
        (c : libusb_context) (t : list event) :
  windows_initial_scan_devices gdl (c, t)
  = (enumeration_result gdl c,
     (set_usb_devs c (enumerated gdl c),
      t ++ [E_lock_active_contexts;
            E_get_device_list (ctx_addr c);
            E_unlock_active_contexts])).
Proof.
  unfold windows_initial_scan_devices.
  unfold bind at 1. unfold emit at 1. unfold modify at 1. cbn [fst snd].
  unfold bind at 1. rewrite windows_get_device_list_run.
  rewrite enumerated_eq, enumeration_result_eq.
  unfold bind, emit, modify, ret. cbn [fst snd].
  now rewrite <- !app_assoc.
Qed.

(** * Further properties of the monitor thread *)

Lemma lock_pairs_add (n m : nat) :
  lock_pairs (n + m) = lock_pairs n ++ lock_pairs m.
Proof. induction n as [|n IH]; simpl; [reflexivity | now rewrite IH]. Qed.

Lemma monitor_step_refl (w : world) : monitor_step 0 w w.
Proof.
  split; [reflexivity|]. split; [reflexivity|].
  exists []. now rewrite app_nil_r.
Qed.

Lemma monitor_step_trans (n m : nat) (w1 w2 w3 : world) :
  monitor_step n w1 w2 -> monitor_step m w2 w3 -> monitor_step (n + m) w1 w3.
Proof.
  intros [H1 [C1 [e1 [T1 L1]]]] [H2 [C2 [e2 [T2 L2]]]].
  split; [congruence|]. split; [congruence|].
  exists (e1 ++ e2). split.
  - now rewrite T2, T1, app_assoc.
  - now rewrite filter_app, L1, L2, lock_pairs_add.
Qed.

Lemma monitor_step_call (e : event) (w : world) :
  is_lock_event e = false -> monitor_step 0 w (snd (call e w)).
Proof.
  intro He. unfold call, modify. cbn.
  split; [reflexivity|]. split; [reflexivity|].
  exists [e]. split; [reflexivity|]. cbn. now rewrite He.
Qed.

Lemma call_hWnd (e : event) (w : world) :
  windows_event_hWnd (snd (call e w)) = windows_event_hWnd w.
Proof. reflexivity. Qed.

Lemma filter_none {A : Type} (p : A -> bool) (l : list A) :
  Forall (fun x => p x = false) l -> filter p l = [].
Proof.
  induction 1 as [|x l Hx _ IH]; simpl; [reflexivity|]. now rewrite Hx.
Qed.

Lemma refresh_all_step (gdl : libusb_context -> Z * list libusb_device)
      (w : world) :
  monitor_step 1 w (snd (windows_refresh_device_list_for_all_ctx gdl w))
  /\ windows_event_hWnd (snd (windows_refresh_device_list_for_all_ctx gdl w))
     = windows_event_hWnd w.
Proof.
  rewrite refresh_all_run. cbn [snd]. split; [|reflexivity].
  split; [reflexivity|]. split.
  - cbn [active_contexts set_registry]. rewrite map_map. apply map_ext.
    intro c. now rewrite refresh_pass_eq.
  - exists (dispatch_events gdl (active_contexts w)). split; [reflexivity|].
    unfold dispatch_events. cbn [filter is_lock_event].
    rewrite filter_app, (filter_none _ _ (passes_no_lock gdl _)).
    reflexivity.
Qed.

Lemma deliver_step (os : win32)
      (gdl : libusb_context -> Z * list libusb_device)
      (hWnd : Z) (m : MSG) (w : world) :
  monitor_step (if triggers_refresh m then 1 else 0) w
               (snd (deliver os gdl hWnd m w))
  /\ windows_event_hWnd (snd (deliver os gdl hWnd m w)) = windows_event_hWnd w.
Proof.
  destruct m as [msg wp dt]. unfold deliver, triggers_refresh.
  cbn [msg_message msg_wParam msg_dbch_devicetype].
  unfold windows_proc_callback.
  destruct (Z.eqb_spec msg WM_CREATE) as [->|_].
  { cbn [Z.eqb WM_CREATE WM_DEVICECHANGE andb].
    unfold register_device_interface_to_window_handle, log_error.
    unfold call, bind, modify, gets, ret. cbn.
    destruct (os_RegisterDeviceNotification os =? NULL);
      cbn; (split; [|reflexivity]);
      (split; [reflexivity|]); (split; [reflexivity|]);
      eexists; (split; [rewrite <- ?app_assoc; reflexivity|]); reflexivity. }
  destruct (Z.eqb_spec msg WM_DEVICECHANGE) as [->|_].
  { cbn [andb].
    destruct (((wp =? DBT_DEVICEARRIVAL) || (wp =? DBT_DEVICEREMOVECOMPLETE))
              && (dt =? DBT_DEVTYP_DEVICEINTERFACE)).
    - rewrite bind_run. cbn [ret snd]. apply refresh_all_step.
    - cbn [ret snd]. split; [apply monitor_step_refl | reflexivity]. }
  cbn [andb].
  destruct (msg =? WM_CLOSE).
  { rewrite on_WM_CLOSE_run. cbn [snd]. split; [|reflexivity].
    split; [reflexivity|]. split; [reflexivity|].
    eexists. split; [reflexivity|]. unfold close_events.
    destruct (os_UnregisterDeviceNotification os =? 0),
             (os_DestroyWindow os =? 0); reflexivity. }
  destruct (msg =? WM_DESTROY).
  { unfold on_WM_DESTROY. rewrite bind_run. cbn [ret snd].
    split; [now apply monitor_step_call | reflexivity]. }
  rewrite bind_run. cbn [ret snd].
  split; [now apply monitor_step_call | reflexivity].
Qed.

Lemma count_triggers_cons (m : MSG) (ms : list MSG) :
  count triggers_refresh (m :: ms)
  = ((if triggers_refresh m then 1 else 0) + count triggers_refresh ms)%nat.
Proof. apply count_cons. Qed.

Lemma sent_messages_step (os : win32)
      (gdl : libusb_context -> Z * list libusb_device)
      (hWnd : Z) (ms : list MSG) :
  forall w : world,
    monitor_step (count triggers_refresh ms) w
      (snd (for_each ms (fun m => deliver os gdl hWnd m ;; ret tt)%state w))
    /\ windows_event_hWnd
         (snd (for_each ms (fun m => deliver os gdl hWnd m ;; ret tt)%state w))
       = windows_event_hWnd w.
Proof.
  induction ms as [|m ms IH]; intro w.
  - cbn. split; [apply monitor_step_refl | reflexivity].
  - cbn [for_each]. rewrite !bind_run. cbn [ret fst snd].
    destruct (deliver_step os gdl hWnd m w) as [S1 H1].
    destruct (IH (snd (deliver os gdl hWnd m w))) as [S2 H2].
    rewrite count_triggers_cons. split.
    + exact (monitor_step_trans _ _ _ _ _ S1 S2).
    + now rewrite H2.
Qed.

Lemma message_loop_spec (os : win32)
      (gdl : libusb_context -> Z * list libusb_device)
      (hWnd : Z) (outs : list GetMessage_outcome) :
  forall w : world,
    fst (message_loop os gdl outs hWnd w)
    = (if existsb ends_loop outs then Some tt else None)
    /\ monitor_step (count triggers_refresh (delivered outs)) w
                    (snd (message_loop os gdl outs hWnd w))
    /\ windows_event_hWnd (snd (message_loop os gdl outs hWnd w))
       = windows_event_hWnd w.
Proof.
  induction outs as [|o outs IH]; intro w.
  - cbn [message_loop]. rewrite bind_run. cbn [ret fst snd existsb delivered].
    split; [reflexivity|]. split; [now apply monitor_step_call | reflexivity].
  - cbn [message_loop existsb delivered]. rewrite !bind_run.
    set (w1 := snd (call (E_GetMessage hWnd) w)).
    assert (S1 : monitor_step 0 w w1) by now apply monitor_step_call.
    destruct (sent_messages_step os gdl hWnd (gm_sent o) w1) as [S2 H2].
    set (w2 := snd (for_each (gm_sent o)
                      (fun m => deliver os gdl hWnd m ;; ret tt)%state w1)) in *.
    pose proof (monitor_step_trans _ _ _ _ _ S1 S2) as S12.
    cbn [Nat.add] in S12.
    rewrite count_app.
    assert (Hends : ends_loop o = (gm_ret o =? 0) || (gm_ret o =? -1))
      by reflexivity.
    rewrite !Hends. clear Hends.
    destruct (gm_ret o =? 0); cbn [orb].
    { cbn [ret fst snd]. split; [reflexivity|]. split; [|exact H2].
      change (count triggers_refresh []) with 0%nat. now rewrite Nat.add_0_r. }
    destruct (gm_ret o =? -1); cbn [orb].
    { unfold log_error. rewrite bind_run. cbn [ret fst snd].
      split; [reflexivity|]. split; [|exact H2].
      change (count triggers_refresh []) with 0%nat. rewrite Nat.add_0_r.
      rewrite <- (Nat.add_0_r (count triggers_refresh (gm_sent o))).
      eapply monitor_step_trans; [exact S12 | now apply monitor_step_call]. }
    rewrite !bind_run.
    set (w3 := snd (call E_TranslateMessage w2)).
    assert (S3 : monitor_step 0 w2 w3) by now apply monitor_step_call.
    set (w4 := snd ((if negb (SUCCEEDED (gm_translate o))
                     then log_error "GetMessage" else ret tt) w3)).
    assert (S4 : monitor_step 0 w3 w4 /\
                 windows_event_hWnd w4 = windows_event_hWnd w3).
    { unfold w4. destruct (negb (SUCCEEDED (gm_translate o))).
      - split; [now apply monitor_step_call | reflexivity].
      - split; [apply monitor_step_refl | reflexivity]. }
    set (w5 := snd (call E_DispatchMessage w4)).
    assert (S5 : monitor_step 0 w4 w5) by now apply monitor_step_call.
    destruct (deliver_step os gdl hWnd (gm_msg o) w5) as [S6 H6].
    set (r6 := deliver os gdl hWnd (gm_msg o) w5) in *.
    set (w7 := snd ((if negb (SUCCEEDED (fst r6))
                     then log_error "DispatchMessage" else ret tt) (snd r6))).
    assert (S7 : monitor_step 0 (snd r6) w7 /\
                 windows_event_hWnd w7 = windows_event_hWnd (snd r6)).
    { unfold w7. destruct (negb (SUCCEEDED (fst r6))).
      - split; [now apply monitor_step_call | reflexivity].
      - split; [apply monitor_step_refl | reflexivity]. }
    destruct (IH w7) as [E8 [S8 H8]].
    split; [exact E8|]. split.
    + rewrite count_triggers_cons.
      pose proof (monitor_step_trans _ _ _ _ _ S12 S3) as T1.
      pose proof (monitor_step_trans _ _ _ _ _ T1 (proj1 S4)) as T2.
      pose proof (monitor_step_trans _ _ _ _ _ T2 S5) as T3.
      pose proof (monitor_step_trans _ _ _ _ _ T3 S6) as T4.
      pose proof (monitor_step_trans _ _ _ _ _ T4 (proj1 S7)) as T5.
      pose proof (monitor_step_trans _ _ _ _ _ T5 S8) as T6.
      rewrite !Nat.add_0_r in T6. rewrite <- Nat.add_assoc in T6. exact T6.
    + rewrite H8. destruct S7 as [_ ->]. rewrite H6.
      unfold w5. rewrite call_hWnd. destruct S4 as [_ ->].
      unfold w3. rewrite call_hWnd. exact H2.
Qed.

Lemma thread_main_spec (os : win32)
      (gdl : libusb_context -> Z * list libusb_device) (w : world) :
  fst (windows_event_thread_main os gdl w)
  = (if subscribed os
     then if existsb ends_loop (os_GetMessage os) then Some 0 else None
     else Some (to_DWORD (-1)))
  /\ windows_event_hWnd (snd (windows_event_thread_main os gdl w))
     = (if os_RegisterClass os =? 0 then windows_event_hWnd w
        else if subscribed os then os_CreateWindow os else NULL)
  /\ monitor_step
       (if subscribed os
        then count triggers_refresh (delivered (os_GetMessage os)) else 0)
       w (snd (windows_event_thread_main os gdl w)).
Proof.
  unfold subscribed.
  unfold windows_event_thread_main, init_wnd_class, CreateWindow.
  unfold windows_proc_callback, register_device_interface_to_window_handle.
  unfold log_error, call, bind, modify, gets, ret.
  destruct (os_RegisterClass os =? 0) eqn:R; cbn.
  { split; [reflexivity|]. split; [reflexivity|].
    split; [reflexivity|]. split; [reflexivity|].
    eexists. rewrite <- !app_assoc. split; reflexivity. }
  destruct (os_CreateWindow os =? NULL) eqn:W; cbn.
  { rewrite ?R. cbn.
    split; [reflexivity|]. split; [reflexivity|].
    split; [reflexivity|]. split; [reflexivity|].
    eexists. rewrite <- !app_assoc. split; reflexivity. }
  destruct (os_RegisterDeviceNotification os =? NULL) eqn:N; cbn.
  { rewrite ?R. cbn.
    split; [reflexivity|]. split; [reflexivity|].
    split; [reflexivity|]. split; [reflexivity|].
    eexists. rewrite <- !app_assoc. split; reflexivity. }
  rewrite ?W, ?R. cbn.
  match goal with
  | |- context [message_loop os gdl ?outs ?h ?w0] =>
      destruct (message_loop_spec os gdl h outs w0) as [E [S H]];
      destruct (message_loop os gdl outs h w0) as [a w'] eqn:L
  end.
  cbn [fst snd] in E, S, H. subst a.
  assert (S0 : monitor_step
                 (count triggers_refresh (delivered (os_GetMessage os))) w w').
  { rewrite <- (Nat.add_0_l (count _ _)).
    eapply monitor_step_trans; [|exact S].
    split; [reflexivity|]. split; [reflexivity|].
    eexists. cbn [trace]. rewrite <- !app_assoc. split; reflexivity. }
  destruct (existsb ends_loop (os_GetMessage os)); cbn [fst snd].
  - split; [reflexivity|]. split; [exact H|].
    rewrite <- (Nat.add_0_r (count _ _)).
    eapply monitor_step_trans; [exact S0|].
    split; [reflexivity|]. split; [reflexivity|].
    eexists. cbn [trace]. split; reflexivity.
  - split; [reflexivity|]. split; [exact H | exact S0].
Qed.

(** X6. Over a whole run of the monitor thread, whatever the system
    answers and whatever messages arrive, the calls on the registry lock
    are as many critical sections as the window procedure received
    device-interface arrival or removal messages, each one closed before
    the next is opened (none at all when the subscription failed): a
    dispatch runs once per such message and never otherwise, and the lock
    is not held when the thread blocks or ends. *)
Theorem thread_lock_discipline (os : win32)
        (gdl : libusb_context -> Z * list libusb_device) (w : world) :
  exists evs,
    trace (snd (windows_event_thread_main os gdl w)) = trace w ++ evs
    /\ filter is_lock_event evs
       = lock_pairs (if subscribed os
                     then count triggers_refresh (delivered (os_GetMessage os))
                     else 0).
Proof.
  destruct (thread_main_spec os gdl w) as [_ [_ [_ [_ H]]]]. exact H.
Qed.

(** X7. The monitor thread never adds, drops or reorders a context of the
    registry and never touches the thread handle. Of the globals it only
    writes the window handle: left as it was when the window class could
    not be registered, null when the window or the device notification
    could not be obtained, and otherwise the handle of the window, which
    it still holds when the thread has ended. *)
Theorem thread_keeps_registry_and_handles (os : win32)
        (gdl : libusb_context -> Z * list libusb_device) (w : world) :
  map ctx_addr (active_contexts (snd (windows_event_thread_main os gdl w)))
  = map ctx_addr (active_contexts w)
  /\ windows_event_thread_handle (snd (windows_event_thread_main os gdl w))
     = windows_event_thread_handle w
  /\ windows_event_hWnd (snd (windows_event_thread_main os gdl w))
     = (if os_RegisterClass os =? 0 then windows_event_hWnd w
        else if subscribed os then os_CreateWindow os else NULL).
Proof.
  destruct (thread_main_spec os gdl w) as [_ [H [T [C _]]]].
  split; [exact C|]. split; [exact T | exact H].
Qed.

(** X8. The exit code of the monitor thread: [(DWORD)-1] exactly when the
    subscription failed; otherwise 0 as soon as some [GetMessage] returns
    0 or -1, a failing [GetMessage] thus ending the thread with the same
    code 0 as a regular shutdown; and no exit as long as no [GetMessage]
    has returned 0 or -1. *)
Theorem thread_exit_code (os : win32)
        (gdl : libusb_context -> Z * list libusb_device) (w : world) :
  fst (windows_event_thread_main os gdl w)
  = (if subscribed os
     then if existsb ends_loop (os_GetMessage os) then Some 0 else None
     else Some 4294967295).
Proof.
  destruct (thread_main_spec os gdl w) as [H _]. exact H.
Qed.

(** * Further properties of the lifecycle controller *)

(** X9. [stop] resets nothing: on a started monitor it leaves the window
    handle and the thread handle as they were, so a second [stop] is no
    no-op; it sends [WM_CLOSE] to the same window handle and waits on
    and closes the same thread handle once more. What the second [stop]
    returns is decided by what the system answers to these repeated
    calls: when the wait or the close of the handle, already closed by
    the first [stop], fails, it returns [LIBUSB_ERROR_OTHER], also after
    a first [stop] that returned [LIBUSB_SUCCESS]. [os1] holds the
    answers to the first [stop], [os2] those to the second. *)
Theorem stop_twice_repeats (os1 os2 : win32) (w : world) :
  windows_event_hWnd w <> NULL ->
  windows_event_hWnd (snd (windows_stop_event_monitor os1 w))
  = windows_event_hWnd w
  /\ windows_event_thread_handle (snd (windows_stop_event_monitor os1 w))
     = windows_event_thread_handle w
  /\ trace (snd (windows_stop_event_monitor os2
                   (snd (windows_stop_event_monitor os1 w))))
     = trace w
       ++ stop_events os1 (windows_event_hWnd w)
                      (windows_event_thread_handle w) (device_notify_handle w)
       ++ stop_events os2 (windows_event_hWnd w)
                      (windows_event_thread_handle w) (device_notify_handle w)
  /\ fst (windows_stop_event_monitor os2
            (snd (windows_stop_event_monitor os1 w)))
     = (if (os_WaitForSingleObject os2 =? WAIT_OBJECT_0)
           && negb (os_CloseHandle os2 =? 0)
        then LIBUSB_SUCCESS else LIBUSB_ERROR_OTHER)
  /\ (os_WaitForSingleObject os2 <> WAIT_OBJECT_0 \/ os_CloseHandle os2 = 0 ->
      fst (windows_stop_event_monitor os2
             (snd (windows_stop_event_monitor os1 w)))
      = LIBUSB_ERROR_OTHER).
Proof.
  intro H. rewrite (stop_run os1 w H). cbn [fst snd].
  set (w1 := set_registry _ _ w).
  assert (H1 : windows_event_hWnd w1 <> NULL) by exact H.
  rewrite (stop_run os2 w1 H1). cbn [fst snd].
  split; [reflexivity|]. split; [reflexivity|]. split; [|split].
  - unfold w1. cbn [trace set_registry windows_event_hWnd
                    windows_event_thread_handle device_notify_handle].
    now rewrite <- app_assoc.
  - reflexivity.
  - intros [Hw|Hc].
    + apply Z.eqb_neq in Hw. now rewrite Hw.
    + rewrite Hc. cbn. now rewrite andb_false_r.
Qed.

Lemma stop_twice_repeats_witness :
  fst (windows_stop_event_monitor ex_os_ok ex_world_started) = LIBUSB_SUCCESS
  /\ trace (snd (windows_stop_event_monitor ex_os_after_stop
                   (snd (windows_stop_event_monitor ex_os_ok
                                                    ex_world_started))))
     = [E_SendMessage 5 WM_CLOSE;
        E_UnregisterDeviceNotification 9; E_DestroyWindow 5; E_PostQuitMessage;
        E_WaitForSingleObject 7; E_CloseHandle 7;
        E_SendMessage 5 WM_CLOSE;
        E_WaitForSingleObject 7; E_log_error "WaitForSingleObject";
        E_CloseHandle 7; E_log_error "WaitForSingleObject"]
  /\ fst (windows_stop_event_monitor ex_os_after_stop
            (snd (windows_stop_event_monitor ex_os_ok ex_world_started)))
     = LIBUSB_ERROR_OTHER.
Proof.
  split; [reflexivity|].
  destruct (stop_twice_repeats ex_os_ok ex_os_after_stop ex_world_started)
    as [_ [_ [Ht [_ Hr]]]].
  - discriminate.
  - split; [exact Ht|]. apply Hr. left. discriminate.
Defined.

(** X10. [start] fails exactly when [CreateThread] returns no handle: it
    then logs the failure and returns [LIBUSB_ERROR_OTHER], and in every
    other case returns [LIBUSB_SUCCESS]. Either way the thread handle
    holds what [CreateThread] returned, a handle stored by an earlier
    [start] being overwritten without being closed, and the window handle
    is not touched. *)
Theorem start_fails_iff_no_thread (os : win32) (w : world) :
  (fst (windows_start_event_monitor os w) = LIBUSB_ERROR_OTHER
   <-> os_CreateThread os = NULL)
  /\ (fst (windows_start_event_monitor os w) = LIBUSB_SUCCESS
      <-> os_CreateThread os <> NULL)
  /\ windows_event_thread_handle (snd (windows_start_event_monitor os w))
     = os_CreateThread os
  /\ windows_event_hWnd (snd (windows_start_event_monitor os w))
     = windows_event_hWnd w
  /\ trace (snd (windows_start_event_monitor os w))
     = trace w ++ E_CreateThread
               :: (if os_CreateThread os =? NULL
                   then [E_log_error "CreateThread"] else []).
Proof.
  rewrite start_run.
  destruct (Z.eqb_spec (os_CreateThread os) NULL) as [E|E]; cbn [fst snd].
  - split; [tauto|]. split; [split; [discriminate | tauto]|].
    repeat split.
  - split; [split; [discriminate | tauto]|]. split; [tauto|].
    repeat split.
Qed.

(** X11. The window procedure unregisters on [WM_CLOSE] the notification
    handle it obtained on [WM_CREATE]. Its [WM_CLOSE] handler always
    answers 0 and always attempts both steps, unregistering and
    destroying the window, logging each failure; the quit message is
    posted exactly when the window was destroyed. *)
Theorem close_unregisters_what_create_registered (os : win32)
        (gdl : libusb_context -> Z * list libusb_device)
        (hWnd : Z) (w : world) :
  let created := snd (windows_proc_callback os gdl hWnd WM_CREATE 0 0 w) in
  let closed := windows_proc_callback os gdl hWnd WM_CLOSE 0 0 created in
  fst (windows_proc_callback os gdl hWnd WM_CREATE 0 0 w)
  = (if os_RegisterDeviceNotification os =? NULL then -1 else 0)
  /\ device_notify_handle created = os_RegisterDeviceNotification os
  /\ fst closed = 0
  /\ trace (snd closed)
     = trace created
       ++ [E_UnregisterDeviceNotification (os_RegisterDeviceNotification os)]
       ++ (if os_UnregisterDeviceNotification os =? 0
           then [E_log_error "UnregisterDeviceNotification"] else [])
       ++ [E_DestroyWindow hWnd]
       ++ (if os_DestroyWindow os =? 0
           then [E_log_error "DestroyWindow"] else [E_PostQuitMessage]).
Proof.
  unfold windows_proc_callback, register_device_interface_to_window_handle.
  unfold on_WM_CLOSE, DestroyWindow, on_WM_DESTROY, log_error.
  unfold call, bind, modify, gets, ret. cbn.
  destruct (os_RegisterDeviceNotification os =? NULL);
    destruct (os_UnregisterDeviceNotification os =? 0);
    destruct (os_DestroyWindow os =? 0) eqn:D;
    cbn; rewrite ?D; cbn; rewrite <- ?app_assoc; repeat split.
Qed.

(** * The loopback test program: properties *)

Lemma bindR_returns {A B : Type} (m : Run A) (k : A -> Run B)
      (p p' : program) (a : A) :
  m p = (Returns a, p') -> bindR m k p = k a p'.
Proof. intro H. unfold bindR. now rewrite H. Qed.

Lemma bindR_exits {A B : Type} (m : Run A) (k : A -> Run B)
      (p p' : program) (c : Z) :
  m p = (Exits c, p') -> bindR m k p = (Exits c, p').
Proof. intro H. unfold bindR. now rewrite H. Qed.

Lemma to_uint64_range (x : Z) : in_uint64 (to_uint64 x).
Proof. unfold in_uint64, to_uint64. apply Z.mod_pos_bound. lia. Qed.

Lemma to_uint64_id (x : Z) : in_uint64 x -> to_uint64 x = x.
Proof. unfold in_uint64, to_uint64. intro H. now apply Z.mod_small. Qed.

Lemma to_uint64_add_l (x y : Z) : to_uint64 (to_uint64 x + y) = to_uint64 (x + y).
Proof. unfold to_uint64. now rewrite Zplus_mod_idemp_l. Qed.

Lemma consecutive_length (e : Z) (n : nat) : List.length (consecutive e n) = n.
Proof. unfold consecutive. now rewrite length_map, length_seq. Qed.

Lemma consecutive_nth (e : Z) (n k : nat) :
  (k < n)%nat -> nth_error (consecutive e n) k = Some (to_uint64 (e + Z.of_nat k)).
Proof.
  intro H. unfold consecutive.
  rewrite nth_error_map, nth_error_seq.
  destruct (Nat.ltb_spec k n); [reflexivity | lia].
Qed.

Lemma prefix_nth {A : Type} (l pre : list A) (n k : nat) :
  firstn n l = pre -> (k < n)%nat -> nth_error l k = nth_error pre k.
Proof.
  intros <- H. now rewrite nth_error_firstn, (proj2 (Nat.ltb_lt k n) H).
Qed.

Lemma set_expectedValue_twice (a b : Z) (p : program) :
  set_expectedValue b (set_expectedValue a p) = set_expectedValue b p.
Proof. reflexivity. Qed.

Lemma set_expectedValue_same (p : program) :
  set_expectedValue (expectedValue p) p = p.
Proof. now destruct p. Qed.

(** The loop over a run of consecutive words. *)
Lemma integrity_loop_consecutive (xfr : libusb_transfer) (m : nat) :
  forall (k i : nat) (p : program),
    in_uint64 (expectedValue p) ->
    (forall j, (j < k)%nat ->
               nth_error (xfr_buffer xfr) (i + j)
               = Some (to_uint64 (expectedValue p + Z.of_nat j))) ->
    integrity_loop (k + m) i xfr p
    = integrity_loop m (i + k) xfr
        (set_expectedValue (to_uint64 (expectedValue p + Z.of_nat k)) p).
Proof.
  induction k as [|k IH]; intros i p He Hw.
  - rewrite Z.add_0_r, Nat.add_0_r, (to_uint64_id _ He).
    now rewrite set_expectedValue_same.
  - cbn [Nat.add integrity_loop].
    pose proof (Hw 0%nat ltac:(lia)) as H0.
    rewrite Nat.add_0_r, Z.add_0_r, (to_uint64_id _ He) in H0.
    unfold read_word. rewrite H0.
    unfold bindR at 1. unfold retR at 1.
    unfold bindR at 1. unfold getR at 1.
    rewrite Z.eqb_refl. cbn [negb].
    unfold bindR at 1. unfold update at 1.
    rewrite IH.
    + cbn [expectedValue set_expectedValue].
      rewrite set_expectedValue_twice, to_uint64_add_l.
      replace (i + S k)%nat with (S i + k)%nat by lia.
      replace (expectedValue p + 1 + Z.of_nat k)
        with (expectedValue p + Z.of_nat (S k)) by lia.
      reflexivity.
    + apply to_uint64_range.
    + intros j Hj. cbn [expectedValue set_expectedValue].
      rewrite to_uint64_add_l.
      replace (S i + j)%nat with (i + S j)%nat by lia.
      rewrite (Hw (S j)) by lia. do 2 f_equal. lia.
Qed.

Lemma length_quot (n : nat) : Z.to_nat (Z.quot (8 * Z.of_nat n) 8) = n.
Proof.
  rewrite Z.mul_comm, Z.quot_mul by lia. apply Nat2Z.id.
Qed.

Lemma length_rem (n : nat) : Z.rem (8 * Z.of_nat n) 8 = 0.
Proof. rewrite Z.mul_comm. apply Z.rem_mul. lia. Qed.

Lemma cb_xfr_checked (submit_rc : Z) (xfr : libusb_transfer) (n : nat)
      (first : Z) (p : program) :
  xfr_status xfr = LIBUSB_TRANSFER_COMPLETED ->
  xfr_actual_length xfr = 8 * Z.of_nat n ->
  nth_error (xfr_buffer xfr) 0 = Some first ->
  cb_xfr submit_rc xfr p
  = bindR (integrity_loop n 0 xfr)
          (fun _ => bindR (say L_submit_transfer)
                      (fun _ => if submit_rc <? 0
                                then bindR (say P_resubmit_error)
                                           (fun _ => exit 1)
                                else retR tt))
          (add_call (P_transfer (xfr_actual_length xfr) first
                       ((expectedValue p =? 0)
                        && negb (first =? expectedValue p))) p).
Proof.
  intros Hs Hl Hf. unfold cb_xfr.
  rewrite Hs, Z.eqb_refl. cbn [negb].
  rewrite Hl, length_rem, length_quot. cbn [Z.eqb negb].
  unfold read_word. rewrite Hf.
  unfold bindR at 1. unfold retR at 1.
  unfold bindR at 1. unfold getR at 1.
  unfold bindR at 1. unfold say at 1. unfold update at 1.
  reflexivity.
Qed.

Lemma cb_xfr_consecutive_state (submit_rc : Z) (xfr : libusb_transfer)
      (n : nat) (p : program) :
  xfr_status xfr = LIBUSB_TRANSFER_COMPLETED ->
  xfr_actual_length xfr = 8 * Z.of_nat n ->
  (0 < n)%nat ->
  firstn n (xfr_buffer xfr) = consecutive (expectedValue p) n ->
  in_uint64 (expectedValue p) ->
  0 <= submit_rc ->
  cb_xfr submit_rc xfr p
  = (Returns tt,
     add_call L_submit_transfer
       (set_expectedValue (to_uint64 (expectedValue p + Z.of_nat n))
          (add_call (P_transfer (8 * Z.of_nat n) (expectedValue p) false) p))).
Proof.
  intros Hs Hl Hn Hw He Hr.
  assert (Hnth : forall j, (j < n)%nat ->
            nth_error (xfr_buffer xfr) j
            = Some (to_uint64 (expectedValue p + Z.of_nat j))).
  { intros j Hj. rewrite (prefix_nth _ _ n j Hw Hj).
    now apply consecutive_nth. }
  assert (Hf : nth_error (xfr_buffer xfr) 0 = Some (expectedValue p)).
  { rewrite (Hnth 0%nat Hn), Z.add_0_r. f_equal. now apply to_uint64_id. }
  rewrite (cb_xfr_checked submit_rc xfr n _ p Hs Hl Hf).
  rewrite Z.eqb_refl. cbn [negb]. rewrite andb_false_r, Hl.
  set (p1 := add_call _ p).
  assert (Hloop : integrity_loop n 0 xfr p1
                  = (Returns tt,
                     set_expectedValue
                       (to_uint64 (expectedValue p + Z.of_nat n)) p1)).
  { rewrite <- (Nat.add_0_r n) at 1.
    rewrite (integrity_loop_consecutive xfr 0 n 0 p1); [reflexivity|exact He|].
    intros j Hj. cbn [Nat.add]. now apply Hnth. }
  rewrite (bindR_returns _ _ _ _ _ Hloop).
  unfold bindR, say, update, retR.
  destruct (Z.ltb_spec submit_rc 0) as [L|_]; [lia | reflexivity].
Qed.

(** X12. The callback accepts a run of consecutive counters: when the
    transfer completed with [8 * n] bytes whose words are the [n]
    counters that follow the expected value, wrapping at [2^64], and the
    resubmission is accepted, the callback returns, has resubmitted the
    transfer, and the expected value has advanced by [n]. *)
Theorem cb_xfr_accepts_consecutive (submit_rc : Z) (xfr : libusb_transfer)
        (n : nat) (p : program) :
  xfr_status xfr = LIBUSB_TRANSFER_COMPLETED ->
  xfr_actual_length xfr = 8 * Z.of_nat n ->
  (0 < n)%nat ->
  firstn n (xfr_buffer xfr) = consecutive (expectedValue p) n ->
  in_uint64 (expectedValue p) ->
  0 <= submit_rc ->
  fst (cb_xfr submit_rc xfr p) = Returns tt
  /\ expectedValue (snd (cb_xfr submit_rc xfr p))
     = to_uint64 (expectedValue p + Z.of_nat n)
  /\ calls (snd (cb_xfr submit_rc xfr p))
     = calls p ++ [P_transfer (8 * Z.of_nat n) (expectedValue p) false;
                   L_submit_transfer].
Proof.
  intros Hs Hl Hn Hw He Hr.
  rewrite (cb_xfr_consecutive_state submit_rc xfr n p Hs Hl Hn Hw He Hr).
  cbn [fst snd expectedValue calls add_call set_expectedValue].
  rewrite <- app_assoc. repeat split.
Qed.

Lemma cb_xfr_accepts_consecutive_witness :
  fst (cb_xfr 0 (mk_transfer 0 24 [5; 6; 7; 0])
              (mk_program 0 1 5 0 [] [])) = Returns tt
  /\ expectedValue (snd (cb_xfr 0 (mk_transfer 0 24 [5; 6; 7; 0])
                                (mk_program 0 1 5 0 [] []))) = 8.
Proof.
  destruct (cb_xfr_accepts_consecutive 0 (mk_transfer 0 24 [5; 6; 7; 0])
              3 (mk_program 0 1 5 0 [] [])) as [H1 [H2 _]].
  - reflexivity.
  - reflexivity.
  - lia.
  - reflexivity.
  - unfold in_uint64. cbn. lia.
  - lia.
  - split; [exact H1 | exact H2].
Defined.

(** X13. The callback detects the first gap: when the words of a
    completed transfer follow the expected value for [k] counters and
    the next word, still inside the transfer, is another one, the
    expected value at that point not being 0, the callback reports the
    integrity error with the value expected and the value read, and ends
    the process with code 3 without resubmitting the transfer. *)
Theorem cb_xfr_detects_gap (submit_rc : Z) (xfr : libusb_transfer)
        (n k : nat) (v : Z) (p : program) :
  xfr_status xfr = LIBUSB_TRANSFER_COMPLETED ->
  xfr_actual_length xfr = 8 * Z.of_nat n ->
  (k < n)%nat ->
  firstn k (xfr_buffer xfr) = consecutive (expectedValue p) k ->
  nth_error (xfr_buffer xfr) k = Some v ->
  v <> to_uint64 (expectedValue p + Z.of_nat k) ->
  to_uint64 (expectedValue p + Z.of_nat k) <> 0 ->
  in_uint64 (expectedValue p) ->
  fst (cb_xfr submit_rc xfr p) = Exits 3
  /\ exists first ignored,
      calls (snd (cb_xfr submit_rc xfr p))
      = calls p
        ++ [P_transfer (8 * Z.of_nat n) first ignored;
            P_integrity_error (to_uint64 (expectedValue p + Z.of_nat k)) v].
Proof.
  intros Hs Hl Hk Hw Hv Hne Hnz He.
  assert (Hnth : forall j, (j < k)%nat ->
            nth_error (xfr_buffer xfr) j
            = Some (to_uint64 (expectedValue p + Z.of_nat j))).
  { intros j Hj. rewrite (prefix_nth _ _ k j Hw Hj).
    now apply consecutive_nth. }
  assert (Hf : exists first, nth_error (xfr_buffer xfr) 0 = Some first).
  { destruct k as [|k']; [now exists v|].
    eexists. apply (Hnth 0%nat). lia. }
  destruct Hf as [first Hf].
  rewrite (cb_xfr_checked submit_rc xfr n first p Hs Hl Hf).
  set (p1 := add_call _ p).
  replace n with (k + S (n - S k))%nat by lia.
  assert (Hloop : integrity_loop (k + S (n - S k)) 0 xfr p1
                  = (Exits 3,
                     add_call (P_integrity_error
                                 (to_uint64 (expectedValue p + Z.of_nat k)) v)
                       (set_expectedValue
                          (to_uint64 (expectedValue p + Z.of_nat k)) p1))).
  { rewrite (integrity_loop_consecutive xfr (S (n - S k)) k 0 p1);
      [|exact He | intros j Hj; cbn [Nat.add]; now apply Hnth].
    cbn [Nat.add integrity_loop]. unfold read_word. rewrite Hv.
    unfold bindR, retR, getR, say, update, exit.
    cbn [expectedValue set_expectedValue p1 add_call].
    apply Z.eqb_neq in Hne, Hnz. rewrite Hne, Hnz. reflexivity. }
  rewrite (bindR_exits _ _ _ _ _ Hloop). cbn [fst snd].
  split; [reflexivity|].
  exists first, ((expectedValue p =? 0) && negb (first =? expectedValue p)).
  unfold p1. cbn [calls add_call set_expectedValue].
  rewrite Hl, <- ?app_assoc.
  replace (k + S (n - S k))%nat with n by lia. reflexivity.
Qed.

Lemma cb_xfr_detects_gap_witness :
  fst (cb_xfr 0 (mk_transfer 0 24 [5; 6; 9; 0])
              (mk_program 0 1 5 0 [] [])) = Exits 3.
Proof.
  destruct (cb_xfr_detects_gap 0 (mk_transfer 0 24 [5; 6; 9; 0])
              3 2 9 (mk_program 0 1 5 0 [] [])) as [H _].
  - reflexivity.
  - reflexivity.
  - lia.
  - reflexivity.
  - reflexivity.
  - discriminate.
  - discriminate.
  - unfold in_uint64. cbn. lia.
  - exact H.
Defined.

Lemma integrity_loop_unsynchronised (xfr : libusb_transfer) :
  forall (n i : nat) (p : program),
    expectedValue p = 0 ->
    (forall j, (j < n)%nat ->
               exists v, nth_error (xfr_buffer xfr) (i + j) = Some v /\ v <> 0) ->
    integrity_loop n i xfr p = (Returns tt, p).
Proof.
  induction n as [|n IH]; intros i p He Hw; [reflexivity|].
  cbn [integrity_loop].
  destruct (Hw 0%nat ltac:(lia)) as [v [Hv Hnz]].
  rewrite Nat.add_0_r in Hv. unfold read_word. rewrite Hv.
  unfold bindR at 1. unfold retR at 1.
  unfold bindR at 1. unfold getR at 1.
  rewrite He. apply Z.eqb_neq in Hnz. rewrite Hnz. cbn [negb Z.eqb].
  unfold bindR at 1. unfold retR at 1.
  apply IH; [exact He|].
  intros j Hj. replace (S i + j)%nat with (i + S j)%nat by lia.
  apply Hw. lia.
Qed.

(** X14. As long as the expected value is 0 the callback is not
    synchronised: a completed transfer none of whose words is 0 is
    accepted whatever it holds; the callback marks it as ignored,
    resubmits it, and the expected value stays 0. *)
Theorem cb_xfr_ignores_until_zero (submit_rc : Z) (xfr : libusb_transfer)
        (n : nat) (first : Z) (p : program) :
  xfr_status xfr = LIBUSB_TRANSFER_COMPLETED ->
  xfr_actual_length xfr = 8 * Z.of_nat n ->
  nth_error (xfr_buffer xfr) 0 = Some first ->
  (n <= List.length (xfr_buffer xfr))%nat ->
  Forall (fun v => v <> 0) (firstn n (xfr_buffer xfr)) ->
  expectedValue p = 0 ->
  0 <= submit_rc ->
  cb_xfr submit_rc xfr p
  = (Returns tt,
     add_call L_submit_transfer
       (add_call (P_transfer (8 * Z.of_nat n) first (negb (first =? 0))) p)).
Proof.
  intros Hs Hl Hf Hlen Hw He Hr.
  rewrite (cb_xfr_checked submit_rc xfr n first p Hs Hl Hf).
  rewrite He, Hl. cbn [Z.eqb andb].
  set (p1 := add_call _ p).
  assert (Hloop : integrity_loop n 0 xfr p1 = (Returns tt, p1)).
  { apply integrity_loop_unsynchronised; [exact He|].
    intros j Hj. cbn [Nat.add].
    destruct (nth_error (xfr_buffer xfr) j) as [v|] eqn:E.
    - exists v. split; [reflexivity|].
      rewrite Forall_forall in Hw. apply Hw.
      apply (nth_error_In _ j). rewrite nth_error_firstn.
      now rewrite (proj2 (Nat.ltb_lt j n) Hj).
    - apply nth_error_None in E. lia. }
  rewrite (bindR_returns _ _ _ _ _ Hloop).
  unfold bindR, say, update, retR.
  destruct (Z.ltb_spec submit_rc 0) as [L|_]; [lia | reflexivity].
Qed.

Lemma cb_xfr_ignores_until_zero_witness :
  cb_xfr 0 (mk_transfer 0 16 [41; 42; 0]) (mk_program 0 1 0 0 [] [])
  = (Returns tt,
     mk_program 0 1 0 0 [] [P_transfer 16 41 true; L_submit_transfer]).
Proof.
  apply (cb_xfr_ignores_until_zero 0 (mk_transfer 0 16 [41; 42; 0]) 2 41
           (mk_program 0 1 0 0 [] [])).
  - reflexivity.
  - reflexivity.
  - reflexivity.
  - cbn. lia.
  - cbn. repeat constructor; discriminate.
  - reflexivity.
  - lia.
Defined.

(** X15. A transfer that did not complete, or whose length is not a
    multiple of 8, ends the process with code 3: the callback prints one
    message, frees the transfer and leaves; it neither checks the data
    nor resubmits, and the expected value is as before. *)
Theorem cb_xfr_rejects_bad_transfer (submit_rc : Z) (xfr : libusb_transfer)
        (p : program) :
  xfr_status xfr <> LIBUSB_TRANSFER_COMPLETED
  \/ Z.rem (xfr_actual_length xfr) 8 <> 0 ->
  fst (cb_xfr submit_rc xfr p) = Exits 3
  /\ expectedValue (snd (cb_xfr submit_rc xfr p)) = expectedValue p
  /\ calls (snd (cb_xfr submit_rc xfr p))
     = calls p
       ++ [if xfr_status xfr =? LIBUSB_TRANSFER_COMPLETED
           then P_bad_length (xfr_actual_length xfr)
           else P_transfer_status (xfr_status xfr);
           L_free_transfer].
Proof.
  intro H. unfold cb_xfr.
  destruct (Z.eqb_spec (xfr_status xfr) LIBUSB_TRANSFER_COMPLETED) as [Es|Es];
    cbn [negb].
  - destruct (Z.eqb_spec (Z.rem (xfr_actual_length xfr) 8) 0) as [El|El];
      [tauto|]. cbn [negb].
    unfold bindR, say, update, exit. cbn [fst snd expectedValue calls add_call].
    rewrite <- app_assoc. repeat split.
  - unfold bindR, say, update, exit. cbn [fst snd expectedValue calls add_call].
    rewrite <- app_assoc. repeat split.
Qed.

Lemma cb_xfr_rejects_bad_transfer_witness :
  fst (cb_xfr 0 (mk_transfer 0 12 [5; 6]) (mk_program 0 1 5 0 [] []))
  = Exits 3.
Proof.
  destruct (cb_xfr_rejects_bad_transfer 0 (mk_transfer 0 12 [5; 6])
              (mk_program 0 1 5 0 [] [])) as [H _].
  - right. discriminate.
  - exact H.
Defined.

Lemma consecutive_S (c : Z) (n : nat) :
  consecutive c (S n) = to_uint64 c :: consecutive (to_uint64 (c + 1)) n.
Proof.
  unfold consecutive. cbn [seq map]. rewrite Z.add_0_r. f_equal.
  rewrite <- seq_shift, map_map. apply map_ext. intro k.
  rewrite to_uint64_add_l. f_equal. lia.
Qed.

Lemma consecutive_app (c : Z) (n m : nat) :
  consecutive c (n + m)
  = consecutive c n ++ consecutive (to_uint64 (c + Z.of_nat n)) m.
Proof.
  revert c. induction n as [|n IH]; intro c.
  - cbn [Nat.add consecutive seq map app]. unfold consecutive.
    apply map_ext. intro k. rewrite Z.add_0_r. now rewrite to_uint64_add_l.
  - cbn [Nat.add]. rewrite !consecutive_S, IH. cbn [app]. do 2 f_equal.
    rewrite to_uint64_add_l. f_equal. f_equal. lia.
Qed.

Lemma set_current_write_value_twice (a b : Z) (p : program) :
  set_current_write_value b (set_current_write_value a p)
  = set_current_write_value b p.
Proof. reflexivity. Qed.

(** The loop of [write_data]: [n] counters stored from index [i]. *)
Lemma write_loop_run :
  forall (n i : nat) (p : program),
    (i + n <= List.length (write_buf p))%nat ->
    in_uint64 (current_write_value p) ->
    write_loop n i p
    = (Returns tt,
       set_write_buf (firstn i (write_buf p)
                      ++ consecutive (current_write_value p) n
                      ++ skipn (i + n) (write_buf p))
         (set_current_write_value
            (to_uint64 (current_write_value p + Z.of_nat n)) p)).
Proof.
  induction n as [|n IH]; intros i p Hlen Hc.
  - cbn [write_loop consecutive seq map app]. rewrite Nat.add_0_r, Z.add_0_r.
    rewrite firstn_skipn, (to_uint64_id _ Hc). now destruct p.
  - cbn [write_loop].
    rewrite (bindR_returns _ _ p p (current_write_value p)) by reflexivity.
    set (b := write_buf p) in *. set (c := current_write_value p) in *.
    set (p1 := set_current_write_value (to_uint64 (c + 1)) p).
    rewrite (bindR_returns _ _ p p1 tt) by reflexivity.
    assert (Hst : store_word i c p1
                  = (Returns tt,
                     set_write_buf (firstn i b ++ c :: skipn (S i) b) p1)).
    { unfold store_word, bindR, getR, update.
      cbn [write_buf p1 set_current_write_value]. fold b.
      destruct (Nat.ltb_spec i (List.length b)) as [Hi|Hi]; [reflexivity|lia]. }
    rewrite (bindR_returns _ _ _ _ _ Hst).
    assert (Hf : List.length (firstn i b) = i) by (rewrite length_firstn; lia).
    unfold p1. rewrite IH.
    + cbn [write_buf current_write_value set_write_buf
                     set_current_write_value].
      unfold set_write_buf, set_current_write_value.
      cbn [do_exit devh expectedValue current_write_value write_buf calls].
      f_equal. f_equal.
      * rewrite to_uint64_add_l. f_equal. lia.
      * rewrite consecutive_S, (to_uint64_id _ Hc).
        rewrite firstn_app, Hf, firstn_firstn.
        replace (Nat.min (S i) i) with i by lia.
        replace (S i - i)%nat with 1%nat by lia. cbn [firstn].
        rewrite skipn_app, Hf.
        rewrite (skipn_all2 (firstn i b)) by (rewrite Hf; lia).
        replace (S i + n - i)%nat with (S n) by lia.
        change (skipn (S n) (c :: skipn (S i) b))
          with (skipn n (skipn (S i) b)).
        cbn [app]. rewrite skipn_skipn.
        replace (n + S i)%nat with (i + S n)%nat by lia.
        now rewrite <- !app_assoc.
    + cbn [write_buf set_write_buf set_current_write_value].
      rewrite length_app, Hf. cbn [List.length]. rewrite length_skipn. lia.
    + apply to_uint64_range.
Qed.

Lemma write_data_run (bulk : Z * Z) (count : Z) (p : program) :
  0 <= count <= 8192 ->
  (Z.to_nat count <= List.length (write_buf p))%nat ->
  in_uint64 (current_write_value p) ->
  bulk = (LIBUSB_SUCCESS, count * 8) ->
  write_data bulk count p
  = (Returns tt,
     add_call (L_bulk_transfer EP_DATA_OUT
                 (consecutive (current_write_value p) (Z.to_nat count))
                 (count * 8) 2000)
       (set_write_buf (consecutive (current_write_value p) (Z.to_nat count)
                       ++ skipn (Z.to_nat count) (write_buf p))
          (set_current_write_value
             (to_uint64 (current_write_value p + count)) p))).
Proof.
  intros Hc Hlen Hv ->. unfold write_data.
  change (Z.quot WriteBufferSize 8) with 8192.
  destruct (Z.gtb_spec count 8192) as [G|_]; [lia|].
  rewrite (bindR_returns _ _ _ _ _ (write_loop_run (Z.to_nat count) 0 p Hlen Hv)).
  destruct (Z.ltb_spec (count * 8) (- 2 ^ 31)) as [L|_]; [lia|].
  unfold bindR, getR, say, update, retR.
  cbn [fst snd write_buf set_write_buf set_current_write_value].
  rewrite !Z.eqb_refl. cbn [negb orb firstn app Nat.add].
  rewrite Z2Nat.id by lia.
  rewrite firstn_app, consecutive_length, Nat.sub_diag. cbn [firstn].
  rewrite app_nil_r, firstn_all2 by (rewrite consecutive_length; lia).
  reflexivity.
Qed.

(** X16. [write_data] sends consecutive counters: for a count between 0
    and 8192 and a transfer that succeeds in full, it returns after one
    call of [libusb_bulk_transfer] on endpoint 1 whose data are the
    [count] counters that start at the current value, wrapping at
    [2^64]; the current value has advanced by [count], the head of the
    static buffer holds those counters and the rest of it is
    unchanged. *)
Theorem write_data_sends_consecutive (bulk : Z * Z) (count : Z) (p : program) :
  0 <= count <= 8192 ->
  (Z.to_nat count <= List.length (write_buf p))%nat ->
  in_uint64 (current_write_value p) ->
  bulk = (LIBUSB_SUCCESS, count * 8) ->
  fst (write_data bulk count p) = Returns tt
  /\ current_write_value (snd (write_data bulk count p))
     = to_uint64 (current_write_value p + count)
  /\ calls (snd (write_data bulk count p))
     = calls p
       ++ [L_bulk_transfer EP_DATA_OUT
             (consecutive (current_write_value p) (Z.to_nat count))
             (count * 8) 2000]
  /\ write_buf (snd (write_data bulk count p))
     = consecutive (current_write_value p) (Z.to_nat count)
       ++ skipn (Z.to_nat count) (write_buf p)
  /\ expectedValue (snd (write_data bulk count p)) = expectedValue p.
Proof.
  intros Hc Hlen Hv Hb.
  rewrite (write_data_run bulk count p Hc Hlen Hv Hb).
  cbn [fst snd current_write_value calls write_buf expectedValue add_call
       set_write_buf set_current_write_value].
  repeat split.
Qed.

Lemma write_data_sends_consecutive_witness :
  fst (write_data (0, 24) 3 (mk_program 0 1 0 7 [0; 0; 0; 0] [])) = Returns tt
  /\ calls (snd (write_data (0, 24) 3 (mk_program 0 1 0 7 [0; 0; 0; 0] [])))
     = [L_bulk_transfer 1 [7; 8; 9] 24 2000].
Proof.
  destruct (write_data_sends_consecutive (0, 24) 3
              (mk_program 0 1 0 7 [0; 0; 0; 0] [])) as [H1 [_ [H3 _]]].
  - lia.
  - cbn. lia.
  - unfold in_uint64. cbn. lia.
  - reflexivity.
  - split; [exact H1 | exact H3].
Defined.

(** X17. [write_data] ends the process with code 3 in two cases: when
    the count exceeds 8192, before it has touched the buffer, the
    counter or the device; and when the transfer fails or moves another
    number of bytes, after the counters were written and sent. *)
Theorem write_data_failures (bulk : Z * Z) (count : Z) (p : program) :
  8192 < count
  \/ (0 <= count <= 8192
      /\ (Z.to_nat count <= List.length (write_buf p))%nat
      /\ in_uint64 (current_write_value p)
      /\ (fst bulk <> LIBUSB_SUCCESS \/ snd bulk <> count * 8)) ->
  fst (write_data bulk count p) = Exits 3
  /\ (8192 < count ->
      snd (write_data bulk count p) = add_call P_count_too_large p)
  /\ (count <= 8192 ->
      calls (snd (write_data bulk count p))
      = calls p
        ++ [L_bulk_transfer EP_DATA_OUT
              (consecutive (current_write_value p) (Z.to_nat count))
              (count * 8) 2000;
            P_write_failed (fst bulk)]).
Proof.
  intro H. unfold write_data.
  change (Z.quot WriteBufferSize 8) with 8192.
  destruct (Z.gtb_spec count 8192) as [G|G].
  - unfold bindR, say, update, exit. cbn [fst snd].
    split; [reflexivity|]. split; [reflexivity | lia].
  - destruct H as [H|[Hc [Hlen [Hv Hb]]]]; [lia|].
    rewrite (bindR_returns _ _ _ _ _
               (write_loop_run (Z.to_nat count) 0 p Hlen Hv)).
    destruct (Z.ltb_spec (count * 8) (- 2 ^ 31)) as [L|_]; [lia|].
    assert (Hfail : negb (fst bulk =? LIBUSB_SUCCESS)
                    || negb (snd bulk =? count * 8) = true).
    { destruct Hb as [Hb|Hb]; apply Z.eqb_neq in Hb; rewrite Hb;
        [reflexivity | apply orb_true_r]. }
    unfold bindR, getR, say, update, exit.
    cbn [fst snd write_buf set_write_buf set_current_write_value].
    rewrite Hfail.
    cbn [fst snd calls add_call set_write_buf set_current_write_value
         firstn app Nat.add].
    rewrite firstn_app, consecutive_length, Nat.sub_diag. cbn [firstn].
    rewrite app_nil_r, firstn_all2 by (rewrite consecutive_length; lia).
    rewrite <- app_assoc.
    split; [reflexivity|]. split; [lia | reflexivity].
Qed.

Lemma write_data_failures_witness :
  fst (write_data (0, 24) 8193 ex_program) = Exits 3
  /\ snd (write_data (0, 24) 8193 ex_program)
     = add_call P_count_too_large ex_program.
Proof.
  destruct (write_data_failures (0, 24) 8193 ex_program) as [H1 [H2 _]].
  - left. lia.
  - split; [exact H1 | apply H2; lia].
Defined.

(** X18. Round trip: the counters one call of [write_data] sends, when
    they come back in a completed transfer read by a callback whose
    expected value is the value [write_data] started from, pass the
    check; afterwards the expected value and the current write value
    agree again. *)
Theorem loopback_round_trip (bulk : Z * Z) (count submit_rc : Z)
        (rest : list Z) (p : program) :
  0 < count <= 8192 ->
  (Z.to_nat count <= List.length (write_buf p))%nat ->
  in_uint64 (current_write_value p) ->
  expectedValue p = current_write_value p ->
  bulk = (LIBUSB_SUCCESS, count * 8) ->
  0 <= submit_rc ->
  fst (cb_xfr submit_rc
         (mk_transfer LIBUSB_TRANSFER_COMPLETED (8 * count)
            (firstn (Z.to_nat count)
                    (write_buf (snd (write_data bulk count p))) ++ rest))
         (snd (write_data bulk count p))) = Returns tt
  /\ expectedValue
       (snd (cb_xfr submit_rc
               (mk_transfer LIBUSB_TRANSFER_COMPLETED (8 * count)
                  (firstn (Z.to_nat count)
                          (write_buf (snd (write_data bulk count p))) ++ rest))
               (snd (write_data bulk count p))))
     = current_write_value
         (snd (cb_xfr submit_rc
                 (mk_transfer LIBUSB_TRANSFER_COMPLETED (8 * count)
                    (firstn (Z.to_nat count)
                            (write_buf (snd (write_data bulk count p))) ++ rest))
                 (snd (write_data bulk count p)))).
Proof.
  intros Hc Hlen Hv He Hb Hr.
  rewrite (write_data_run bulk count p ltac:(lia) Hlen Hv Hb). cbn [snd].
  set (n := Z.to_nat count) in *.
  set (c := current_write_value p) in *.
  set (p1 := add_call _ _).
  assert (Hdata : firstn n (write_buf p1) = consecutive c n).
  { unfold p1. cbn [write_buf add_call set_write_buf].
    rewrite firstn_app, consecutive_length, Nat.sub_diag. cbn [firstn].
    rewrite app_nil_r. apply firstn_all2. rewrite consecutive_length. lia. }
  assert (Hexp : expectedValue p1 = c) by exact He.
  rewrite Hdata.
  set (xfr := mk_transfer _ _ _).
  assert (Hn : 8 * count = 8 * Z.of_nat n) by (unfold n; lia).
  rewrite (cb_xfr_consecutive_state submit_rc xfr n p1).
  - cbn [fst snd expectedValue current_write_value add_call
         set_expectedValue].
    split; [reflexivity|]. rewrite Hexp. unfold p1.
    cbn [current_write_value add_call set_write_buf set_current_write_value].
    f_equal. unfold n. lia.
  - reflexivity.
  - exact Hn.
  - unfold n. lia.
  - unfold xfr. cbn [xfr_buffer]. rewrite Hexp.
    rewrite firstn_app, consecutive_length, Nat.sub_diag. cbn [firstn].
    rewrite app_nil_r. apply firstn_all2. rewrite consecutive_length. lia.
  - rewrite Hexp. exact Hv.
  - exact Hr.
Qed.

Lemma loopback_round_trip_witness :
  fst (cb_xfr 0
         (mk_transfer LIBUSB_TRANSFER_COMPLETED (8 * 3)
            (firstn (Z.to_nat 3)
               (write_buf (snd (write_data (0, 24) 3
                                  (mk_program 0 1 7 7 [0; 0; 0; 0] []))))
             ++ [0]))
         (snd (write_data (0, 24) 3 (mk_program 0 1 7 7 [0; 0; 0; 0] []))))
  = Returns tt.
Proof.
  destruct (loopback_round_trip (0, 24) 3 0 [0]
              (mk_program 0 1 7 7 [0; 0; 0; 0] [])) as [H _].
  - lia.
  - cbn. lia.
  - unfold in_uint64. cbn. lia.
  - reflexivity.
  - reflexivity.
  - lia.
  - exact H.
Defined.

Lemma sent_words_app (l1 l2 : list loopback_event) :
  sent_words (l1 ++ l2) = sent_words l1 ++ sent_words l2.
Proof. unfold sent_words. apply flat_map_app. Qed.

(** X19. The writer thread sends one unbroken sequence: as long as no
    signal arrives and every transfer succeeds in full, each turn of
    [continuous_write] sends the 1000 counters that follow those of the
    turn before, so that after [k] turns the words sent are the [1000 k]
    counters from the value it started with; at the first test that
    follows the signal handler it returns 0, without writing again. *)
Theorem continuous_write_stream
        (quiet rest : list (bool * (Z * Z))) (bulk : Z * Z) :
  forall p : program,
    Forall (fun t => t = (false, (LIBUSB_SUCCESS, 1000 * 8))) quiet ->
    do_exit p = 0 ->
    (Z.to_nat 1000 <= List.length (write_buf p))%nat ->
    in_uint64 (current_write_value p) ->
    fst (continuous_write (quiet ++ (true, bulk) :: rest) p) = Returns 0
    /\ do_exit (snd (continuous_write (quiet ++ (true, bulk) :: rest) p)) = 1
    /\ current_write_value
         (snd (continuous_write (quiet ++ (true, bulk) :: rest) p))
       = to_uint64 (current_write_value p
                    + 1000 * Z.of_nat (List.length quiet))
    /\ sent_words
         (calls (snd (continuous_write (quiet ++ (true, bulk) :: rest) p)))
       = sent_words (calls p)
         ++ consecutive (current_write_value p)
                        (List.length quiet * Z.to_nat 1000).
Proof.
  induction quiet as [|t quiet IH]; intros p Hq Hd Hlen Hv.
  - cbn [app continuous_write List.length Nat.mul].
    unfold signalled, sig_hdlr, bindR, update, getR, retR. cbn.
    rewrite Z.add_0_r, app_nil_r, (to_uint64_id _ Hv). repeat split.
  - inversion Hq as [|? ? Ht Hq']; subst.
    cbn [app continuous_write List.length].
    unfold signalled. rewrite (bindR_returns _ _ p p tt) by reflexivity.
    rewrite (bindR_returns _ _ p p (do_exit p)) by reflexivity.
    rewrite Hd. cbn [Z.eqb negb].
    assert (Hw := write_data_run (LIBUSB_SUCCESS, 1000 * 8) 1000 p
                    ltac:(lia) Hlen Hv eq_refl).
    rewrite (bindR_returns _ _ _ _ _ Hw).
    set (N := Z.to_nat 1000) in *.
    set (p1 := add_call _ _) in *.
    destruct (IH p1 Hq') as [R [D [C S]]].
    + exact Hd.
    + unfold p1. cbn [write_buf add_call set_write_buf].
      rewrite length_app, consecutive_length, length_skipn. lia.
    + unfold p1. cbn [current_write_value add_call set_write_buf
                      set_current_write_value]. apply to_uint64_range.
    + split; [exact R|]. split; [exact D|]. split.
      * rewrite C. unfold p1.
        cbn [current_write_value add_call set_write_buf
             set_current_write_value].
        rewrite to_uint64_add_l. f_equal. lia.
      * rewrite S. unfold p1.
        cbn [calls current_write_value add_call set_write_buf
             set_current_write_value].
        rewrite sent_words_app. cbn [sent_words flat_map].
        rewrite app_nil_r, <- app_assoc. f_equal.
        cbn [Nat.mul]. rewrite consecutive_app.
        replace (Z.of_nat N) with 1000 by (unfold N; lia). reflexivity.
Qed.

Lemma continuous_write_stream_witness :
  fst (continuous_write
         ([(false, (0, 8000)); (false, (0, 8000))] ++ (true, (0, 0)) :: [])
         ex_program) = Returns 0
  /\ current_write_value
       (snd (continuous_write
               ([(false, (0, 8000)); (false, (0, 8000))]
                  ++ (true, (0, 0)) :: [])
               ex_program)) = 2000.
Proof.
  destruct (continuous_write_stream
              [(false, (0, 8000)); (false, (0, 8000))] [] (0, 0) ex_program)
    as [H1 [_ [H3 _]]].
  - repeat constructor.
  - reflexivity.
  - apply Nat.leb_le. vm_compute. reflexivity.
  - unfold in_uint64. cbn. lia.
  - split; [exact H1 | exact H3].
Defined.

(** ** What the functions of the program add to the record of calls *)

Lemma adds_only_retR {A : Type} (P : loopback_event -> Prop) (a : A) :
  adds_only P (retR a).
Proof.
  intro p. split; [reflexivity|]. exists []. now rewrite app_nil_r.
Qed.

Lemma adds_only_stop {A : Type} (P : loopback_event -> Prop) (o : outcome A) :
  adds_only P (fun p => (o, p)).
Proof.
  intro p. split; [reflexivity|]. exists []. now rewrite app_nil_r.
Qed.

Lemma adds_only_getR {A : Type} (P : loopback_event -> Prop)
      (f : program -> A) :
  adds_only P (getR f).
Proof.
  intro p. split; [reflexivity|]. exists []. now rewrite app_nil_r.
Qed.

Lemma adds_only_update (P : loopback_event -> Prop) (f : program -> program) :
  (forall p, devh (f p) = devh p /\ calls (f p) = calls p) ->
  adds_only P (update f).
Proof.
  intros H p. destruct (H p) as [Hd Hc]. split; [exact Hd|].
  exists []. cbn. now rewrite app_nil_r.
Qed.

Lemma adds_only_say (P : loopback_event -> Prop) (e : loopback_event) :
  P e -> adds_only P (say e).
Proof.
  intros He p. split; [reflexivity|]. exists [e]. split; [reflexivity|].
  now constructor.
Qed.

Lemma adds_only_bindR {A B : Type} (P : loopback_event -> Prop)
      (m : Run A) (k : A -> Run B) :
  adds_only P m -> (forall a, adds_only P (k a)) -> adds_only P (bindR m k).
Proof.
  intros Hm Hk p. unfold bindR.
  destruct (Hm p) as [Hd [evs [Hc Hp]]].
  destruct (m p) as [[a|c| |] p1]; cbn [snd] in *;
    try (split; [exact Hd|]; exists evs; now split).
  destruct (Hk a p1) as [Hd' [evs' [Hc' Hp']]].
  split; [congruence|]. exists (evs ++ evs'). split.
  - now rewrite Hc', Hc, app_assoc.
  - now apply Forall_app.
Qed.

Lemma adds_only_integrity_loop (xfr : libusb_transfer) :
  forall n i : nat,
    adds_only (fun e => is_cleanup e = false) (integrity_loop n i xfr).
Proof.
  induction n as [|n IH]; intro i; cbn [integrity_loop].
  - apply adds_only_retR.
  - apply adds_only_bindR.
    + unfold read_word. destruct (nth_error _ _);
        [apply adds_only_retR | apply adds_only_stop].
    + intro v. apply adds_only_bindR; [apply adds_only_getR|]. intro e.
      apply adds_only_bindR; [|intro; apply IH].
      destruct (negb (v =? e)).
      * destruct (negb (e =? 0)); [|apply adds_only_retR].
        apply adds_only_bindR; [now apply adds_only_say|].
        intro. apply adds_only_stop.
      * apply adds_only_update. intro p. now split.
Qed.

Lemma adds_only_cb_xfr (submit_rc : Z) (xfr : libusb_transfer) :
  adds_only (fun e => is_cleanup e = false) (cb_xfr submit_rc xfr).
Proof.
  unfold cb_xfr.
  destruct (negb (xfr_status xfr =? LIBUSB_TRANSFER_COMPLETED)).
  { repeat (apply adds_only_bindR; [now apply adds_only_say | intro]).
    apply adds_only_stop. }
  destruct (negb (Z.rem (xfr_actual_length xfr) 8 =? 0)).
  { repeat (apply adds_only_bindR; [now apply adds_only_say | intro]).
    apply adds_only_stop. }
  apply adds_only_bindR.
  { unfold read_word. destruct (nth_error _ _);
      [apply adds_only_retR | apply adds_only_stop]. }
  intro first. apply adds_only_bindR; [apply adds_only_getR|]. intro e.
  apply adds_only_bindR; [now apply adds_only_say|]. intro.
  apply adds_only_bindR; [apply adds_only_integrity_loop|]. intro.
  apply adds_only_bindR; [now apply adds_only_say|]. intro.
  destruct (submit_rc <? 0); [|apply adds_only_retR].
  apply adds_only_bindR; [now apply adds_only_say|]. intro.
  apply adds_only_stop.
Qed.

Lemma adds_only_run_callbacks (l : list (libusb_transfer * Z)) :
  adds_only (fun e => is_cleanup e = false) (run_callbacks l).
Proof.
  induction l as [|[xfr rc] l IH]; cbn [run_callbacks].
  - apply adds_only_retR.
  - apply adds_only_bindR; [apply adds_only_cb_xfr | intro; exact IH].
Qed.

Lemma adds_only_events_loop (turns : list (bool * handle_events_outcome)) :
  forall rc : Z,
    adds_only (fun e => is_cleanup e = false) (events_loop turns rc).
Proof.
  induction turns as [|[sig he] turns IH]; intro rc; cbn [events_loop].
  - apply adds_only_stop.
  - apply adds_only_bindR.
    { unfold signalled, sig_hdlr. destruct sig; [|apply adds_only_retR].
      apply adds_only_update. intro p. now split. }
    intro. apply adds_only_bindR; [apply adds_only_getR|]. intro d.
    destruct (negb (d =? 0)); [apply adds_only_retR|].
    apply adds_only_bindR; [now apply adds_only_say|]. intro.
    apply adds_only_bindR; [apply adds_only_run_callbacks|]. intro.
    destruct (negb (he_rc he =? LIBUSB_SUCCESS));
      [apply adds_only_retR | apply IH].
Qed.

Lemma adds_only_start_transfer_in (alloc submit_rc : Z) :
  adds_only (fun e => is_cleanup e = false)
            (start_transfer_in alloc submit_rc).
Proof.
  unfold start_transfer_in.
  apply adds_only_bindR; [now apply adds_only_say|]. intro.
  destruct (alloc =? NULL).
  - apply adds_only_bindR; [now apply adds_only_say|]. intro.
    apply adds_only_retR.
  - repeat (apply adds_only_bindR; [now apply adds_only_say | intro]).
    apply adds_only_retR.
Qed.

Lemma start_transfer_in_returns (alloc submit_rc : Z) (p : program) :
  exists r, fst (start_transfer_in alloc submit_rc p) = Returns r.
Proof.
  unfold start_transfer_in, bindR, say, update, retR.
  destruct (alloc =? NULL); eexists; reflexivity.
Qed.

Lemma bindR_assoc {A B C : Type} (m : Run A) (k : A -> Run B)
      (h : B -> Run C) (p : program) :
  bindR (bindR m k) h p = bindR m (fun a => bindR (k a) h) p.
Proof.
  unfold bindR. destruct (m p) as [[a|c| |] p1]; reflexivity.
Qed.

Lemma bindR_say {B : Type} (e : loopback_event) (k : unit -> Run B)
      (p : program) :
  bindR (say e) k p = k tt (add_call e p).
Proof. reflexivity. Qed.

Lemma calls_add_call (e : loopback_event) (p : program) :
  calls (add_call e p) = calls p ++ [e].
Proof. reflexivity. Qed.

Lemma bindR_update {B : Type} (f : program -> program) (k : unit -> Run B)
      (p : program) :
  bindR (update f) k p = k tt (f p).
Proof. reflexivity. Qed.

Lemma bindR_getR {A B : Type} (f : program -> A) (k : A -> Run B)
      (p : program) :
  bindR (getR f) k p = k (f p) p.
Proof. reflexivity. Qed.

(** X20. When no device with the expected identifiers is found, [main]
    makes no further libusb call but [libusb_exit]; it neither claims an
    interface nor starts a transfer or the writer thread, does not call
    [libusb_close], and returns what [libusb_init_context] returned: 0,
    the success status, when the initialisation had succeeded. *)
Theorem main_without_device (o : libusb_oracle) (p : program) :
  0 <= o_init_context o ->
  o_open_device o = NULL ->
  fst (main o p) = Returns (o_init_context o)
  /\ calls (snd (main o p))
     = calls p
       ++ [L_signal; L_init_context;
           L_open_device_with_vid_pid 0x04b4 0x00F0;
           P_no_device; L_exit].
Proof.
  intros Hi Ho. unfold main.
  rewrite !bindR_say.
  destruct (Z.ltb_spec (o_init_context o) 0) as [L|_]; [lia|].
  rewrite bindR_say.
  unfold bindR, getR, say, update, retR.
  cbn [devh set_devh add_call]. rewrite Ho. cbn [Z.eqb NULL negb].
  cbn [fst snd calls devh set_devh add_call Z.eqb NULL negb].
  rewrite <- !app_assoc. split; reflexivity.
Qed.

Lemma main_without_device_witness :
  fst (main (mk_libusb_oracle 0 NULL 0 0 0 []) ex_program) = Returns 0.
Proof.
  destruct (main_without_device (mk_libusb_oracle 0 NULL 0 0 0 [])
              ex_program) as [H _].
  - cbn. lia.
  - reflexivity.
  - exact H.
Defined.

(** X21. Whenever [main] returns, it has wound up in order: the calls
    that release the interface, close the device and leave libusb occur
    only at the very end, [libusb_release_interface] exactly when the
    interface had been claimed, [libusb_close] exactly when a device had
    been opened, and [libusb_exit] always, as the last call. *)
Theorem main_winds_up (o : libusb_oracle) (p p' : program) (rc : Z) :
  main o p = (Returns rc, p') ->
  0 <= o_init_context o
  /\ exists mid,
      calls p'
      = calls p ++ mid
        ++ (if negb (o_open_device o =? NULL) && (0 <=? o_claim_interface o)
            then [L_release_interface 0] else [])
        ++ (if o_open_device o =? NULL then [] else [L_close])
        ++ [L_exit]
      /\ Forall (fun e => is_cleanup e = false) mid.
Proof.
  unfold main. rewrite !bindR_say.
  destruct (Z.ltb_spec (o_init_context o) 0) as [L|Hi].
  { rewrite bindR_say. unfold exit. discriminate. }
  rewrite bindR_say, bindR_update, bindR_getR.
  cbn [devh set_devh add_call].
  set (p0 := set_devh _ _).
  assert (Hc0 : calls p0 = calls p ++ [L_signal; L_init_context;
                  L_open_device_with_vid_pid 0x04b4 0x00F0]).
  { unfold p0. cbn. now rewrite <- !app_assoc. }
  assert (Hd0 : devh p0 = o_open_device o) by reflexivity.
  destruct (Z.eqb_spec (o_open_device o) NULL) as [Ho|Ho].
  - (* no device *)
    rewrite bindR_assoc, bindR_say.
    unfold bindR, getR, say, update, retR. cbn [devh add_call].
    rewrite Hd0, Ho. cbn [Z.eqb NULL negb andb].
    intro H. injection H as _ Hp. rewrite <- Hp. clear Hp.
      split; [exact Hi|].
    exists [L_signal; L_init_context;
            L_open_device_with_vid_pid 0x04b4 0x00F0; P_no_device].
    split; [|repeat constructor].
    rewrite !calls_add_call, Hc0, <- !app_assoc. reflexivity.
  - rewrite bindR_assoc, bindR_say.
    destruct (Z.ltb_spec (o_claim_interface o) 0) as [Lc|Hcl].
    + (* the claim fails *)
      rewrite bindR_assoc, bindR_say.
      unfold bindR, getR, say, update, retR. cbn [devh add_call].
      rewrite Hd0. apply Z.eqb_neq in Ho. rewrite Ho. cbn [negb andb].
      destruct (Z.leb_spec 0 (o_claim_interface o)) as [G|_]; [lia|].
      intro H. injection H as _ Hp. rewrite <- Hp. clear Hp.
      split; [exact Hi|].
      exists [L_signal; L_init_context;
              L_open_device_with_vid_pid 0x04b4 0x00F0;
              L_claim_interface 0; P_claim_error (o_claim_interface o)].
      split; [|repeat constructor].
      rewrite !calls_add_call, Hc0, <- !app_assoc. reflexivity.
    + (* the event loop *)
      set (p1 := add_call (L_claim_interface 0) p0).
      rewrite bindR_assoc.
      destruct (adds_only_start_transfer_in (o_alloc_transfer o)
                  (o_submit_transfer o) p1) as [Hd2 [e2 [Hc2 Hf2]]].
      destruct (start_transfer_in_returns (o_alloc_transfer o)
                  (o_submit_transfer o) p1) as [r Hr].
      destruct (start_transfer_in _ _ p1) as [o2 p2] eqn:E2.
      cbn [fst snd] in *. subst o2.
      rewrite (bindR_returns _ _ _ _ _ E2).
      rewrite bindR_assoc, bindR_say, bindR_assoc.
      set (p3 := add_call L_beginthreadex p2).
      destruct (adds_only_events_loop (o_events o) (o_claim_interface o) p3)
        as [Hd4 [e4 [Hc4 Hf4]]].
      destruct (events_loop _ _ p3) as [[rc4|c4| |] p4] eqn:E4;
        cbn [snd] in *;
        try (unfold bindR at 1; rewrite E4; discriminate).
      rewrite (bindR_returns _ _ _ _ _ E4).
      rewrite bindR_assoc, bindR_say.
      unfold bindR, getR, say, update, retR. cbn [devh add_call].
      rewrite Hd4. unfold p3. cbn [devh add_call]. rewrite Hd2.
      unfold p1. cbn [devh add_call]. rewrite Hd0.
      apply Z.eqb_neq in Ho. rewrite Ho. cbn [negb andb].
      destruct (Z.leb_spec 0 (o_claim_interface o)) as [_|G]; [|lia].
      intro H. injection H as _ Hp. rewrite <- Hp. clear Hp.
      split; [exact Hi|].
      exists ([L_signal; L_init_context;
               L_open_device_with_vid_pid 0x04b4 0x00F0;
               L_claim_interface 0] ++ e2 ++ [L_beginthreadex] ++ e4).
      split.
      * rewrite !calls_add_call, Hc4. unfold p3.
        rewrite calls_add_call, Hc2. unfold p1.
        rewrite calls_add_call, Hc0, <- !app_assoc. reflexivity.
      * apply Forall_app. split; [repeat constructor|].
        apply Forall_app. split; [exact Hf2|].
        apply Forall_app. split; [repeat constructor | exact Hf4].
Qed.

Lemma main_winds_up_witness :
  0 <= 0
  /\ exists mid,
      calls (snd (main (mk_libusb_oracle 0 5 0 9 0
                          [(true, mk_handle_events [] 0)])
                       (mk_program 0 NULL 0 0 [] [])))
      = [] ++ mid ++ [L_release_interface 0] ++ [L_close] ++ [L_exit]
      /\ Forall (fun e => is_cleanup e = false) mid.
Proof.
  apply (main_winds_up
           (mk_libusb_oracle 0 5 0 9 0 [(true, mk_handle_events [] 0)])
           (mk_program 0 NULL 0 0 [] [])
           (snd (main (mk_libusb_oracle 0 5 0 9 0
                         [(true, mk_handle_events [] 0)])
                      (mk_program 0 NULL 0 0 [] [])))
           0).
  reflexivity.
Defined.



